(** * Simplechaindb ledger core: a shallow embedding of [bigchaindb/core.py]

    The [Bigchain] class of [core.py] talks to a RethinkDB store holding two
    tables, [backlog] (pending transactions) and [bigchain] (blocks).  The
    embedding keeps the shape of the Python code:

    - documents are records, a table is the list of its documents in scan
      order, and the primary key [id] is what [table_get] looks up;
    - Python exceptions are the constructors of [exn]; a method that only
      reads the store returns a [res]; a method that writes is a function
      from the store to a result and the store it leaves behind;
    - the consensus plugin, [util], [crypto], [tool] and [payload] modules
      are not part of [core.py]: their functions are variables of the
      section the methods live in. *)

From Stdlib Require Import String ZArith Bool Arith Lia List.
Import ListNotations.
Local Open Scope string_scope.
Local Open Scope list_scope.

(* ------------------------------------------------------------------ *)
(** ** Exceptions and results *)

(** The exception classes that [core.py] raises or catches by name, plus
    the built-in ones its expressions can raise.  [Exception] is a bare
    [Exception(...)] instance, the error [get_blocks_status_containing_tx]
    raises for a corrupted chain. *)
Inductive exn : Type :=
| Exception
| AttributeError
| UnboundLocalError
| IndexError
| KeyError
| TypeError
| ValueError
| ReqlNonExistenceError
| GenesisBlockAlreadyExistsError
| ImproperVoteError
| OperationError
| TransactionDoesNotExist
| TransactionOwnerError
| DoubleSpend
| InvalidHash
| InvalidSignature
| InvalidTransaction
| InvalidPayload
| BalanceNotEnough
| InvalidAsset
| OverflowError.

Inductive res (A : Type) : Type :=
| OK (a : A)
| Raise (e : exn).
Arguments OK {A} a.
Arguments Raise {A} e.

Definition bind {A B : Type} (m : res A) (k : A -> res B) : res B :=
  match m with
  | OK a => k a
  | Raise e => Raise e
  end.

Notation "x <- m ;; k" := (bind m (fun x => k))
  (at level 100, m at next level, right associativity).

(* ------------------------------------------------------------------ *)
(** ** Documents *)

(** A Python [float]: not a number, an infinity, or the number
    [m * 2^e]. *)
Inductive pyfloat : Type :=
| F_nan
| F_inf (negative : bool)
| F_num (m e : Z).

(** A value of a payload field that [core.py] reads: a [str], an [int]
    or a [float]. *)
Inductive pyval : Type :=
| PStr (s : string)
| PNum (z : Z)
| PFloat (f : pyfloat).

(** Python compares numbers by value, an [int] with a [float] too;
    [None] when one side is a not-a-number, which no test relates to
    anything. *)
Definition float_compare (x y : pyfloat) : option comparison :=
  match x, y with
  | F_nan, _ | _, F_nan => None
  | F_inf a, F_inf b =>
      Some (if a then (if b then Eq else Lt) else (if b then Gt else Eq))
  | F_inf a, F_num _ _ => Some (if a then Lt else Gt)
  | F_num _ _, F_inf b => Some (if b then Gt else Lt)
  | F_num m1 e1, F_num m2 e2 =>
      let e0 := Z.min e1 e2 in
      Some (m1 * 2 ^ (e1 - e0) ?= m2 * 2 ^ (e2 - e0))%Z
  end.

(** [x >= y] and [x == y] on numbers *)
Definition float_ge (x y : pyfloat) : bool :=
  match float_compare x y with
  | Some Gt | Some Eq => true
  | Some Lt | None => false
  end.

Definition float_eqb (x y : pyfloat) : bool :=
  match float_compare x y with
  | Some Eq => true
  | _ => false
  end.

(** The least [int] that [float()] refuses with [OverflowError]: halfway
    between the largest float and [2^1024], where rounding leaves the
    range. *)
Definition float_overflow : Z := 2 ^ 1024 - 2 ^ 970.

(** A Python dict with string keys, in insertion order. *)
Definition dict (V : Type) : Type := list (string * V).

Fixpoint dict_get {V : Type} (d : dict V) (k : string) : option V :=
  match d with
  | [] => None
  | (k', v) :: r => if String.eqb k' k then Some v else dict_get r k
  end.

(** [d[k] = v]: an existing key keeps its position and takes the new
    value, a new key goes to the end. *)
Fixpoint dict_set {V : Type} (d : dict V) (k : string) (v : V) : dict V :=
  match d with
  | [] => [(k, v)]
  | (k', v') :: r =>
      if String.eqb k' k then (k', v) :: r else (k', v') :: dict_set r k v
  end.

Definition dict_keys {V : Type} (d : dict V) : list string := map fst d.
Definition dict_values {V : Type} (d : dict V) : list V := map snd d.

Definition payload : Type := dict pyval.

(** The owners argument of [create_transaction]: [core.py] passes a list
    of keys in some calls and a single key in others. *)
Inductive owners : Type :=
| OneKey (k : string)
| KeyList (l : list string).

(** [{'txid': ..., 'cid': ...}] *)
Record TxInput : Type := mkTxInput { txid : string; cid : nat }.

Definition TxInput_eqb (a b : TxInput) : bool :=
  String.eqb (txid a) (txid b) && Nat.eqb (cid a) (cid b).

(** [condition['condition']['details']]: a mapping that carries a
    ['public_key'] for a simple signature condition and nested details
    otherwise. *)
#[warnings="-register-all"]
Inductive Details : Type :=
| mkDetails (public_key : option string) (subfulfillments : list Details).

Definition public_key (d : Details) : option string :=
  match d with mkDetails pk _ => pk end.

Record Condition : Type := mkCondition {
  c_cid : nat;
  new_owners : list string;
  details : Details
}.

Record Fulfillment : Type := mkFulfillment {
  fid : nat;
  current_owners : list string;
  input : option TxInput;
  fulfillment : option string
}.

Record TxBody : Type := mkTxBody {
  fulfillments : list Fulfillment;
  conditions : list Condition;
  operation : string;
  timestamp : string;
  data_payload : payload;
  data_uuid : string
}.

Record Transaction : Type := mkTransaction {
  tx_id : string;
  transaction : TxBody;
  assignee : option string
}.

Record Vote : Type := mkVote {
  voting_for_block : string;
  previous_block : string;
  is_block_valid : bool;
  invalid_reason : option string;
  vote_timestamp : string
}.

Record SignedVote : Type := mkSignedVote {
  node_pubkey : string;
  signature : string;
  vote_body : Vote
}.

Record BlockBody : Type := mkBlockBody {
  blk_timestamp : string;
  transactions : list Transaction;
  blk_node_pubkey : string;
  voters : list string
}.

Record Block : Type := mkBlock {
  id : string;
  block : BlockBody;
  blk_signature : string;
  votes : list SignedVote;
  block_number : option Z
}.

(** [{'txid': ..., 'cid': ..., 'previous': ...}], the entries of the
    currency lists. *)
Record CurrencyId : Type := mkCurrencyId {
  cur_txid : string;
  cur_cid : nat;
  cur_previous : pyval
}.

(** What [get_last_currency] returns: the string ['init'], a transaction,
    or [None]. *)
Inductive last_tx : Type :=
| init
| found (tx : Transaction)
| none.

(** [Bigchain.BLOCK_INVALID], [BLOCK_VALID], [BLOCK_UNDECIDED] *)
Inductive status : Type :=
| BLOCK_INVALID
| BLOCK_VALID
| BLOCK_UNDECIDED.

Definition status_eqb (a b : status) : bool :=
  match a, b with
  | BLOCK_INVALID, BLOCK_INVALID => true
  | BLOCK_VALID, BLOCK_VALID => true
  | BLOCK_UNDECIDED, BLOCK_UNDECIDED => true
  | _, _ => false
  end.

(* ------------------------------------------------------------------ *)
(** ** The store *)

Inductive durability : Type := soft | hard.

(** The write queries [core.py] sends. *)
Inductive db_write : Type :=
| insert_backlog (doc : Transaction) (d : durability)
| insert_bigchain (doc : Block) (d : durability)
| update_bigchain (key : string) (appended : SignedVote)
                  (new_block_number : option Z).

(** The two tables in scan order and the write queries run so far (oldest
    first). *)
Record Store : Type := mkStore {
  backlog : list Transaction;
  bigchain : list Block;
  journal : list db_write
}.

(** [r.table('bigchain').get(key)] *)
Definition table_get (bc : list Block) (key : string) : option Block :=
  find (fun b => String.eqb (id b) key) bc.

(** [r.table('bigchain').concat_map(lambda doc: doc['block']['transactions'])] *)
Definition all_transactions (bc : list Block) : list Transaction :=
  flat_map (fun doc => transactions (block doc)) bc.

Definition block_has_tx (key : string) (b : Block) : bool :=
  existsb (fun tx => String.eqb (tx_id tx) key) (transactions (block b)).

(** Modelled from the spec: the secondary index [transaction_id] of
    [bigchain] is declared outside [core.py]; it is "multi-valued, derived
    from every contained transaction.id", so [get_all(value, index)] yields
    the blocks holding a transaction with that id. *)
Definition get_all_transaction_id (bc : list Block) (value : string)
  : list Block :=
  filter (block_has_tx value) bc.

(** The primary key of [bigchain] is [id]: no two documents share it. *)
Definition primary_key_ok (bc : list Block) : Prop := NoDup (map id bc).

(** A method that writes: the result, and the store as the call leaves it
    (also when it raises). *)
Definition M (A : Type) : Type := Store -> res A * Store.

(** [{'inserted': n, 'errors': m}] *)
Record response : Type := mkResponse { inserted : nat; errors : nat }.

(** [insert(doc)] with the default conflict policy: a document whose
    primary key is already present is reported as an error and not
    written. *)
Definition run_insert_bigchain (doc : Block) (d : durability) (s : Store)
  : response * Store :=
  match table_get (bigchain s) (id doc) with
  | Some _ => (mkResponse 0 1, s)
  | None =>
      (mkResponse 1 0,
       mkStore (backlog s) (bigchain s ++ [doc])
               (journal s ++ [insert_bigchain doc d]))
  end.

Definition run_insert_backlog (doc : Transaction) (d : durability) (s : Store)
  : response * Store :=
  if existsb (fun t => String.eqb (tx_id t) (tx_id doc)) (backlog s)
  then (mkResponse 0 1, s)
  else (mkResponse 1 0,
        mkStore (backlog s ++ [doc]) (bigchain s)
                (journal s ++ [insert_backlog doc d])).

(** [get(key).update({'votes': r.row['votes'].append(vote), ...})]: the
    patch is applied to the document with that key; a missing document is
    skipped. *)
Definition patch_block (appended : SignedVote) (new_number : option Z)
  (doc : Block) : Block :=
  mkBlock (id doc) (block doc) (blk_signature doc)
          (votes doc ++ [appended])
          (match new_number with
           | Some n => Some n
           | None => block_number doc
           end).

Fixpoint update_by_key (bc : list Block) (key : string)
  (f : Block -> Block) : list Block :=
  match bc with
  | [] => []
  | b :: r =>
      if String.eqb (id b) key then f b :: r
      else b :: update_by_key r key f
  end.

Definition run_update_bigchain (key : string) (appended : SignedVote)
  (new_number : option Z) (s : Store) : Store :=
  mkStore (backlog s)
          (update_by_key (bigchain s) key (patch_block appended new_number))
          (journal s ++ [update_bigchain key appended new_number]).

(* ------------------------------------------------------------------ *)
(** ** Python helpers *)

(** A [for] loop whose body may raise: the loop state is threaded through
    the elements in order and the first exception ends the loop. *)
Fixpoint for_each {A S : Type} (body : S -> A -> res S) (l : list A) (s : S)
  : res S :=
  match l with
  | [] => OK s
  | a :: r => s' <- body s a ;; for_each body r s'
  end.

(** [math.ceil(n / 2)] and [math.floor(n / 2)] for a length [n]. *)
Definition ceil_half (n : Z) : Z := ((n + 1) / 2)%Z.
Definition floor_half (n : Z) : Z := (n / 2)%Z.

(** [sum] of a list of ints. *)
Definition py_sum (l : list Z) : Z := fold_right Z.add 0%Z l.

(** [list(map(operator.mul, xs, ys))] on two lists of bools: the product
    of two bools is the int 1 when both are [True] and 0 otherwise; [map]
    stops with the shorter list. *)
Fixpoint map_mul (xs ys : list bool) : list Z :=
  match xs, ys with
  | x :: xs', y :: ys' => (Z.b2z x * Z.b2z y)%Z :: map_mul xs' ys'
  | _, _ => []
  end.

(** [x in d.values()] *)
Definition in_values (x : status) (d : dict status) : bool :=
  existsb (status_eqb x) (dict_values d).

(** [list(d.values()).count(x)] *)
Definition count_values (x : status) (d : dict status) : nat :=
  length (filter (status_eqb x) (dict_values d)).

(* ------------------------------------------------------------------ *)
(** ** The methods of [Bigchain] *)

Section Bigchain.

(** [self.me] *)
Variable me : string.

(** [self.consensus.verify_vote_signature] and [util.verify_vote_signature] *)
Variable consensus_verify_vote_signature : Block -> SignedVote -> bool.
Variable util_verify_vote_signature : Block -> SignedVote -> bool.

(** [util.condition_details_has_owner] *)
Variable condition_details_has_owner : Details -> string -> bool.

(** The tallies of [block_election_status]. *)
Definition vote_list (b : Block) : list Z :=
  let vote_cast := map (fun v => is_block_valid (vote_body v)) (votes b) in
  let vote_validity :=
    map (fun v => consensus_verify_vote_signature b v) (votes b) in
  map_mul vote_cast vote_validity.

Definition n_valid_votes (b : Block) : Z := py_sum (vote_list b).

Definition n_invalid_votes (b : Block) : Z :=
  (Z.of_nat (length (vote_list b)) - n_valid_votes b)%Z.

Definition block_election_status (b : Block) : status :=
  let n_voters := Z.of_nat (length (voters (block b))) in
  if (n_invalid_votes b >=? ceil_half n_voters)%Z then BLOCK_INVALID
  else if (n_valid_votes b >? floor_half n_voters)%Z then BLOCK_VALID
  else BLOCK_UNDECIDED.

(** The query plucks ['votes'], ['id'] and ['block']['voters'], the
    fields the election reads; the documents are kept whole here. *)
Definition search_block_election_on_index (bc : list Block)
  (value : string) : list Block :=
  get_all_transaction_id bc value.

(** [{block['id']: self.block_election_status(block) for block in blocks}] *)
Definition validity_of (blocks : list Block) : dict status :=
  fold_left (fun d b => dict_set d (id b) (block_election_status b))
            blocks [].

Definition get_blocks_status_containing_tx (bc : list Block)
  (txid : string) : res (option (dict status)) :=
  let blocks := search_block_election_on_index bc txid in
  match blocks with
  | [] => OK None
  | _ :: _ =>
      let validity := validity_of blocks in
      if Nat.ltb 1 (count_values BLOCK_VALID validity)
      then Raise Exception
      else OK (Some validity)
  end.

(** [for _id in validity: target_block_id = _id; if VALID: break] *)
Fixpoint pick_target (validity : dict status) (target : option string)
  : option string :=
  match validity with
  | [] => target
  | (_id, st) :: r =>
      if status_eqb st BLOCK_VALID then Some _id
      else pick_target r (Some _id)
  end.

Definition get_transaction (bc : list Block) (txid : string)
  : res (option Transaction) :=
  validity <- get_blocks_status_containing_tx bc txid ;;
  match validity with
  | None | Some [] => OK None
  | Some validity =>
      let validity :=
        filter (fun kv => negb (status_eqb (snd kv) BLOCK_INVALID))
               validity in
      match pick_target validity None with
      | None => OK None
      | Some target_block_id =>
          match table_get bc target_block_id with
          | None => Raise ReqlNonExistenceError
          | Some doc =>
              match filter (fun tx => String.eqb (tx_id tx) txid)
                           (transactions (block doc)) with
              | [] => Raise IndexError
              | tx :: _ => OK (Some tx)
              end
          end
      end
  end.

(** [fulfillments.contains(lambda f: f['input'] == tx_input)] *)
Definition spends (tx_input : TxInput) (tx : Transaction) : bool :=
  existsb (fun f => match input f with
                    | Some i => TxInput_eqb i tx_input
                    | None => false
                    end)
          (fulfillments (transaction tx)).

(** The body of the counting loop of [get_spent]. *)
Definition count_spending (bc : list Block) (num_valid_transactions : nat)
  (tx : Transaction) : res nat :=
  found <- get_transaction bc (tx_id tx) ;;
  let n := match found with
           | Some _ => S num_valid_transactions
           | None => num_valid_transactions
           end in
  if Nat.ltb 1 n then Raise DoubleSpend else OK n.

Definition get_spent (bc : list Block) (tx_input : TxInput)
  : res (option Transaction) :=
  let transactions := filter (spends tx_input) (all_transactions bc) in
  match transactions with
  | [] => OK None
  | first :: _ =>
      num_valid_transactions <-
        for_each (count_spending bc) transactions 0 ;;
      match num_valid_transactions with
      | O => OK None
      | S _ => OK (Some first)
      end
  end.

(** [conditions.contains(lambda c: c['new_owners'].contains(owner))] *)
Definition names_owner (owner : string) (tx : Transaction) : bool :=
  existsb (fun c => existsb (String.eqb owner) (new_owners c))
          (conditions (transaction tx)).

(** The body of the loop over the conditions of [tx] in [get_owned_ids].
    The loop state is the local variable [tx_input] ([None] while it is
    unbound) and the list [owned]. *)
Definition owned_condition (bc : list Block) (owner : string)
  (tx : Transaction) (st : option TxInput * list TxInput) (c : Condition)
  : res (option TxInput * list TxInput) :=
  let '(tx_input, owned) := st in
  tx_input <-
    (if Nat.eqb (length (new_owners c)) 1 then
       match public_key (details c) with
       | None => Raise KeyError
       | Some pk =>
           if String.eqb pk owner
           then OK (Some (mkTxInput (tx_id tx) (c_cid c)))
           else OK tx_input
       end
     else
       if condition_details_has_owner (details c) owner
       then OK (Some (mkTxInput (tx_id tx) (c_cid c)))
       else OK tx_input) ;;
  match tx_input with
  | None => Raise UnboundLocalError
  | Some i =>
      spent <- get_spent bc i ;;
      match spent with
      | Some _ => OK (tx_input, owned)
      | None => OK (tx_input, owned ++ [i])
      end
  end.

(** The body of the loop over the matching transactions. *)
Definition owned_transaction (bc : list Block) (owner : string)
  (st : option TxInput * list TxInput) (tx : Transaction)
  : res (option TxInput * list TxInput) :=
  validity <- get_blocks_status_containing_tx bc (tx_id tx) ;;
  match validity with
  | None => Raise AttributeError
  | Some validity =>
      if negb (in_values BLOCK_VALID validity)
         && negb (in_values BLOCK_UNDECIDED validity)
      then OK st
      else for_each (owned_condition bc owner tx)
                    (conditions (transaction tx)) st
  end.

Definition get_owned_ids (bc : list Block) (owner : string)
  : res (list TxInput) :=
  let response := filter (names_owner owner) (all_transactions bc) in
  st <- for_each (owned_transaction bc owner) response (None, []) ;;
  OK (snd st).

(** The [raise] of [has_previous_vote] evaluates
    [ImproperVoteError('...').format(...)] first: an exception instance
    has no attribute [format], so the expression itself raises
    [AttributeError] and the [ImproperVoteError] is never raised. *)
Fixpoint scan_votes (b : Block) (vs : list SignedVote) : res bool :=
  match vs with
  | [] => OK false
  | v :: r =>
      if String.eqb (node_pubkey v) me then
        if util_verify_vote_signature b v then OK true
        else Raise AttributeError
      else scan_votes b r
  end.

Definition has_previous_vote (b : Block) : res bool :=
  match votes b with
  | [] => OK false
  | _ :: _ => scan_votes b (votes b)
  end.


(* ---------------------------------------------------------------- *)
(** *** Validation *)

(** [self.me_private], [self.nodes_except_me] *)
Variable me_private : string.
Variable nodes_except_me : list string.

(** The consensus plugin.  It is handed the [Bigchain] instance and
    reads the ledger through it. *)
Variable consensus_create_transaction :
  owners -> owners -> option TxInput -> string -> payload -> Transaction.
Variable consensus_sign_transaction : Transaction -> string -> Transaction.
Variable consensus_validate_transaction :
  Store -> Transaction -> res Transaction.
Variable consensus_validate_block : Store -> Block -> res unit.

Definition create_transaction := consensus_create_transaction.
Definition sign_transaction := consensus_sign_transaction.

Definition validate_transaction (s : Store) (tx : Transaction)
  : res Transaction :=
  consensus_validate_transaction s tx.

(** The [except] clause of [is_valid_transaction]; the classes of the
    [exceptions] module are taken as unrelated subclasses of
    [Exception]. *)
Definition is_valid_transaction_catches (e : exn) : bool :=
  match e with
  | ValueError | OperationError | TransactionDoesNotExist
  | TransactionOwnerError | DoubleSpend | InvalidHash
  | InvalidSignature => true
  | _ => false
  end.

(** Returns the transaction itself when it is valid and [False]
    ([None] here) when one of the listed exceptions was raised. *)
Definition is_valid_transaction (s : Store) (tx : Transaction)
  : res (option Transaction) :=
  match validate_transaction s tx with
  | OK _ => OK (Some tx)
  | Raise e =>
      if is_valid_transaction_catches e then OK None else Raise e
  end.

(** The body of the loop of [validate_block]. *)
Definition validate_block_transaction (s : Store) (_ : unit)
  (tx : Transaction) : res unit :=
  valid <- is_valid_transaction s tx ;;
  match valid with
  | Some _ => OK tt
  | None => _ <- validate_transaction s tx ;; OK tt
  end.

Definition validate_block (s : Store) (b : Block) : res Block :=
  voted <- has_previous_vote b ;;
  if voted : bool then OK b
  else
    _ <- consensus_validate_block s b ;;
    _ <- for_each (validate_block_transaction s)
                  (transactions (block b)) tt ;;
    OK b.

(** [except Exception: return False] *)
Definition is_valid_block (s : Store) (b : Block) : bool :=
  match validate_block s b with
  | OK _ => true
  | Raise _ => false
  end.

(* ---------------------------------------------------------------- *)
(** *** Blocks and votes *)

(** [util.timestamp()], [util.serialize], [crypto.hash_data] and
    [crypto.SigningKey(key).sign(data)] *)
Variable util_timestamp : string.
Variable util_serialize_block : BlockBody -> string.
Variable util_serialize_vote : Vote -> string.
Variable crypto_hash_data : string -> string.
Variable crypto_sign : string -> string -> string.

Definition create_block (validated_transactions : list Transaction)
  : res Block :=
  if Nat.eqb (length validated_transactions) 0
  then Raise OperationError
  else
    let body := mkBlockBody util_timestamp validated_transactions me
                            (nodes_except_me ++ [me]) in
    let block_data := util_serialize_block body in
    let block_hash := crypto_hash_data block_data in
    let block_signature := crypto_sign me_private block_data in
    OK (mkBlock block_hash body block_signature [] None).

Definition write_block (b : Block) (d : durability) : M unit :=
  fun s => (OK tt, snd (run_insert_bigchain b d s)).

(** [random.choice] draws anew at every call: [write_transaction] takes
    the outcome of its own draw. *)
Section OneDraw.

Variable random_choice : list string -> string.

Definition write_transaction (signed_transaction : Transaction)
  (d : durability) : M response :=
  fun s =>
    let assignee :=
      match nodes_except_me with
      | [] => me
      | _ :: _ => random_choice nodes_except_me
      end in
    let signed_transaction :=
      mkTransaction (tx_id signed_transaction)
                    (transaction signed_transaction) (Some assignee) in
    let '(response, s') := run_insert_backlog signed_transaction d s in
    (OK response, s').

End OneDraw.

(** The draw of a method that writes one transaction. *)
Variable random_choice : list string -> string.

Definition create_genesis_block : M Block :=
  fun s =>
    let blocks_count := length (bigchain s) in
    if negb (Nat.eqb blocks_count 0)
    then (Raise GenesisBlockAlreadyExistsError, s)
    else
      let payload := [("message", PStr "Hello World from the BigchainDB")] in
      let transaction :=
        create_transaction (KeyList [me]) (KeyList [me]) None "GENESIS"
                           payload in
      let transaction_signed := sign_transaction transaction me_private in
      match create_block [transaction_signed] with
      | Raise e => (Raise e, s)
      | OK created =>
          let genesis := mkBlock (id created) (block created)
                                 (blk_signature created) (votes created)
                                 (Some 0%Z) in
          let '(_, s') := write_block genesis hard s in
          (OK genesis, s')
      end.

Definition vote (b : Block) (previous_block_id : string) (decision : bool)
  (invalid_reason : option string) : SignedVote :=
  let vote := mkVote (id b) previous_block_id decision invalid_reason
                     util_timestamp in
  let vote_data := util_serialize_vote vote in
  let signature := crypto_sign me_private vote_data in
  mkSignedVote me signature vote.

(** Returns [None] on both paths. *)
Definition write_vote (b : Block) (v : SignedVote) (number : Z)
  : M unit :=
  fun s =>
    match has_previous_vote b with
    | Raise e => (Raise e, s)
    | OK true => (OK tt, s)
    | OK false =>
        let new_number :=
          match block_number b with
          | None => Some number
          | Some _ => None
          end in
        (OK tt,
         run_update_bigchain (voting_for_block (vote_body v)) v
                             new_number s)
    end.

(* ---------------------------------------------------------------- *)
(** *** Currency *)

(** [tool.get_payload_type], [tool.get_last_txid] ([None] for ['init']),
    [tool.get_current_account], [tool.get_pair_payload],
    [payload.validate_payload_format] and [float] on a string. *)
Variable tool_get_payload_type : Transaction -> string.
Variable tool_get_last_txid : list CurrencyId -> option CurrencyId.
Variable tool_get_current_account : last_tx -> res pyval.
Variable tool_get_pair_payload : payload -> payload * payload.
Variable p_validate_payload_format : payload -> bool.
Variable float_of_str : string -> res pyfloat.

(** [float(x) <= 0].  An [int] out of the range of floats raises;
    otherwise the conversion rounds to the nearest float, which keeps the
    sign, and a not-a-number compares false. *)
Definition float_le_zero (x : pyval) : res bool :=
  match x with
  | PNum z =>
      if (float_overflow <=? Z.abs z)%Z then Raise OverflowError
      else OK (z <=? 0)%Z
  | PFloat f => OK (float_ge (F_num 0 0) f)
  | PStr s => f <- float_of_str s ;; OK (float_ge (F_num 0 0) f)
  end.

(** [a >= b]: numbers by value, strings by code points, and a string
    against a number is a [TypeError]. *)
Definition py_ge (a b : pyval) : res bool :=
  match a, b with
  | PNum x, PNum y => OK (x >=? y)%Z
  | PStr x, PStr y => OK (negb (String.ltb x y))
  | PNum x, PFloat y => OK (float_ge (F_num x 0) y)
  | PFloat x, PNum y => OK (float_ge x (F_num y 0))
  | PFloat x, PFloat y => OK (float_ge x y)
  | _, _ => Raise TypeError
  end.

(** [last_tx['id']] *)
Definition last_tx_id (l : last_tx) : res string :=
  match l with
  | found tx => OK (tx_id tx)
  | init | none => Raise TypeError
  end.

(** [{'txid': tx['id'], 'cid': condition['cid'],
      'previous': tx['transaction']['data']['payload']['previous']}] *)
Definition currency_id (tx : Transaction) (c : Condition)
  : res (option CurrencyId) :=
  match dict_get (data_payload (transaction tx)) "previous" with
  | None => Raise KeyError
  | Some previous => OK (Some (mkCurrencyId (tx_id tx) (c_cid c) previous))
  end.

(** The body of the loop over the conditions of [tx], the same text in
    [get_bigchain_currency_ids] and [get_backlog_currency_ids]. *)
Definition currency_condition (owner : string) (tx : Transaction)
  (st : option CurrencyId * list CurrencyId) (c : Condition)
  : res (option CurrencyId * list CurrencyId) :=
  let '(tx_input, owned) := st in
  tx_input <-
    (if Nat.eqb (length (new_owners c)) 1 then
       match public_key (details c) with
       | None => Raise KeyError
       | Some pk =>
           if String.eqb pk owner then currency_id tx c else OK tx_input
       end
     else
       if condition_details_has_owner (details c) owner
       then currency_id tx c
       else OK tx_input) ;;
  if String.eqb (tool_get_payload_type tx) "currency" then
    match tx_input with
    | None => Raise UnboundLocalError
    | Some i => OK (tx_input, owned ++ [i])
    end
  else OK (tx_input, owned).

Definition bigchain_currency_transaction (bc : list Block) (owner : string)
  (st : option CurrencyId * list CurrencyId) (tx : Transaction)
  : res (option CurrencyId * list CurrencyId) :=
  validity <- get_blocks_status_containing_tx bc (tx_id tx) ;;
  match validity with
  | None => Raise AttributeError
  | Some validity =>
      if negb (in_values BLOCK_VALID validity)
         && negb (in_values BLOCK_UNDECIDED validity)
      then OK st
      else for_each (currency_condition owner tx)
                    (conditions (transaction tx)) st
  end.

Definition get_bigchain_currency_ids (s : Store) (owner : string)
  : res (list CurrencyId) :=
  let response :=
    filter (names_owner owner) (all_transactions (bigchain s)) in
  st <- for_each (bigchain_currency_transaction (bigchain s) owner)
                 response (None, []) ;;
  OK (snd st).

Definition get_backlog_currency_ids (s : Store) (owner : string)
  : res (list CurrencyId) :=
  let response := filter (names_owner owner) (backlog s) in
  st <- for_each (fun st tx =>
                    for_each (currency_condition owner tx)
                             (conditions (transaction tx)) st)
                 response (None, []) ;;
  OK (snd st).

Definition get_transaction_from_backlog (s : Store) (txid : string)
  : option Transaction :=
  match filter (fun tx => String.eqb (tx_id tx) txid) (backlog s) with
  | [] => None
  | tx :: _ => Some tx
  end.

Definition get_last_currency (s : Store) (public_key : string)
  : res last_tx :=
  backloglist <- get_backlog_currency_ids s public_key ;;
  bigchainlist <- get_bigchain_currency_ids s public_key ;;
  match tool_get_last_txid (backloglist ++ bigchainlist) with
  | None => OK init
  | Some lastid =>
      match get_transaction_from_backlog s (cur_txid lastid) with
      | Some tx => OK (found tx)
      | None =>
          tx <- get_transaction (bigchain s) (cur_txid lastid) ;;
          match tx with
          | Some tx => OK (found tx)
          | None => OK none
          end
      end
  end.

(** The sender leg of [transfer_currency], built once the balance check
    has passed. *)
Definition sender_leg (sender_pub receiver_pub : string)
  (sender_payload : payload) (sender_account : pyval)
  (sender_last_tx : last_tx) : res Transaction :=
  let sender_payload := dict_set sender_payload "account" sender_account in
  previous <- last_tx_id sender_last_tx ;;
  let sender_payload := dict_set sender_payload "previous" (PStr previous) in
  let sender_payload := dict_set sender_payload "trader" (PStr receiver_pub) in
  let sender_tx := create_transaction (OneKey me) (OneKey sender_pub) None
                                      "CREATE" sender_payload in
  OK (sign_transaction sender_tx me_private).

(** The receiver leg. *)
Definition receiver_leg (s : Store) (sender_pub receiver_pub : string)
  (receiver_payload : payload) : res Transaction :=
  receiver_last_tx <- get_last_currency s receiver_pub ;;
  receiver_account <- tool_get_current_account receiver_last_tx ;;
  let receiver_payload :=
    dict_set receiver_payload "account" receiver_account in
  previous <- match receiver_last_tx with
              | init => OK "genesis"
              | _ => last_tx_id receiver_last_tx
              end ;;
  let receiver_payload :=
    dict_set receiver_payload "previous" (PStr previous) in
  let receiver_payload :=
    dict_set receiver_payload "trader" (PStr sender_pub) in
  let receiver_tx := create_transaction (OneKey me) (OneKey receiver_pub)
                                        None "CREATE" receiver_payload in
  OK (sign_transaction receiver_tx me_private).

(** [if self.is_valid_transaction(a) and self.is_valid_transaction(b)]:
    the second test is only run when the first one holds. *)
Definition both_valid (s : Store) (a b : Transaction) : res bool :=
  va <- is_valid_transaction s a ;;
  match va with
  | None => OK false
  | Some _ =>
      vb <- is_valid_transaction s b ;;
      match vb with
      | None => OK false
      | Some _ => OK true
      end
  end.

(** [transfer_currency] up to its two writes: the signed legs, once
    both have passed validation. *)
Definition transfer_legs (s : Store) (sender_pub receiver_pub : string)
  (payload_dic : payload) : res (Transaction * Transaction) :=
  if p_validate_payload_format payload_dic then
    cost <- match dict_get payload_dic "amount" with
            | Some c => OK c
            | None => Raise KeyError
            end ;;
    not_positive <- float_le_zero cost ;;
    if not_positive : bool then Raise InvalidPayload
    else
      sender_last_tx <- get_last_currency s sender_pub ;;
      sender_account <- tool_get_current_account sender_last_tx ;;
      enough <- py_ge sender_account cost ;;
      if enough : bool then
        let '(sender_payload, receiver_payload) :=
          tool_get_pair_payload payload_dic in
        sender_tx_signed <-
          sender_leg sender_pub receiver_pub sender_payload sender_account
                     sender_last_tx ;;
        receiver_tx_signed <-
          receiver_leg s sender_pub receiver_pub receiver_payload ;;
        ok <- both_valid s sender_tx_signed receiver_tx_signed ;;
        if ok : bool then OK (sender_tx_signed, receiver_tx_signed)
        else Raise InvalidTransaction
      else Raise BalanceNotEnough
  else Raise InvalidPayload.

(** [transfer_currency] writes twice, so [random.choice] is drawn twice:
    [random_choice] is the first draw, [second_choice] the second. *)
Variable second_choice : list string -> string.

Definition transfer_currency (sender_pub sender_priv receiver_pub : string)
  (payload_dic : payload) : M response :=
  fun s =>
    match transfer_legs s sender_pub receiver_pub payload_dic with
    | Raise e => (Raise e, s)
    | OK (sender_tx_signed, receiver_tx_signed) =>
        let '(sender_response, s1) :=
          write_transaction random_choice sender_tx_signed soft s in
        let '(receiver_response, s2) :=
          write_transaction second_choice receiver_tx_signed soft s1 in
        (sender_response, s2)
    end.

(* ---------------------------------------------------------------- *)
(** *** Further queries on blocks *)

(** [len(response.items) > 0] on [get_all(transaction_id, index)] *)
Definition transaction_exists (bc : list Block) (transaction_id : string)
  : bool :=
  Nat.ltb 0 (length (get_all_transaction_id bc transaction_id)).

(** [doc['votes'].contains(lambda vote: vote['node_pubkey'] == self.me)] *)
Definition voted_by_me (doc : Block) : bool :=
  existsb (fun v => String.eqb (node_pubkey v) me) (votes doc).

(** [order_by(r.desc('block_number'))] and
    [order_by(r.asc(r.row['block']['timestamp']))] are run by the store. *)
Variable order_by_block_number_desc : list Block -> list Block.
Variable order_by_timestamp_asc : list Block -> list Block.

(** [r.row['block_number'] == 0]; a document without the field does not
    pass the filter. *)
Definition is_number_zero (doc : Block) : bool :=
  match block_number doc with
  | Some n => (n =? 0)%Z
  | None => false
  end.

Definition get_last_voted_block (bc : list Block) : res Block :=
  let last_voted :=
    firstn 1
      (order_by_block_number_desc
         (filter voted_by_me
            (filter (fun doc => existsb (String.eqb me) (voters (block doc)))
                    bc))) in
  match last_voted with
  | [] =>
      match filter is_number_zero bc with
      | [] => Raise IndexError
      | genesis :: _ => OK genesis
      end
  | b :: _ => OK b
  end.

Definition get_unvoted_blocks (bc : list Block) : list Block :=
  let unvoted :=
    order_by_timestamp_asc (filter (fun doc => negb (voted_by_me doc)) bc) in
  match unvoted with
  | first :: rest => if is_number_zero first then rest else unvoted
  | [] => unvoted
  end.

(** [fulfillments.contains(lambda c: c['current_owners'].contains(key))] *)
Definition sent_by (key : string) (tx : Transaction) : bool :=
  existsb (fun f => existsb (String.eqb key) (current_owners f))
          (fulfillments (transaction tx)).

(** [if not public_key]: [None] and the empty string are falsy. *)
Definition get_total_tx_number (bc : list Block) (public_key : option string)
  : Z :=
  match public_key with
  | None | Some "" => (Z.of_nat (length (all_transactions bc)) - 1)%Z
  | Some key =>
      let response1 :=
        length (filter (names_owner key) (all_transactions bc)) in
      let response2 :=
        length (filter (sent_by key) (all_transactions bc)) in
      Z.of_nat (response1 + response2)
  end.

(* ---------------------------------------------------------------- *)
(** *** Charging currency *)

(** The three payload fields [charge_currency] sets. *)
Definition charge_payload (s : Store) (pub_key : string)
  (payload_dic : payload) : res payload :=
  last_tx <- get_last_currency s pub_key ;;
  match last_tx with
  | init =>
      let payload_dic := dict_set payload_dic "account" (PNum 0) in
      let payload_dic := dict_set payload_dic "previous" (PStr "genesis") in
      OK (dict_set payload_dic "trader" (PStr "node"))
  | _ =>
      account <- tool_get_current_account last_tx ;;
      let payload_dic := dict_set payload_dic "account" account in
      previous <- last_tx_id last_tx ;;
      let payload_dic := dict_set payload_dic "previous" (PStr previous) in
      OK (dict_set payload_dic "trader" (PStr "node"))
  end.

Definition charge_currency (pub_key : string) (payload_dic : payload)
  : M response :=
  fun s =>
    if p_validate_payload_format payload_dic then
      match charge_payload s pub_key payload_dic with
      | Raise e => (Raise e, s)
      | OK payload_dic =>
          let tx := create_transaction (OneKey me) (OneKey pub_key) None
                                       "CREATE" payload_dic in
          let tx_signed := sign_transaction tx me_private in
          match is_valid_transaction s tx_signed with
          | Raise e => (Raise e, s)
          | OK (Some _) => write_transaction random_choice tx_signed soft s
          | OK None => (Raise InvalidTransaction, s)
          end
      end
    else (Raise InvalidPayload, s).

Definition get_current_balance (s : Store) (pub_key : string) : res pyval :=
  last_tx <- get_last_currency s pub_key ;;
  tool_get_current_account last_tx.

(* ---------------------------------------------------------------- *)
(** *** Assets *)

(** [a == b]: numbers by value; a string never equals a number. *)
Definition pyval_eqb (a b : pyval) : bool :=
  match a, b with
  | PStr x, PStr y => String.eqb x y
  | PNum x, PNum y => (x =? y)%Z
  | PNum x, PFloat y => float_eqb (F_num x 0) y
  | PFloat x, PNum y => float_eqb x (F_num y 0)
  | PFloat x, PFloat y => float_eqb x y
  | _, _ => false
  end.

(** [tx['transaction']['data']['payload']['asset'] == asset]; a payload
    without the field does not pass the filter. *)
Definition carries_asset (asset : pyval) (tx : Transaction) : bool :=
  match dict_get (data_payload (transaction tx)) "asset" with
  | Some a => pyval_eqb a asset
  | None => false
  end.

(** The body of the loop of [get_tx_list_by_asset]. *)
Definition asset_transaction (bc : list Block) (rtx : list Transaction)
  (tx : Transaction) : res (list Transaction) :=
  validity <- get_blocks_status_containing_tx bc (tx_id tx) ;;
  match validity with
  | None => Raise AttributeError
  | Some validity =>
      if negb (in_values BLOCK_VALID validity)
         && negb (in_values BLOCK_UNDECIDED validity)
      then OK rtx
      else OK (rtx ++ [tx])
  end.

Definition get_tx_list_by_asset (bc : list Block) (asset : pyval)
  : res (list Transaction) :=
  let response := filter (carries_asset asset) (all_transactions bc) in
  for_each (asset_transaction bc) response [].

Definition create_asset (pub_key : string) (asset_payload : payload)
  : M response :=
  fun s =>
    if p_validate_payload_format asset_payload then
      match dict_get asset_payload "asset" with
      | None => (Raise KeyError, s)
      | Some asset =>
          match get_tx_list_by_asset (bigchain s) asset with
          | Raise e => (Raise e, s)
          | OK tx_list =>
              if Nat.eqb (length tx_list) 0 then
                let transaction :=
                  create_transaction (OneKey me) (OneKey pub_key) None
                                     "CREATE" asset_payload in
                let transaction_signed :=
                  sign_transaction transaction me_private in
                write_transaction random_choice transaction_signed soft s
              else (Raise InvalidAsset, s)
          end
      end
    else (Raise InvalidPayload, s).

(** [tool.sort_asset_tx_by_timestamp], whose result is read with
    [popleft]. *)
Variable tool_sort_asset_tx_by_timestamp :
  list Transaction -> list Transaction.

(** [owner in (self.nodes_except_me + [self.me])] for some owner of the
    first condition. *)
Definition owned_by_federation (c : Condition) : bool :=
  existsb (fun owner => existsb (String.eqb owner) (nodes_except_me ++ [me]))
          (new_owners c).

Definition get_last_tx_by_asset (bc : list Block) (asset : pyval)
  : res Transaction :=
  rtx <- get_tx_list_by_asset bc asset ;;
  if Nat.ltb 0 (length rtx) then
    match tool_sort_asset_tx_by_timestamp rtx with
    | [] => Raise IndexError
    | response :: _ =>
        match conditions (transaction response) with
        | [] => Raise IndexError
        | c :: _ =>
            if owned_by_federation c then Raise InvalidAsset
            else OK response
        end
    end
  else Raise InvalidAsset.

Definition get_owner (bc : list Block) (asset : pyval) : res (list string) :=
  tx <- get_last_tx_by_asset bc asset ;;
  match conditions (transaction tx) with
  | [] => Raise IndexError
  | c :: _ => OK (new_owners c)
  end.

Definition transfer_asset (old_owner_pub old_owner_priv new_owner_pub : string)
  (tx_input : TxInput) : M response :=
  fun s =>
    match get_transaction (bigchain s) (txid tx_input) with
    | Raise e => (Raise e, s)
    | OK None => (Raise TypeError, s)
    | OK (Some tx) =>
        let asset_payload :=
          dict_set (data_payload (transaction tx)) "issue" (PStr "transfer") in
        let transcation :=
          create_transaction (OneKey old_owner_pub) (OneKey new_owner_pub)
                             (Some tx_input) "TRANSFER" asset_payload in
        let transcation_sighed :=
          sign_transaction transcation old_owner_priv in
        write_transaction random_choice transcation_sighed soft s
    end.

(** The body of the loop of [get_tx_input]: the test for several owners
    sits in the [else] of the key comparison, under [len(...) == 1]. *)
Definition tx_input_condition (owner : string) (tx : Transaction)
  (tx_input : option TxInput) (c : Condition) : res (option TxInput) :=
  if Nat.eqb (length (new_owners c)) 1 then
    match public_key (details c) with
    | None => Raise KeyError
    | Some pk =>
        if String.eqb pk owner
        then OK (Some (mkTxInput (tx_id tx) (c_cid c)))
        else if condition_details_has_owner (details c) owner
             then OK (Some (mkTxInput (tx_id tx) (c_cid c)))
             else OK tx_input
    end
  else OK tx_input.

Definition get_tx_input (bc : list Block) (tx : option Transaction)
  (owner : string) : res (option TxInput) :=
  match tx with
  | None => OK None
  | Some tx =>
      tx_input <- for_each (tx_input_condition owner tx)
                           (conditions (transaction tx)) None ;;
      match tx_input with
      | None => Raise UnboundLocalError
      | Some i =>
          spent <- get_spent bc i ;;
          match spent with
          | None => OK (Some i)
          | Some _ => OK None
          end
      end
  end.

Definition destroy_asset (pub_key private_key : string) (asset : pyval)
  : M (option response) :=
  fun s =>
    match get_last_tx_by_asset (bigchain s) asset with
    | Raise e => (Raise e, s)
    | OK tx =>
        let asset_payload :=
          dict_set (data_payload (transaction tx)) "issue" (PStr "destroy") in
        let tx :=
          mkTransaction (tx_id tx)
            (mkTxBody (fulfillments (transaction tx))
                      (conditions (transaction tx))
                      (operation (transaction tx))
                      (timestamp (transaction tx)) asset_payload
                      (data_uuid (transaction tx)))
            (assignee tx) in
        match get_tx_input (bigchain s) (Some tx) pub_key with
        | Raise e => (Raise e, s)
        | OK None => (OK None, s)
        | OK (Some txid) =>
            let transcation :=
              create_transaction (OneKey pub_key) (OneKey me) (Some txid)
                                 "TRANSFER" asset_payload in
            let transcation_sighed :=
              sign_transaction transcation private_key in
            let '(response, s') :=
              write_transaction random_choice transcation_sighed soft s in
            (bind response (fun r => OK (Some r)), s')
        end
    end.

(** The body of the loop of [get_owned_asset]. *)
Definition owned_asset (bc : list Block) (assets : list pyval)
  (i : TxInput) : res (list pyval) :=
  tx <- get_transaction bc (txid i) ;;
  match tx with
  | None => Raise TypeError
  | Some tx =>
      match dict_get (data_payload (transaction tx)) "category" with
      | None => Raise KeyError
      | Some category =>
          if pyval_eqb category (PStr "asset") then
            match dict_get (data_payload (transaction tx)) "asset" with
            | None => Raise KeyError
            | Some a => OK (assets ++ [a])
            end
          else OK assets
      end
  end.

Definition get_owned_asset (bc : list Block) (pub_key : string)
  : res (list pyval) :=
  list <- get_owned_ids bc pub_key ;;
  for_each (owned_asset bc) list [].

End Bigchain.

(* ------------------------------------------------------------------ *)
(** ** The tallies the specification names *)

(** [#{v in votes : verify(v) and v.is_block_valid}] *)
Definition spec_n_valid (verify : Block -> SignedVote -> bool) (b : Block)
  : nat :=
  length (filter (fun v => verify b v && is_block_valid (vote_body v))
                 (votes b)).

(** [#{v in votes : verify(v) and not v.is_block_valid}] *)
Definition spec_n_invalid (verify : Block -> SignedVote -> bool) (b : Block)
  : nat :=
  length (filter (fun v => verify b v && negb (is_block_valid (vote_body v)))
                 (votes b)).

(** The votes whose signature does not verify. *)
Definition n_unverified (verify : Block -> SignedVote -> bool) (b : Block)
  : nat :=
  length (filter (fun v => negb (verify b v)) (votes b)).

(** The verdict the specification gives from its two tallies. *)
Definition spec_election_status (verify : Block -> SignedVote -> bool)
  (b : Block) : status :=
  let n := Z.of_nat (length (voters (block b))) in
  if (Z.of_nat (spec_n_invalid verify b) >=? ceil_half n)%Z then BLOCK_INVALID
  else if (Z.of_nat (spec_n_valid verify b) >? floor_half n)%Z then BLOCK_VALID
  else BLOCK_UNDECIDED.

(* ------------------------------------------------------------------ *)
(** ** Vocabulary of the ledger properties *)

(** The blocks of [bc] holding [txid], and how many of them are VALID. *)
Definition containing (bc : list Block) (txid : string) : list Block :=
  filter (block_has_tx txid) bc.

Definition n_valid_blocks (verify : Block -> SignedVote -> bool)
  (bc : list Block) (txid : string) : nat :=
  length (filter (fun b => status_eqb BLOCK_VALID
                             (block_election_status verify b))
                 (containing bc txid)).

(** The mapping [block_id -> status] of a list of blocks. *)
Definition status_map (verify : Block -> SignedVote -> bool)
  (blocks : list Block) : dict status :=
  map (fun b => (id b, block_election_status verify b)) blocks.

(** The blocks holding [txid] that are not INVALID. *)
Definition live_blocks (verify : Block -> SignedVote -> bool)
  (bc : list Block) (txid : string) : list Block :=
  filter (fun b => negb (status_eqb (block_election_status verify b)
                                    BLOCK_INVALID))
         (containing bc txid).

(** [txid] lies in a block of [bc] that is VALID or UNDECIDED. *)
Definition in_live_block (verify : Block -> SignedVote -> bool)
  (bc : list Block) (txid : string) : bool :=
  existsb (fun b => negb (status_eqb (block_election_status verify b)
                                     BLOCK_INVALID))
          (containing bc txid).

(** The transactions met by the scan of [bigchain] that spend [i] and
    whose id lies in a VALID or UNDECIDED block, one entry per occurrence
    in a block. *)
Definition live_spenders (verify : Block -> SignedVote -> bool)
  (bc : list Block) (i : TxInput) : list Transaction :=
  filter (fun tx => in_live_block verify bc (tx_id tx))
         (filter (spends i) (all_transactions bc)).

(** No transaction id is in more than one VALID block. *)
Definition chain_ok (verify : Block -> SignedVote -> bool)
  (bc : list Block) : Prop :=
  forall txid, n_valid_blocks verify bc txid <= 1.

(** The votes of a block cast under the key [me]. *)
Definition self_votes (me : string) (b : Block) : list SignedVote :=
  filter (fun v => String.eqb (node_pubkey v) me) (votes b).

(** Modelled from the spec: the consensus plugin is not part of
    [core.py].  Section 4.3 has [create] build a transaction "given
    (current_owners, new_owners, input, operation, payload)" and [sign]
    attach signatures to it: the signed transaction carries the operation
    and the payload that were asked for. *)
Definition builds_as_asked
  (create : owners -> owners -> option TxInput -> string -> payload
            -> Transaction)
  (sign : Transaction -> string -> Transaction) : Prop :=
  forall co no i op p key,
    operation (transaction (sign (create co no i op p) key)) = op /\
    data_payload (transaction (sign (create co no i op p) key)) = p.

(** Modelled from the spec: the plugin's [validate_transaction] is not
    part of [core.py].  Of section 4.3 "Validate" this keeps rule 3 as far
    as it reads the ledger: every input must resolve via [get_transaction]
    to a transaction, and must not be spent already. *)
Definition spec_validate_input (verify : Block -> SignedVote -> bool)
  (s : Store) (_ : unit) (f : Fulfillment) : res unit :=
  match input f with
  | None => OK tt
  | Some i =>
      found <- get_transaction verify (bigchain s) (txid i) ;;
      match found with
      | None => Raise TransactionDoesNotExist
      | Some _ =>
          spent <- get_spent verify (bigchain s) i ;;
          match spent with
          | Some _ => Raise DoubleSpend
          | None => OK tt
          end
      end
  end.

Definition spec_validate_transaction (verify : Block -> SignedVote -> bool)
  (s : Store) (tx : Transaction) : res Transaction :=
  _ <- for_each (spec_validate_input verify s)
                (fulfillments (transaction tx)) tt ;;
  OK tx.

(** [owner] owns the output [c] the way [get_owned_ids] tests it: by
    the public key for a single owner, by the nested details otherwise. *)
Definition owns_condition (has_owner : Details -> string -> bool)
  (owner : string) (c : Condition) : bool :=
  if Nat.eqb (length (new_owners c)) 1 then
    match public_key (details c) with
    | Some pk => String.eqb pk owner
    | None => false
    end
  else has_owner (details c) owner.

(** The id [txid] is held by a block that is VALID or UNDECIDED, as the
    queries test it on the mapping of statuses. *)
Definition live_status (verify : Block -> SignedVote -> bool)
  (bc : list Block) (txid : string) : Prop :=
  exists validity,
    get_blocks_status_containing_tx verify bc txid = OK (Some validity) /\
    (in_values BLOCK_VALID validity = true \/
     in_values BLOCK_UNDECIDED validity = true).

(** [i] names an output of a transaction of the ledger that [owner] owns
    and that a VALID or UNDECIDED block holds. *)
Definition owned_output (verify : Block -> SignedVote -> bool)
  (has_owner : Details -> string -> bool) (bc : list Block)
  (owner : string) (i : TxInput) : Prop :=
  exists tx c,
    In tx (all_transactions bc) /\
    names_owner owner tx = true /\
    In c (conditions (transaction tx)) /\
    owns_condition has_owner owner c = true /\
    i = mkTxInput (tx_id tx) (c_cid c) /\
    live_status verify bc (tx_id tx).

(** What the loops of [get_owned_ids] keep true of the variable
    [tx_input] and of the list [owned]. *)
Definition owned_inv (verify : Block -> SignedVote -> bool)
  (has_owner : Details -> string -> bool) (bc : list Block)
  (owner : string) (st : option TxInput * list TxInput) : Prop :=
  (forall i, fst st = Some i -> owned_output verify has_owner bc owner i) /\
  (forall i, In i (snd st) ->
     owned_output verify has_owner bc owner i /\
     get_spent verify bc i = OK None).

(** The test the asset and currency loops run on the statuses of the
    blocks holding [txid]: a VALID or an UNDECIDED one is among them. *)
Definition has_live_status (verify : Block -> SignedVote -> bool)
  (bc : list Block) (txid : string) : bool :=
  match get_blocks_status_containing_tx verify bc txid with
  | OK (Some validity) =>
      in_values BLOCK_VALID validity || in_values BLOCK_UNDECIDED validity
  | _ => false
  end.

(** A transaction with the assignee [write_transaction] gives it. *)
Definition assigned (tx : Transaction) (a : string) : Transaction :=
  mkTransaction (tx_id tx) (transaction tx) (Some a).

(** The assignee [write_transaction] picks when its draw is [choice]. *)
Definition assignee_of (me : string) (nodes_except_me : list string)
  (choice : list string -> string) : string :=
  match nodes_except_me with
  | [] => me
  | _ :: _ => choice nodes_except_me
  end.

(** Transactions of the ledger that bear the same id are the same
    transaction. *)
Definition ids_determine (bc : list Block) : Prop :=
  forall t1 t2,
    In t1 (all_transactions bc) -> In t2 (all_transactions bc) ->
    tx_id t1 = tx_id t2 -> t1 = t2.

(** A block of [bc] that is VALID or UNDECIDED holds the transaction
    [tx] itself. *)
Definition held_live (verify : Block -> SignedVote -> bool)
  (bc : list Block) (tx : Transaction) : Prop :=
  exists b,
    In b bc /\ In tx (transactions (block b)) /\
    block_election_status verify b <> BLOCK_INVALID.

(** [i] names an output that [owner] owns, of a transaction that a VALID
    or UNDECIDED block holds. *)
Definition owned_live_output (verify : Block -> SignedVote -> bool)
  (has_owner : Details -> string -> bool) (bc : list Block)
  (owner : string) (i : TxInput) : Prop :=
  exists tx c,
    held_live verify bc tx /\
    In c (conditions (transaction tx)) /\
    owns_condition has_owner owner c = true /\
    i = mkTxInput (tx_id tx) (c_cid c).

(* ------------------------------------------------------------------ *)
(** ** Test doubles *)

Module Fixtures.

(** A signature check for the examples: a vote verifies when its
    signature field is ["ok"]. *)
Definition sig_ok (_ : Block) (v : SignedVote) : bool :=
  String.eqb (signature v) "ok".

Definition ballot (who sig : string) (target : string) (decision : bool)
  : SignedVote :=
  mkSignedVote who sig (mkVote target "prev" decision None "t").

Definition empty_body (keys : list string) : BlockBody :=
  mkBlockBody "t0" [] "n1" keys.

(** Five voters: two signed yes, two signed no, one badly signed. *)
Definition five_voter_block : Block :=
  mkBlock "B5" (empty_body ["n1"; "n2"; "n3"; "n4"; "n5"]) "s"
          [ballot "n1" "ok" "B5" true; ballot "n2" "ok" "B5" true;
           ballot "n3" "ok" "B5" false; ballot "n4" "ok" "B5" false;
           ballot "n5" "forged" "B5" true]
          None.

(** Four voters: two signed yes, two signed no. *)
Definition four_voter_block : Block :=
  mkBlock "B4" (empty_body ["n1"; "n2"; "n3"; "n4"]) "s"
          [ballot "n1" "ok" "B4" true; ballot "n2" "ok" "B4" true;
           ballot "n3" "ok" "B4" false; ballot "n4" "ok" "B4" false]
          None.

(** A one-node federation: a block is VALID after a signed yes vote of
    ["n1"], INVALID after a signed no vote and UNDECIDED without votes. *)
Definition blk (name : string) (txs : list Transaction)
  (vs : list SignedVote) : Block :=
  mkBlock name (mkBlockBody "t" txs "n1" ["n1"]) "s" vs None.

Definition yes (name : string) : list SignedVote :=
  [ballot "n1" "ok" name true].

Definition no (name : string) : list SignedVote :=
  [ballot "n1" "ok" name false].

Definition single (k : string) (n : nat) : Condition :=
  mkCondition n [k] (mkDetails (Some k) []).

Definition tx (name op : string) (ins : list (option TxInput))
  (outs : list Condition) : Transaction :=
  mkTransaction name
    (mkTxBody (map (fun i => mkFulfillment 0 [] i None) ins) outs op "t"
              [] "u")
    None.

(** [T1] creates an output for A; [T2] and [T3] both spend it. *)
Definition T1 : Transaction := tx "T1" "CREATE" [None] [single "A" 0].
Definition T2 : Transaction :=
  tx "T2" "TRANSFER" [Some (mkTxInput "T1" 0)] [single "B" 0].
Definition T3 : Transaction :=
  tx "T3" "TRANSFER" [Some (mkTxInput "T1" 0)] [single "C" 0].

(** [T4] has two outputs, the first for A and the second for B. *)
Definition T4 : Transaction :=
  tx "T4" "CREATE" [None] [single "A" 0; single "B" 1].

(** A in a VALID block, then the transfer to B in a VALID block. *)
Definition transfer_chain : list Block :=
  [blk "B1" [T1] (yes "B1"); blk "B2" [T2] (yes "B2")].

(** The two spends of the same output, each in an UNDECIDED block. *)
Definition two_undecided_spends : list Block :=
  [blk "B1" [T1] (yes "B1"); blk "B2" [T2] []; blk "B3" [T3] []].

(** The spend [T3] sits in an INVALID block ahead of the VALID one
    with [T2]. *)
Definition invalid_then_valid_spend : list Block :=
  [blk "B1" [T1] (yes "B1"); blk "B2" [T3] (no "B2");
   blk "B3" [T2] (yes "B3")].

(** [T1] in two VALID blocks. *)
Definition corrupted_chain : list Block :=
  [blk "B1" [T1] (yes "B1"); blk "B2" [T1] (yes "B2")].

Definition two_output_chain : list Block := [blk "B1" [T4] []].

Definition no_owner (_ : Details) (_ : string) : bool := false.

(** A transaction with the id of [T1] and another owner, in an UNDECIDED
    block ahead of the VALID block that holds [T1]. *)
Definition T1_twin : Transaction := tx "T1" "CREATE" [None] [single "Z" 0].
Definition undecided_then_valid : list Block :=
  [blk "B0" [T1_twin] []; blk "B1" [T1] (yes "B1")].

(** A plugin double that builds what it is asked for. *)
Definition keys (o : owners) : list string :=
  match o with
  | OneKey k => [k]
  | KeyList l => l
  end.

Definition toy_create (co no : owners) (i : option TxInput) (op : string)
  (p : payload) : Transaction :=
  mkTransaction
    ("tx-" ++ op)
    (mkTxBody [mkFulfillment 0 (keys co) i None]
              [mkCondition 0 (keys no)
                 (mkDetails (match keys no with
                             | [k] => Some k
                             | _ => None
                             end) [])]
              op "t" p "u")
    None.

Definition toy_sign (t : Transaction) (key : string) : Transaction :=
  mkTransaction
    (tx_id t)
    (mkTxBody (map (fun f => mkFulfillment (fid f) (current_owners f)
                                           (input f) (Some key))
                   (fulfillments (transaction t)))
              (conditions (transaction t)) (operation (transaction t))
              (timestamp (transaction t)) (data_payload (transaction t))
              (data_uuid (transaction t)))
    (assignee t).

Definition accept_block (_ : Store) (_ : Block) : res unit := OK tt.
Definition reject_transaction (_ : Store) (_ : Transaction)
  : res Transaction := Raise InvalidSignature.

Definition toy_serialize_block (_ : BlockBody) : string := "block".
Definition toy_hash (data : string) : string := "h-" ++ data.
Definition toy_signature (key data : string) : string := "ok".
Definition first_key (l : list string) : string := hd "" l.
Definition last_key (l : list string) : string := last l "".

Definition empty_store : Store := mkStore [] [] [].

(** A block as [create_block] of ["n1"] returns it, and the vote of
    ["n1"] for it. *)
Definition created_block : Block :=
  mkBlock "h-block" (mkBlockBody "t0" [T1] "n1" ["n1"]) "ok" [] None.
Definition toy_serialize_vote (_ : Vote) : string := "vote".
Definition cast_vote : SignedVote :=
  vote "n1" "priv" "t0" toy_serialize_vote toy_signature created_block
       "prev" true None.

(** An asset ["H"] created for A in a VALID block. *)
Definition asset_tx : Transaction :=
  mkTransaction "A1"
    (mkTxBody [mkFulfillment 0 ["n1"] None None] [single "A" 0] "CREATE" "t"
              [("category", PStr "asset"); ("issue", PStr "create");
               ("asset", PStr "H")]
              "u")
    None.
Definition asset_store : Store :=
  mkStore [] [blk "B1" [asset_tx] (yes "B1")] [].

(** The node ["n1"] of a one-node federation creating the genesis block. *)
Definition genesis : M Block :=
  create_genesis_block "n1" "priv" [] toy_create toy_sign "t0"
                       toy_serialize_block toy_hash toy_signature.

(** A block of ["n1"] without votes and without a block number, as
    [create_block] returns it, and the vote ["n1"] casts on it. *)
Definition fresh_block : Block := blk "B1" [T1] [].
Definition my_vote : SignedVote := ballot "n1" "ok" "B1" true.

Definition one_block_store : Store := mkStore [] [fresh_block] [].

(** The same block stored with a block number set by another write. *)
Definition numbered_store : Store :=
  mkStore [] [mkBlock "B1" (block fresh_block) "s" [] (Some 7%Z)] [].

(** Currency doubles: the last id is the head of the list, the account is
    read from the payload of the last transaction. *)
Definition toy_payload_type (_ : Transaction) : string := "currency".
Definition toy_last_txid (l : list CurrencyId) : option CurrencyId :=
  match l with
  | [] => None
  | x :: _ => Some x
  end.
Definition toy_current_account (l : last_tx) : res pyval :=
  match l with
  | init => OK (PNum 0)
  | found t =>
      match dict_get (data_payload (transaction t)) "account" with
      | Some a => OK a
      | None => Raise KeyError
      end
  | none => Raise TypeError
  end.
Definition toy_pair_payload (p : payload) : payload * payload :=
  (dict_set p "issue" (PStr "cost"), dict_set p "issue" (PStr "earn")).
Definition any_payload (_ : payload) : bool := true.
(** [float] on a string, for examples whose amounts are numbers. *)
Definition no_float (_ : string) : res pyfloat := Raise ValueError.

(** A has 100 units in a pending currency transaction. *)
Definition funded_store : Store :=
  mkStore
    [mkTransaction "C1"
       (mkTxBody [mkFulfillment 0 ["n1"] None None] [single "A" 0] "CREATE"
                 "t"
                 [("category", PStr "currency"); ("account", PNum 100);
                  ("previous", PStr "genesis")]
                 "u")
       (Some "n1")]
    [] [].

(** A transfer on a ledger whose plugin rejects every transaction; the
    federation has two other nodes, the first draw picks the first of
    them and the second draw the last. *)
Definition rejected_transfer (s : Store) (amount : pyval)
  : res response * Store :=
  transfer_currency "n1" sig_ok no_owner "priv" ["n2"; "n3"] toy_create
    toy_sign reject_transaction first_key toy_payload_type toy_last_txid
    toy_current_account toy_pair_payload any_payload no_float last_key
    "A" "A-priv" "B" [("amount", amount)] s.

(** A plugin whose transaction ids tell the new owners apart. *)
Definition keyed_create (co no : owners) (i : option TxInput) (op : string)
  (p : payload) : Transaction :=
  mkTransaction (String.concat "-" (("tx-" ++ op)%string :: keys no))
                (transaction (toy_create co no i op p)) None.

(** The same transfer on a ledger whose plugin accepts everything. *)
Definition accepted_transfer (s : Store) (amount : pyval)
  : res response * Store :=
  transfer_currency "n1" sig_ok no_owner "priv" ["n2"; "n3"] keyed_create
    toy_sign (fun _ t => OK t) first_key toy_payload_type toy_last_txid
    toy_current_account toy_pair_payload any_payload no_float last_key
    "A" "A-priv" "B" [("amount", amount)] s.

End Fixtures.

(* ================================================================== *)
(** * Properties *)

(* ------------------------------------------------------------------ *)
(** ** Election status *)

Section Election.

Variable verify : Block -> SignedVote -> bool.

Lemma ceil_half_least (n k : Z) : (ceil_half n <= k <-> n <= 2 * k)%Z.
Proof.
  unfold ceil_half.
  pose proof (Z_div_mod_eq_full (n + 1) 2) as E.
  pose proof (Z.mod_pos_bound (n + 1) 2 ltac:(lia)) as B.
  split; intro H; lia.
Qed.

Lemma floor_half_greatest (n k : Z) : (k <= floor_half n <-> 2 * k <= n)%Z.
Proof.
  unfold floor_half.
  pose proof (Z_div_mod_eq_full n 2) as E.
  pose proof (Z.mod_pos_bound n 2 ltac:(lia)) as B.
  split; intro H; lia.
Qed.

Lemma vote_list_map (b : Block) :
  vote_list verify b =
  map (fun v => (Z.b2z (is_block_valid (vote_body v)) * Z.b2z (verify b v))%Z)
      (votes b).
Proof.
  unfold vote_list. induction (votes b) as [|v vs IH]; simpl.
  - reflexivity.
  - now rewrite IH.
Qed.

Lemma vote_list_length (b : Block) :
  length (vote_list verify b) = length (votes b).
Proof. rewrite vote_list_map. apply length_map. Qed.

Lemma n_valid_votes_count (b : Block) :
  n_valid_votes verify b = Z.of_nat (spec_n_valid verify b).
Proof.
  unfold n_valid_votes, spec_n_valid. rewrite vote_list_map.
  induction (votes b) as [|v vs IH].
  - reflexivity.
  - cbn [map py_sum fold_right filter].
    change (fold_right Z.add 0%Z ?l) with (py_sum l). rewrite IH.
    destruct (verify b v), (is_block_valid (vote_body v)); cbn [andb length Z.b2z]; lia.
Qed.

(** Every vote is in exactly one of the three classes. *)
Lemma votes_partition (b : Block) :
  length (votes b) =
  spec_n_valid verify b + spec_n_invalid verify b + n_unverified verify b.
Proof.
  unfold spec_n_valid, spec_n_invalid, n_unverified.
  induction (votes b) as [|v vs IH].
  - reflexivity.
  - cbn [filter length].
    destruct (verify b v), (is_block_valid (vote_body v));
      cbn [andb negb length]; lia.
Qed.

Lemma n_invalid_votes_count (b : Block) :
  n_invalid_votes verify b =
  Z.of_nat (spec_n_invalid verify b + n_unverified verify b).
Proof.
  unfold n_invalid_votes.
  rewrite n_valid_votes_count, vote_list_length, (votes_partition b). lia.
Qed.

Lemma all_verified_none_unverified (b : Block) :
  (forall v, In v (votes b) -> verify b v = true) ->
  n_unverified verify b = 0.
Proof.
  unfold n_unverified. induction (votes b) as [|v vs IH]; intro H.
  - reflexivity.
  - cbn [filter]. rewrite (H v (or_introl eq_refl)). cbn [negb].
    apply IH. intros w Hw. apply H. now right.
Qed.

End Election.

(** C2 (as stated): the five-voter block with two signed yes votes, two
    signed no votes and one badly signed vote is not UNDECIDED; the code
    tallies it INVALID. *)
Lemma five_voter_block_not_undecided :
  length (voters (block Fixtures.five_voter_block)) = 5 /\
  spec_n_valid Fixtures.sig_ok Fixtures.five_voter_block = 2 /\
  spec_n_invalid Fixtures.sig_ok Fixtures.five_voter_block = 2 /\
  n_unverified Fixtures.sig_ok Fixtures.five_voter_block = 1 /\
  block_election_status Fixtures.sig_ok Fixtures.five_voter_block
    = BLOCK_INVALID /\
  block_election_status Fixtures.sig_ok Fixtures.five_voter_block
    <> BLOCK_UNDECIDED.
Proof. repeat split; try reflexivity. vm_compute. discriminate. Qed.

(** C2 (amended): in [block_election_status] a vote whose signature does
    not verify is not counted toward [n_valid_votes] and is counted toward
    [n_invalid_votes], which is the number of votes minus the valid ones;
    so a block with five voters, two signed yes votes, two signed no votes
    and one badly signed vote is INVALID. *)
Theorem unverified_vote_counts_as_invalid
  (verify : Block -> SignedVote -> bool) (b : Block) :
  n_valid_votes verify b = Z.of_nat (spec_n_valid verify b) /\
  n_invalid_votes verify b =
    Z.of_nat (spec_n_invalid verify b + n_unverified verify b) /\
  (length (voters (block b)) = 5 ->
   spec_n_valid verify b = 2 ->
   spec_n_invalid verify b = 2 ->
   n_unverified verify b = 1 ->
   block_election_status verify b = BLOCK_INVALID).
Proof.
  split; [apply n_valid_votes_count|].
  split; [apply n_invalid_votes_count|].
  intros Hn Hv Hi Hu. unfold block_election_status.
  rewrite n_invalid_votes_count, Hn, Hi, Hu. reflexivity.
Qed.

Lemma unverified_vote_counts_as_invalid_witness :
  block_election_status Fixtures.sig_ok Fixtures.five_voter_block
  = BLOCK_INVALID.
Proof.
  apply (unverified_vote_counts_as_invalid Fixtures.sig_ok
           Fixtures.five_voter_block); reflexivity.
Defined.

(** C3: when every vote of a block carries a valid signature,
    [block_election_status] is INVALID if the signed no votes reach
    ceil(n/2), else VALID if the signed yes votes exceed floor(n/2), else
    UNDECIDED, n being the number of voters; with four voters, two signed
    yes votes and two signed no votes give INVALID. *)
Theorem election_status_all_verified
  (verify : Block -> SignedVote -> bool) (b : Block) :
  (forall v, In v (votes b) -> verify b v = true) ->
  block_election_status verify b = spec_election_status verify b /\
  (length (voters (block b)) = 4 ->
   spec_n_valid verify b = 2 ->
   spec_n_invalid verify b = 2 ->
   block_election_status verify b = BLOCK_INVALID).
Proof.
  intro Hall.
  assert (E : block_election_status verify b = spec_election_status verify b).
  { unfold block_election_status, spec_election_status.
    rewrite n_invalid_votes_count, n_valid_votes_count.
    rewrite (all_verified_none_unverified verify b Hall), Nat.add_0_r.
    reflexivity. }
  split; [exact E|].
  intros Hn Hv Hi. rewrite E. unfold spec_election_status.
  rewrite Hn, Hi. reflexivity.
Qed.

Lemma election_status_all_verified_witness :
  block_election_status Fixtures.sig_ok Fixtures.four_voter_block
  = BLOCK_INVALID.
Proof.
  refine (proj2 (election_status_all_verified Fixtures.sig_ok
                   Fixtures.four_voter_block _) _ _ _);
    try reflexivity.
  intros v Hv. simpl in Hv.
  repeat (destruct Hv as [<- | Hv]; [reflexivity|]). contradiction.
Defined.

(* ------------------------------------------------------------------ *)
(** ** Blocks containing a transaction *)

Section Ledger.

Variable verify : Block -> SignedVote -> bool.

Abbreviation status_of := (block_election_status verify).

Lemma dict_set_fresh {V : Type} (d : dict V) (k : string) (v : V) :
  ~ In k (dict_keys d) -> dict_set d k v = d ++ [(k, v)].
Proof.
  induction d as [|[k' v'] r IH]; intro H; simpl.
  - reflexivity.
  - simpl in H. destruct (String.eqb_spec k' k) as [->|Hne].
    + exfalso. apply H. now left.
    + rewrite IH; [reflexivity|]. intro Hin. apply H. now right.
Qed.

Lemma validity_of_acc (blocks : list Block) (acc : dict status) :
  NoDup (dict_keys acc ++ map id blocks) ->
  fold_left (fun d b => dict_set d (id b) (status_of b)) blocks acc
  = acc ++ status_map verify blocks.
Proof.
  revert acc. induction blocks as [|b r IH]; intros acc H; simpl.
  - now rewrite app_nil_r.
  - simpl in H. rewrite dict_set_fresh.
    + rewrite IH.
      * now rewrite <- app_assoc.
      * unfold dict_keys in *. rewrite map_app, <- app_assoc. exact H.
    + apply NoDup_remove_2 in H. intro Hin. apply H.
      apply in_or_app. now left.
Qed.

Lemma validity_of_status_map (blocks : list Block) :
  NoDup (map id blocks) -> validity_of verify blocks = status_map verify blocks.
Proof.
  intro H. unfold validity_of. now rewrite validity_of_acc.
Qed.

(** The blocks holding a transaction inherit the sound primary key. *)
Lemma containing_keys_ok (bc : list Block) (txid : string) :
  primary_key_ok bc -> primary_key_ok (containing bc txid).
Proof.
  unfold primary_key_ok, containing.
  induction bc as [|b rest IH]; intro Hkeys; cbn [filter map].
  - constructor.
  - apply NoDup_cons_iff in Hkeys. destruct Hkeys as [Hfresh Hrest].
    destruct (block_has_tx txid b); cbn [map]; [|now apply IH].
    apply NoDup_cons_iff. split; [|now apply IH].
    intro Hin. apply Hfresh. apply in_map_iff in Hin.
    destruct Hin as [c [Hc Hin]]. rewrite <- Hc.
    apply in_map. apply filter_In in Hin. apply Hin.
Qed.

Lemma count_values_status_map (blocks : list Block) :
  count_values BLOCK_VALID (status_map verify blocks)
  = length (filter (fun b => status_eqb BLOCK_VALID (status_of b)) blocks).
Proof.
  unfold count_values, status_map, dict_values.
  induction blocks as [|b r IH]; cbn [map filter snd].
  - reflexivity.
  - destruct (status_eqb BLOCK_VALID (status_of b)); cbn [length];
      now rewrite IH.
Qed.

(** What [get_blocks_status_containing_tx] does on a table with a sound
    primary key. *)
Lemma blocks_status_cases (bc : list Block) (txid : string) :
  primary_key_ok bc ->
  get_blocks_status_containing_tx verify bc txid =
  match containing bc txid with
  | [] => OK None
  | _ :: _ =>
      if Nat.ltb 1 (n_valid_blocks verify bc txid) then Raise Exception
      else OK (Some (status_map verify (containing bc txid)))
  end.
Proof.
  intro Hpk. unfold get_blocks_status_containing_tx,
    search_block_election_on_index, get_all_transaction_id, n_valid_blocks.
  fold (containing bc txid).
  pose proof (containing_keys_ok bc txid Hpk) as Hnd.
  destruct (containing bc txid) as [|b r] eqn:E; [reflexivity|].
  rewrite (validity_of_status_map _ Hnd), count_values_status_map.
  reflexivity.
Qed.

Lemma filter_map_comm {A B : Type} (f : A -> B) (p : B -> bool)
  (l : list A) : filter p (map f l) = map f (filter (fun a => p (f a)) l).
Proof.
  induction l as [|a r IH]; simpl; [reflexivity|].
  destruct (p (f a)); simpl; now rewrite IH.
Qed.

Lemma pick_target_in (l : dict status) (t : option string) :
  l <> [] -> exists k, pick_target l t = Some k /\ In k (dict_keys l).
Proof.
  revert t. induction l as [|[k st] r IH]; intros t Hne; [contradiction|].
  simpl. destruct (status_eqb st BLOCK_VALID).
  - exists k. split; [reflexivity|now left].
  - destruct r as [|kv r'].
    + exists k. split; [reflexivity|now left].
    + destruct (IH (Some k)) as [k' [E Hin]]; [discriminate|].
      exists k'. split; [exact E|now right].
Qed.

Lemma table_get_own (bc : list Block) (b : Block) :
  primary_key_ok bc -> In b bc -> table_get bc (id b) = Some b.
Proof.
  unfold primary_key_ok, table_get.
  induction bc as [|c r IH]; intros Hnd Hin; [contradiction|].
  simpl in *. inversion Hnd as [|x xs Hnin Hnd']; subst.
  destruct Hin as [->|Hin].
  - now rewrite String.eqb_refl.
  - destruct (String.eqb_spec (id c) (id b)) as [E|_].
    + exfalso. apply Hnin. rewrite E. now apply in_map.
    + now apply IH.
Qed.

Lemma filter_first {A : Type} (p : A -> bool) (l : list A) :
  existsb p l = true -> exists x r, filter p l = x :: r /\ p x = true.
Proof.
  induction l as [|a r IH]; simpl; [discriminate|].
  destruct (p a) eqn:E; simpl; intro H.
  - now exists a, (filter p r).
  - now apply IH.
Qed.

Lemma in_live_block_live_blocks (bc : list Block) (txid : string) :
  in_live_block verify bc txid = false <-> live_blocks verify bc txid = [].
Proof.
  unfold in_live_block, live_blocks.
  induction (containing bc txid) as [|b r IH]; simpl.
  - tauto.
  - destruct (negb (status_eqb (status_of b) BLOCK_INVALID)); simpl.
    + split; discriminate.
    + exact IH.
Qed.

(** [get_transaction] on a sound table: the target is picked among the
    blocks that are not INVALID. *)
Lemma get_transaction_eq (bc : list Block) (txid : string) :
  primary_key_ok bc ->
  n_valid_blocks verify bc txid <= 1 ->
  get_transaction verify bc txid =
  match pick_target (status_map verify (live_blocks verify bc txid)) None with
  | None => OK None
  | Some target_block_id =>
      match table_get bc target_block_id with
      | None => Raise ReqlNonExistenceError
      | Some doc =>
          match filter (fun tx => String.eqb (tx_id tx) txid)
                       (transactions (block doc)) with
          | [] => Raise IndexError
          | tx :: _ => OK (Some tx)
          end
      end
  end.
Proof.
  intros Hpk Hv. unfold get_transaction.
  rewrite (blocks_status_cases bc txid Hpk). unfold live_blocks.
  destruct (containing bc txid) as [|b0 r0] eqn:E; [reflexivity|].
  apply Nat.ltb_ge in Hv. rewrite Hv. cbn [bind].
  unfold status_map at 1. cbn [map].
  change ((id b0, status_of b0) :: map (fun b => (id b, status_of b)) r0)
    with (status_map verify (b0 :: r0)).
  unfold status_map. now rewrite filter_map_comm.
Qed.

(** [get_transaction] finds a transaction with the id asked for exactly
    when the id lies in a VALID or UNDECIDED block. *)
Lemma get_transaction_cases (bc : list Block) (txid : string) :
  primary_key_ok bc ->
  n_valid_blocks verify bc txid <= 1 ->
  if in_live_block verify bc txid
  then exists tx, get_transaction verify bc txid = OK (Some tx)
                  /\ tx_id tx = txid /\ In tx (all_transactions bc)
  else get_transaction verify bc txid = OK None.
Proof.
  intros Hpk Hv. rewrite (get_transaction_eq bc txid Hpk Hv).
  pose proof (in_live_block_live_blocks bc txid) as Hlive.
  destruct (live_blocks verify bc txid) as [|b1 r1] eqn:El.
  { destruct (in_live_block verify bc txid); [|reflexivity].
    destruct Hlive as [_ Hl]. now specialize (Hl eq_refl). }
  assert (Hin : in_live_block verify bc txid = true).
  { destruct (in_live_block verify bc txid); [reflexivity|].
    destruct Hlive as [Hl _]. now specialize (Hl eq_refl). }
  rewrite Hin.
  destruct (pick_target_in (status_map verify (b1 :: r1)) None)
    as [k [Ek Hk]]; [discriminate|].
  rewrite Ek.
  unfold dict_keys, status_map in Hk. rewrite map_map in Hk. cbn [fst] in Hk.
  apply in_map_iff in Hk. destruct Hk as [b [<- Hb]].
  rewrite <- El in Hb. unfold live_blocks, containing in Hb.
  apply filter_In in Hb. destruct Hb as [Hb _].
  apply filter_In in Hb. destruct Hb as [Hb Hhas].
  rewrite (table_get_own bc b Hpk Hb).
  destruct (filter_first _ _ Hhas) as [tx [r [Ef Htx]]].
  exists tx. rewrite Ef. split; [reflexivity|].
  split; [now apply String.eqb_eq|].
  unfold all_transactions. apply in_flat_map. exists b. split; [exact Hb|].
  assert (In tx (tx :: r)) as Hx by now left.
  rewrite <- Ef in Hx. now apply filter_In in Hx.
Qed.

(** The counting loop of [get_spent] when no lookup fails. *)
Lemma count_spending_loop (bc : list Block) :
  primary_key_ok bc -> chain_ok verify bc ->
  forall (txs : list Transaction) (n : nat), n <= 1 ->
  for_each (count_spending verify bc) txs n =
  let m := n + length (filter (fun tx => in_live_block verify bc (tx_id tx))
                              txs) in
  if Nat.ltb 1 m then Raise DoubleSpend else OK m.
Proof.
  intros Hpk Hok txs. induction txs as [|a r IH]; intros n Hn.
  - cbn [for_each filter length]. cbv zeta. rewrite Nat.add_0_r.
    apply Nat.ltb_ge in Hn. now rewrite Hn.
  - cbn [for_each filter]. unfold count_spending at 1.
    pose proof (get_transaction_cases bc (tx_id a) Hpk (Hok (tx_id a))) as Hg.
    destruct (in_live_block verify bc (tx_id a)).
    + destruct Hg as [tx [-> _]]. cbn [bind length].
      destruct n as [|n].
      * change (Nat.ltb 1 1) with false. cbn [bind].
        rewrite (IH 1 (le_n 1)). reflexivity.
      * assert (n = 0) by lia. subst n. reflexivity.
    + rewrite Hg. cbn [bind]. pose proof Hn as Hn'.
      apply Nat.ltb_ge in Hn'. rewrite Hn'. cbn [bind]. now apply IH.
Qed.

Lemma get_spent_cases (bc : list Block) (i : TxInput) :
  primary_key_ok bc -> chain_ok verify bc ->
  get_spent verify bc i =
  match length (live_spenders verify bc i) with
  | 0 => OK None
  | 1 => match filter (spends i) (all_transactions bc) with
         | [] => OK None
         | first :: _ => OK (Some first)
         end
  | _ => Raise DoubleSpend
  end.
Proof.
  intros Hpk Hok. unfold get_spent, live_spenders.
  destruct (filter (spends i) (all_transactions bc)) as [|first r] eqn:E;
    [reflexivity|].
  rewrite (count_spending_loop bc Hpk Hok (first :: r) 0 (Nat.le_0_l 1)).
  cbn zeta. rewrite Nat.add_0_l.
  destruct (length (filter (fun tx => in_live_block verify bc (tx_id tx))
                           (first :: r))) as [|[|m]]; reflexivity.
Qed.

Lemma status_eqb_eq (a b : status) : status_eqb a b = true <-> a = b.
Proof. destruct a, b; simpl; split; congruence. Qed.

(** The test by id that the queries run agrees with the blocks that hold
    the transaction itself, once an id names one transaction. *)
Lemma in_live_block_held (bc : list Block) (tx : Transaction) :
  ids_determine bc -> In tx (all_transactions bc) ->
  in_live_block verify bc (tx_id tx) = true <-> held_live verify bc tx.
Proof.
  intros Hids Htx. unfold in_live_block, held_live, containing. split.
  - intro H. apply existsb_exists in H. destruct H as [b [Hb Hst]].
    apply filter_In in Hb. destruct Hb as [Hb Hhas].
    apply existsb_exists in Hhas. destruct Hhas as [t [Ht Heq]].
    apply String.eqb_eq in Heq.
    assert (t = tx) as ->.
    { apply Hids; [|exact Htx|exact Heq].
      apply in_flat_map. now exists b. }
    exists b. split; [exact Hb|]. split; [exact Ht|].
    intro E. rewrite E in Hst. discriminate.
  - intros [b [Hb [Ht Hst]]]. apply existsb_exists. exists b. split.
    + apply filter_In. split; [exact Hb|].
      apply existsb_exists. exists tx. split; [exact Ht|].
      apply String.eqb_refl.
    + destruct (status_eqb (status_of b) BLOCK_INVALID) eqn:E;
        [|reflexivity].
      apply status_eqb_eq in E. contradiction.
Qed.

Lemma live_spenders_held (bc : list Block) (i : TxInput) (tx : Transaction) :
  ids_determine bc ->
  In tx (live_spenders verify bc i) <->
  In tx (filter (spends i) (all_transactions bc)) /\ held_live verify bc tx.
Proof.
  intro Hids. unfold live_spenders. rewrite filter_In. split.
  - intros [Hin Hl]. split; [exact Hin|].
    apply in_live_block_held; [exact Hids| |exact Hl].
    apply filter_In in Hin. tauto.
  - intros [Hin Hl]. split; [exact Hin|].
    apply in_live_block_held; [exact Hids| |exact Hl].
    apply filter_In in Hin. tauto.
Qed.

Lemma two_members {A : Type} (l : list A) (x y : A) :
  In x l -> In y l -> x <> y -> 1 < length l.
Proof.
  destruct l as [|a [|c r]]; cbn [length]; intros Hx Hy Hne.
  - contradiction.
  - destruct Hx as [<-|[]], Hy as [<-|[]]. now contradiction Hne.
  - lia.
Qed.

Lemma scan_votes_none (me : string) (b : Block) (vs : list SignedVote) :
  (forall v, In v vs -> node_pubkey v <> me) ->
  scan_votes me verify b vs = OK false.
Proof.
  induction vs as [|v r IH]; intro H; [reflexivity|]. simpl.
  destruct (String.eqb_spec (node_pubkey v) me) as [E|_].
  - exfalso. now apply (H v (or_introl eq_refl)).
  - apply IH. intros w Hw. apply H. now right.
Qed.

Lemma scan_votes_first (me : string) (b : Block)
  (pre post : list SignedVote) (v : SignedVote) :
  (forall w, In w pre -> node_pubkey w <> me) ->
  node_pubkey v = me ->
  scan_votes me verify b (pre ++ v :: post) =
  if verify b v then OK true else Raise AttributeError.
Proof.
  intros Hpre Hv. induction pre as [|w r IH]; simpl.
  - rewrite Hv, String.eqb_refl. reflexivity.
  - destruct (String.eqb_spec (node_pubkey w) me) as [E|_].
    + exfalso. now apply (Hpre w (or_introl eq_refl)).
    + apply IH. intros x Hx. apply Hpre. now right.
Qed.

Lemma has_previous_vote_scan (me : string) (b : Block) :
  has_previous_vote me verify b = scan_votes me verify b (votes b).
Proof. unfold has_previous_vote. now destruct (votes b). Qed.

(** [has_previous_vote] is [False] exactly when the block has no vote of
    this node. *)
Lemma has_previous_vote_false (me : string) (b : Block) :
  has_previous_vote me verify b = OK false <->
  (forall v, In v (votes b) -> node_pubkey v <> me).
Proof.
  rewrite has_previous_vote_scan. split.
  - induction (votes b) as [|v r IH]; intros H w Hw; [contradiction|].
    simpl in H. destruct (String.eqb_spec (node_pubkey v) me) as [E|Hne].
    + destruct (verify b v); discriminate.
    + destruct Hw as [<-|Hw]; [exact Hne|]. now apply IH.
  - apply scan_votes_none.
Qed.

End Ledger.

(** C4: on a table with a sound primary key, when more than one block
    containing the transaction is VALID,
    [get_blocks_status_containing_tx] raises the chain-corruption
    exception; otherwise it returns the mapping from the id of every
    containing block to its status, or [None] when no block contains the
    transaction. *)
Theorem blocks_status_containing_tx_spec
  (verify : Block -> SignedVote -> bool) (bc : list Block) (txid : string) :
  primary_key_ok bc ->
  (1 < n_valid_blocks verify bc txid ->
   get_blocks_status_containing_tx verify bc txid = Raise Exception) /\
  (n_valid_blocks verify bc txid <= 1 -> containing bc txid <> [] ->
   get_blocks_status_containing_tx verify bc txid
   = OK (Some (status_map verify (containing bc txid)))) /\
  (containing bc txid = [] ->
   get_blocks_status_containing_tx verify bc txid = OK None).
Proof.
  intro Hpk. rewrite (blocks_status_cases verify bc txid Hpk).
  repeat split.
  - intro H. destruct (containing bc txid) as [|b r] eqn:E.
    + unfold n_valid_blocks in H. rewrite E in H. simpl in H. lia.
    + apply Nat.ltb_lt in H. now rewrite H.
  - intros H Hne. destruct (containing bc txid) as [|b r] eqn:E.
    + contradiction.
    + apply Nat.ltb_ge in H. now rewrite H.
  - intro H. now rewrite H.
Qed.

(** C1 (as stated): two transactions spend the same output, each in an
    UNDECIDED block; no spending transaction is in a VALID block, yet
    [get_spent] raises [DoubleSpend]. *)
Lemma double_spend_without_valid_block :
  n_valid_blocks Fixtures.sig_ok Fixtures.two_undecided_spends "T2" = 0 /\
  n_valid_blocks Fixtures.sig_ok Fixtures.two_undecided_spends "T3" = 0 /\
  filter (spends (mkTxInput "T1" 0))
         (all_transactions Fixtures.two_undecided_spends)
  = [Fixtures.T2; Fixtures.T3] /\
  get_spent Fixtures.sig_ok Fixtures.two_undecided_spends (mkTxInput "T1" 0)
  = Raise DoubleSpend.
Proof. repeat split; reflexivity. Qed.

(** C1 (amended): on a ledger with a sound primary key, where no
    transaction id is in more than one VALID block and an id names one
    transaction, [get_spent] returns [None] exactly when no transaction
    spending the input is held by a VALID or UNDECIDED block (in
    particular when every spending transaction sits only in INVALID
    blocks); it returns the spending transaction held by a VALID or
    UNDECIDED block when that one is the first match of the scan and no
    later match is held by such a block; it raises [DoubleSpend] whenever
    two different spending transactions are held by VALID or UNDECIDED
    blocks, and, when the scan meets no spending transaction twice, only
    then. *)
Theorem get_spent_spec
  (verify : Block -> SignedVote -> bool) (bc : list Block) (i : TxInput) :
  primary_key_ok bc -> chain_ok verify bc -> ids_determine bc ->
  (get_spent verify bc i = OK None <->
   forall tx, In tx (filter (spends i) (all_transactions bc)) ->
              ~ held_live verify bc tx) /\
  ((forall tx b, In tx (all_transactions bc) -> spends i tx = true ->
                 In b bc -> In tx (transactions (block b)) ->
                 block_election_status verify b = BLOCK_INVALID) ->
   get_spent verify bc i = OK None) /\
  (forall tx rest,
     filter (spends i) (all_transactions bc) = tx :: rest ->
     held_live verify bc tx ->
     (forall t, In t rest -> ~ held_live verify bc t) ->
     get_spent verify bc i = OK (Some tx)) /\
  ((exists t1 t2,
      In t1 (filter (spends i) (all_transactions bc)) /\
      In t2 (filter (spends i) (all_transactions bc)) /\
      t1 <> t2 /\ held_live verify bc t1 /\ held_live verify bc t2) ->
   get_spent verify bc i = Raise DoubleSpend) /\
  (NoDup (filter (spends i) (all_transactions bc)) ->
   get_spent verify bc i = Raise DoubleSpend ->
   exists t1 t2,
     In t1 (filter (spends i) (all_transactions bc)) /\
     In t2 (filter (spends i) (all_transactions bc)) /\
     t1 <> t2 /\ held_live verify bc t1 /\ held_live verify bc t2).
Proof.
  intros Hpk Hok Hids.
  pose proof (get_spent_cases verify bc i Hpk Hok) as E.
  pose proof (fun tx => live_spenders_held verify bc i tx Hids) as Hlive.
  assert (Hnone : (forall tx, In tx (filter (spends i) (all_transactions bc))
                              -> ~ held_live verify bc tx) ->
                  get_spent verify bc i = OK None).
  { intro Hno. rewrite E.
    destruct (live_spenders verify bc i) as [|t r] eqn:El; [reflexivity|].
    exfalso. destruct (proj1 (Hlive t)) as [Hin Hh].
    - now left.
    - exact (Hno t Hin Hh). }
  split; [split; [|exact Hnone]|].
  { intros Hres tx Hin Hh.
    assert (Hl : In tx (live_spenders verify bc i))
      by (apply Hlive; now split).
    rewrite E in Hres.
    destruct (live_spenders verify bc i) as [|t [|t' r]] eqn:El.
    - contradiction.
    - cbn [length] in Hres.
      destruct (filter (spends i) (all_transactions bc));
        [contradiction|discriminate].
    - discriminate. }
  split; [|split; [|split]].
  - intro Hinv. apply Hnone. intros tx Hin [b [Hb [Ht Hst]]].
    apply filter_In in Hin. destruct Hin as [Hin Hs].
    exact (Hst (Hinv tx b Hin Hs Hb Ht)).
  - intros tx rest Ef Hh Hrest. rewrite E. unfold live_spenders.
    rewrite Ef. cbn [filter].
    assert (Htx : In tx (all_transactions bc)).
    { assert (In tx (tx :: rest)) as Hx by now left.
      rewrite <- Ef in Hx. now apply filter_In in Hx. }
    rewrite (proj2 (in_live_block_held verify bc tx Hids Htx) Hh).
    destruct (filter (fun t => in_live_block verify bc (tx_id t)) rest)
      as [|t r] eqn:Er; [reflexivity|exfalso].
    assert (Ht : In t (t :: r)) by now left.
    rewrite <- Er in Ht. apply filter_In in Ht. destruct Ht as [Ht Hl].
    apply (Hrest t Ht).
    apply (in_live_block_held verify bc t Hids); [|exact Hl].
    assert (In t (tx :: rest)) as Hx by now right.
    rewrite <- Ef in Hx. now apply filter_In in Hx.
  - intros [t1 [t2 [H1 [H2 [Hne [Hh1 Hh2]]]]]].
    assert (Hlen : 1 < length (live_spenders verify bc i)).
    { apply (two_members _ t1 t2); [| |exact Hne]; apply Hlive; now split. }
    rewrite E.
    destruct (length (live_spenders verify bc i)) as [|[|m]];
      [lia|lia|reflexivity].
  - intros Hnd Hres. rewrite E in Hres.
    assert (Hnd' : NoDup (live_spenders verify bc i))
      by (apply NoDup_filter; exact Hnd).
    destruct (live_spenders verify bc i) as [|t1 [|t2 r]] eqn:El.
    + discriminate.
    + cbn [length] in Hres.
      destruct (filter (spends i) (all_transactions bc)); discriminate.
    + exists t1, t2.
      destruct (proj1 (Hlive t1)) as [Hin1 Hh1]; [now left|].
      destruct (proj1 (Hlive t2)) as [Hin2 Hh2]; [right; now left|].
      repeat split; try assumption.
      intros ->. inversion Hnd' as [|x l Hnotin _]. apply Hnotin. now left.
Qed.

Lemma transfer_chain_keys : primary_key_ok Fixtures.transfer_chain.
Proof.
  unfold primary_key_ok. simpl.
  repeat constructor; simpl; intuition discriminate.
Defined.

Lemma transfer_chain_ok : chain_ok Fixtures.sig_ok Fixtures.transfer_chain.
Proof.
  intro txid. unfold n_valid_blocks, containing, Fixtures.transfer_chain.
  cbn [filter].
  destruct (block_has_tx txid (Fixtures.blk "B1" _ _)) eqn:H1;
    destruct (block_has_tx txid (Fixtures.blk "B2" _ _)) eqn:H2;
    try (vm_compute; lia).
  exfalso.
  change (String.eqb "T1" txid || false = true) in H1.
  change (String.eqb "T2" txid || false = true) in H2.
  rewrite orb_false_r in H1, H2.
  apply String.eqb_eq in H1, H2. congruence.
Defined.

Lemma transfer_chain_ids : ids_determine Fixtures.transfer_chain.
Proof.
  intros t1 t2 H1 H2 E. cbn in H1, H2.
  destruct H1 as [<-|[<-|[]]], H2 as [<-|[<-|[]]];
    solve [reflexivity | discriminate E].
Defined.

Lemma get_spent_spec_witness :
  get_spent Fixtures.sig_ok Fixtures.transfer_chain (mkTxInput "T1" 0)
  = OK (Some Fixtures.T2).
Proof.
  apply (get_spent_spec Fixtures.sig_ok Fixtures.transfer_chain
           (mkTxInput "T1" 0) transfer_chain_keys transfer_chain_ok
           transfer_chain_ids)
    with (rest := []).
  - reflexivity.
  - exists (Fixtures.blk "B2" [Fixtures.T2] (Fixtures.yes "B2")).
    split; [right; now left|]. split; [now left|].
    vm_compute. discriminate.
  - intros t [].
Defined.

Lemma corrupted_chain_keys : primary_key_ok Fixtures.corrupted_chain.
Proof.
  unfold primary_key_ok. simpl.
  repeat constructor; simpl; intuition discriminate.
Defined.

Lemma blocks_status_containing_tx_spec_witness :
  get_blocks_status_containing_tx Fixtures.sig_ok Fixtures.corrupted_chain
                                  "T1" = Raise Exception.
Proof.
  apply (blocks_status_containing_tx_spec Fixtures.sig_ok
           Fixtures.corrupted_chain "T1" corrupted_chain_keys).
  vm_compute. lia.
Defined.

(** After a VALID transfer from A to B the output is gone from A's list
    and present in B's. *)
Example owned_ids_after_transfer (has_owner : Details -> string -> bool) :
  get_owned_ids Fixtures.sig_ok has_owner Fixtures.transfer_chain "A"
  = OK [] /\
  get_owned_ids Fixtures.sig_ok has_owner Fixtures.transfer_chain "B"
  = OK [mkTxInput "T2" 0].
Proof. split; reflexivity. Qed.

(** C10 (the code at the failing input): a transaction with one output
    for A and one for B, in an UNDECIDED block.  The pair of A's output is
    listed twice for A, and asking for B raises [UnboundLocalError]. *)
Theorem get_owned_ids_two_outputs (has_owner : Details -> string -> bool) :
  get_owned_ids Fixtures.sig_ok has_owner Fixtures.two_output_chain "A"
  = OK [mkTxInput "T4" 0; mkTxInput "T4" 0] /\
  get_owned_ids Fixtures.sig_ok has_owner Fixtures.two_output_chain "B"
  = Raise UnboundLocalError.
Proof. split; reflexivity. Qed.

(** C7 (the code at the failing input): the block carries a vote of this
    node whose signature does not verify; the call ends in
    [AttributeError], not in [ImproperVoteError]. *)
Theorem has_previous_vote_bad_signature :
  has_previous_vote "n5" Fixtures.sig_ok Fixtures.five_voter_block
  = Raise AttributeError /\
  has_previous_vote "n5" Fixtures.sig_ok Fixtures.five_voter_block
  <> Raise ImproperVoteError.
Proof. split; [reflexivity|discriminate]. Qed.

(* ------------------------------------------------------------------ *)
(** ** The boolean forms of validation *)

Section BooleanForms.

Variable me : string.
Variable util_verify : Block -> SignedVote -> bool.
Variable plugin_validate_transaction : Store -> Transaction -> res Transaction.
Variable plugin_validate_block : Store -> Block -> res unit.

Abbreviation valid_tx := (is_valid_transaction plugin_validate_transaction).
Abbreviation strict_block :=
  (validate_block me util_verify plugin_validate_transaction
                  plugin_validate_block).

Lemma is_valid_transaction_raise (s : Store) (tx : Transaction) (e : exn) :
  validate_transaction plugin_validate_transaction s tx = Raise e ->
  valid_tx s tx =
  if is_valid_transaction_catches e then OK None else Raise e.
Proof. intro H. unfold is_valid_transaction. now rewrite H. Qed.

(** The loop of [validate_block] passes over transactions that validate. *)
Lemma validate_block_loop_ok (s : Store) (txs : list Transaction) :
  (forall t, In t txs -> exists t', plugin_validate_transaction s t = OK t') ->
  for_each (validate_block_transaction plugin_validate_transaction s) txs tt
  = OK tt.
Proof.
  induction txs as [|t r IH]; intro H; [reflexivity|].
  cbn [for_each]. unfold validate_block_transaction at 1.
  unfold is_valid_transaction, validate_transaction.
  destruct (H t (or_introl eq_refl)) as [t' ->]. cbn [bind].
  apply IH. intros x Hx. apply H. now right.
Qed.

(** The first transaction whose validation raises ends the loop with its
    exception, caught by [is_valid_transaction] or not. *)
Lemma validate_block_loop_raise (s : Store) (pre post : list Transaction)
  (tx : Transaction) (e : exn) :
  (forall t, In t pre -> exists t', plugin_validate_transaction s t = OK t') ->
  plugin_validate_transaction s tx = Raise e ->
  for_each (validate_block_transaction plugin_validate_transaction s)
           (pre ++ tx :: post) tt
  = Raise e.
Proof.
  intros Hpre Htx. induction pre as [|t r IH].
  - cbn [app for_each]. unfold validate_block_transaction at 1.
    unfold is_valid_transaction, validate_transaction. rewrite Htx.
    destruct (is_valid_transaction_catches e); reflexivity.
  - cbn [app for_each]. unfold validate_block_transaction at 1.
    unfold is_valid_transaction, validate_transaction.
    destruct (Hpre t (or_introl eq_refl)) as [t' ->]. cbn [bind].
    apply IH. intros x Hx. apply Hpre. now right.
Qed.

Lemma validate_block_transaction_raise (s : Store) (b : Block)
  (pre post : list Transaction) (tx : Transaction) (e : exn) :
  has_previous_vote me util_verify b = OK false ->
  plugin_validate_block s b = OK tt ->
  transactions (block b) = pre ++ tx :: post ->
  (forall t, In t pre -> exists t', plugin_validate_transaction s t = OK t') ->
  plugin_validate_transaction s tx = Raise e ->
  strict_block s b = Raise e.
Proof.
  intros Hv Hb Ht Hpre Htx. unfold validate_block.
  rewrite Hv, Hb, Ht. cbn [bind].
  now rewrite (validate_block_loop_raise s pre post tx e Hpre Htx).
Qed.

End BooleanForms.

(** C5 (as stated): validating a block whose transaction spends an output
    of a transaction that sits in two VALID blocks raises the
    chain-corruption exception, and a plugin may raise
    [ImproperVoteError]; [is_valid_block] returns [False] in both cases
    instead of letting the exception through. *)
Lemma is_valid_block_swallows_errors :
  validate_block "n1" Fixtures.sig_ok
    (spec_validate_transaction Fixtures.sig_ok) Fixtures.accept_block
    (mkStore [] Fixtures.corrupted_chain [])
    (Fixtures.blk "B3" [Fixtures.T2] [])
  = Raise Exception /\
  is_valid_block "n1" Fixtures.sig_ok
    (spec_validate_transaction Fixtures.sig_ok) Fixtures.accept_block
    (mkStore [] Fixtures.corrupted_chain [])
    (Fixtures.blk "B3" [Fixtures.T2] [])
  = false /\
  validate_block "n1" Fixtures.sig_ok
    (spec_validate_transaction Fixtures.sig_ok)
    (fun _ _ => Raise ImproperVoteError)
    Fixtures.empty_store (Fixtures.blk "B3" [Fixtures.T2] [])
  = Raise ImproperVoteError /\
  is_valid_block "n1" Fixtures.sig_ok
    (spec_validate_transaction Fixtures.sig_ok)
    (fun _ _ => Raise ImproperVoteError)
    Fixtures.empty_store (Fixtures.blk "B3" [Fixtures.T2] [])
  = false.
Proof. repeat split; reflexivity. Qed.

(** C5 (amended): [is_valid_transaction] turns into [False] only the
    exceptions its [except] clause lists and lets every other one through,
    the chain-corruption exception among them; [is_valid_block] catches
    every exception raised while the block is validated and returns
    [False], also for a chain-corruption or an improper-vote error: an
    exception raised by the check for a previous vote, by the plugin, or by
    the first transaction that fails. *)
Theorem boolean_forms_catch
  (me : string) (util_verify : Block -> SignedVote -> bool)
  (vt : Store -> Transaction -> res Transaction)
  (vb : Store -> Block -> res unit) (s : Store) :
  (forall tx e, validate_transaction vt s tx = Raise e ->
     is_valid_transaction vt s tx =
     if is_valid_transaction_catches e then OK None else Raise e) /\
  (forall tx, validate_transaction vt s tx = Raise Exception ->
     is_valid_transaction vt s tx = Raise Exception) /\
  (forall b e, validate_block me util_verify vt vb s b = Raise e ->
     is_valid_block me util_verify vt vb s b = false) /\
  (forall b e, has_previous_vote me util_verify b = Raise e ->
     is_valid_block me util_verify vt vb s b = false) /\
  (forall b e, has_previous_vote me util_verify b = OK false ->
     vb s b = Raise e ->
     is_valid_block me util_verify vt vb s b = false) /\
  (forall b pre tx post e,
     has_previous_vote me util_verify b = OK false ->
     vb s b = OK tt ->
     transactions (block b) = pre ++ tx :: post ->
     (forall t, In t pre -> exists t', vt s t = OK t') ->
     vt s tx = Raise e ->
     validate_block me util_verify vt vb s b = Raise e /\
     is_valid_block me util_verify vt vb s b = false).
Proof.
  split; [apply is_valid_transaction_raise|].
  split.
  { intros tx H. now rewrite (is_valid_transaction_raise vt s tx Exception H). }
  split.
  { intros b e H. unfold is_valid_block. now rewrite H. }
  split.
  { intros b e H. unfold is_valid_block, validate_block. now rewrite H. }
  split.
  { intros b e Hv Hb. unfold is_valid_block, validate_block.
    now rewrite Hv, Hb. }
  intros b pre tx post e Hv Hb Ht Hpre Htx.
  pose proof (validate_block_transaction_raise me util_verify vt vb s b
                pre post tx e Hv Hb Ht Hpre Htx) as H.
  split; [exact H|]. unfold is_valid_block. now rewrite H.
Qed.

Lemma boolean_forms_catch_witness :
  validate_block "n1" Fixtures.sig_ok
    (spec_validate_transaction Fixtures.sig_ok) Fixtures.accept_block
    (mkStore [] Fixtures.corrupted_chain [])
    (Fixtures.blk "B3" [Fixtures.T2] [])
  = Raise Exception /\
  is_valid_block "n1" Fixtures.sig_ok
    (spec_validate_transaction Fixtures.sig_ok) Fixtures.accept_block
    (mkStore [] Fixtures.corrupted_chain [])
    (Fixtures.blk "B3" [Fixtures.T2] [])
  = false.
Proof.
  apply (proj2 (proj2 (proj2 (proj2 (proj2
           (boolean_forms_catch "n1" Fixtures.sig_ok
              (spec_validate_transaction Fixtures.sig_ok)
              Fixtures.accept_block
              (mkStore [] Fixtures.corrupted_chain []))))))
           (Fixtures.blk "B3" [Fixtures.T2] []) [] Fixtures.T2 [] Exception).
  - reflexivity.
  - reflexivity.
  - reflexivity.
  - intros t Ht. contradiction.
  - reflexivity.
Defined.

(* ------------------------------------------------------------------ *)
(** ** Writing votes *)

Lemma table_get_update (bc : list Block) (key : string) (f : Block -> Block)
  (doc : Block) :
  (forall x, id (f x) = id x) ->
  table_get bc key = Some doc ->
  table_get (update_by_key bc key f) key = Some (f doc).
Proof.
  intros Hf. unfold table_get.
  induction bc as [|b r IH]; intro H; [discriminate|].
  cbn [update_by_key find] in *.
  destruct (String.eqb (id b) key) eqn:E.
  - injection H as <-. cbn [find]. now rewrite Hf, E.
  - cbn [find]. rewrite E. now apply IH.
Qed.

Lemma self_votes_app (me : string) (b : Block) (v : SignedVote) :
  (forall w, In w (votes b) -> node_pubkey w <> me) ->
  node_pubkey v = me ->
  filter (fun w => String.eqb (node_pubkey w) me) (votes b ++ [v]) = [v].
Proof.
  intros Hnone Hv. rewrite filter_app. cbn [filter].
  rewrite Hv, String.eqb_refl.
  induction (votes b) as [|w r IH]; [reflexivity|].
  cbn [filter]. destruct (String.eqb_spec (node_pubkey w) me) as [E|_].
  - exfalso. now apply (Hnone w (or_introl eq_refl)).
  - apply IH. intros x Hx. apply Hnone. now right.
Qed.

(** C6 (as stated): [write_vote] is called twice with the same vote and
    the same block as the caller holds it; the stored block ends with two
    votes of this node. *)
Lemma write_vote_twice_two_votes :
  let s1 := snd (write_vote "n1" Fixtures.sig_ok Fixtures.fresh_block
                            Fixtures.my_vote 1 Fixtures.one_block_store) in
  let s2 := snd (write_vote "n1" Fixtures.sig_ok Fixtures.fresh_block
                            Fixtures.my_vote 1 s1) in
  option_map (self_votes "n1") (table_get (bigchain s2) "B1")
  = Some [Fixtures.my_vote; Fixtures.my_vote].
Proof. reflexivity. Qed.

(** The comment in [write_vote] reads "We need to *not* override the
    existing block_number, if any", but the test is run on the block
    handed in: a stored document numbered 7 is renumbered 3 when the
    block handed in has no number. *)
Example write_vote_renumbers_stored_block :
  option_map block_number
             (table_get (bigchain Fixtures.numbered_store) "B1")
  = Some (Some 7%Z) /\
  option_map block_number
             (table_get
                (bigchain (snd (write_vote "n1" Fixtures.sig_ok
                                  Fixtures.fresh_block Fixtures.my_vote 3
                                  Fixtures.numbered_store)))
                "B1")
  = Some (Some 3%Z).
Proof. split; reflexivity. Qed.

(** C6 (amended): [write_vote] looks at the block it is handed.  When
    the first vote of this node in that block has a valid signature the
    call changes nothing and returns [None].  When the block carries no
    vote of this node, the vote is appended to the stored document named
    by the vote, nothing else of the document changes but its block
    number: that one is kept when the block handed in has a number, and
    set to the number given when neither the block handed in nor the
    stored document has one.  So after a first write of a vote of this
    node for a stored block, a second call handed the block as it is now
    stored changes nothing, and that block holds exactly one vote of this
    node. *)
Theorem write_vote_spec
  (me : string) (verify : Block -> SignedVote -> bool)
  (b : Block) (v : SignedVote) (number : Z) (s : Store) :
  (forall pre v0 post,
     votes b = pre ++ v0 :: post ->
     (forall w, In w pre -> node_pubkey w <> me) ->
     node_pubkey v0 = me -> verify b v0 = true ->
     write_vote me verify b v number s = (OK tt, s)) /\
  ((forall w, In w (votes b) -> node_pubkey w <> me) ->
   forall doc,
     table_get (bigchain s) (voting_for_block (vote_body v)) = Some doc ->
     exists s' doc',
       write_vote me verify b v number s = (OK tt, s') /\
       backlog s' = backlog s /\
       table_get (bigchain s') (voting_for_block (vote_body v))
       = Some doc' /\
       id doc' = id doc /\ block doc' = block doc /\
       blk_signature doc' = blk_signature doc /\
       votes doc' = votes doc ++ [v] /\
       (block_number b <> None -> block_number doc' = block_number doc) /\
       (block_number b = None -> block_number doc = None ->
        block_number doc' = Some number)) /\
  ((forall w, In w (votes b) -> node_pubkey w <> me) ->
   table_get (bigchain s) (id b) = Some b ->
   voting_for_block (vote_body v) = id b ->
   node_pubkey v = me ->
   exists s1 b1,
     write_vote me verify b v number s = (OK tt, s1) /\
     table_get (bigchain s1) (id b) = Some b1 /\
     self_votes me b1 = [v] /\
     (verify b1 v = true ->
      forall number', write_vote me verify b1 v number' s1 = (OK tt, s1))).
Proof.
  split; [|split].
  - intros pre v0 post Hv Hpre Hme Hver. unfold write_vote.
    rewrite has_previous_vote_scan, Hv.
    rewrite (scan_votes_first verify me b pre post v0 Hpre Hme).
    now rewrite Hver.
  - intros Hnone doc Hdoc. unfold write_vote.
    rewrite (proj2 (has_previous_vote_false verify me b) Hnone).
    eexists. eexists. split; [reflexivity|]. split; [reflexivity|].
    unfold run_update_bigchain. cbn [bigchain].
    split; [apply table_get_update; [reflexivity|exact Hdoc]|].
    unfold patch_block.
    cbn [id block blk_signature votes block_number].
    repeat split.
    + destruct (block_number b); [reflexivity|]. intro H. now contradiction H.
    + intros Hb _. now rewrite Hb.
  - intros Hnone Hget Hfor Hme. unfold write_vote at 1.
    rewrite (proj2 (has_previous_vote_false verify me b) Hnone), Hfor.
    eexists. eexists. split; [reflexivity|].
    unfold run_update_bigchain. cbn [bigchain].
    split; [apply table_get_update; [reflexivity|exact Hget]|].
    split.
    + unfold self_votes, patch_block. cbn [votes].
      now apply self_votes_app.
    + set (b1 := patch_block v _ b). intros Hver number'.
      unfold write_vote. rewrite has_previous_vote_scan.
      change (votes b1) with (votes b ++ [v]).
      rewrite (scan_votes_first verify me b1 (votes b) [] v Hnone Hme).
      now rewrite Hver.
Qed.

Lemma write_vote_spec_witness :
  exists s1 b1,
    write_vote "n1" Fixtures.sig_ok Fixtures.fresh_block Fixtures.my_vote 1
               Fixtures.one_block_store = (OK tt, s1) /\
    table_get (bigchain s1) "B1" = Some b1 /\
    self_votes "n1" b1 = [Fixtures.my_vote] /\
    (Fixtures.sig_ok b1 Fixtures.my_vote = true ->
     forall number',
       write_vote "n1" Fixtures.sig_ok b1 Fixtures.my_vote number' s1
       = (OK tt, s1)).
Proof.
  apply (proj2 (proj2 (write_vote_spec "n1" Fixtures.sig_ok
                         Fixtures.fresh_block Fixtures.my_vote 1
                         Fixtures.one_block_store)));
    try reflexivity.
  intros w [].
Defined.

(* ------------------------------------------------------------------ *)
(** ** The genesis block *)

Lemma toy_plugin_builds_as_asked :
  builds_as_asked Fixtures.toy_create Fixtures.toy_sign.
Proof. intros co no i op p key. split; reflexivity. Defined.

(** C8 (as stated): the transaction of the genesis block written on an
    empty store is a GENESIS transaction, not a CREATE transaction. *)
Lemma genesis_transaction_is_not_create :
  builds_as_asked Fixtures.toy_create Fixtures.toy_sign /\
  exists g s',
    Fixtures.genesis Fixtures.empty_store = (OK g, s') /\
    map (fun t => operation (transaction t)) (transactions (block g))
    = ["GENESIS"] /\
    forall t, In t (transactions (block g)) ->
              operation (transaction t) <> "CREATE".
Proof.
  split; [exact toy_plugin_builds_as_asked|].
  eexists. eexists. split; [reflexivity|]. split; [reflexivity|].
  intros t [<-|[]]. discriminate.
Qed.

(** C8 (amended): [create_genesis_block] raises
    [GenesisBlockAlreadyExistsError] whenever [bigchain] is not empty and
    leaves the store alone; on an empty [bigchain] it writes, with hard
    durability, exactly one block, with block number 0, holding the one
    transaction the plugin builds and signs for the operation GENESIS and
    the payload [{message: "Hello World from the BigchainDB"}]; with a
    plugin that builds what it is asked for, that is one GENESIS
    transaction with this payload. *)
Theorem create_genesis_block_spec
  (me me_private : string) (nodes_except_me : list string)
  (create : owners -> owners -> option TxInput -> string -> payload
            -> Transaction)
  (sign : Transaction -> string -> Transaction)
  (now : string) (serialize : BlockBody -> string)
  (hash : string -> string) (sign_data : string -> string -> string)
  (s : Store) :
  (bigchain s <> [] ->
   create_genesis_block me me_private nodes_except_me create sign now
                        serialize hash sign_data s
   = (Raise GenesisBlockAlreadyExistsError, s)) /\
  (bigchain s = [] ->
   exists genesis s',
     create_genesis_block me me_private nodes_except_me create sign now
                          serialize hash sign_data s
     = (OK genesis, s') /\
     bigchain s' = [genesis] /\
     backlog s' = backlog s /\
     journal s' = journal s ++ [insert_bigchain genesis hard] /\
     block_number genesis = Some 0%Z /\
     transactions (block genesis)
     = [sign (create (KeyList [me]) (KeyList [me]) None "GENESIS"
                     [("message", PStr "Hello World from the BigchainDB")])
             me_private] /\
     (builds_as_asked create sign ->
      exists tx,
        transactions (block genesis) = [tx] /\
        operation (transaction tx) = "GENESIS" /\
        data_payload (transaction tx)
        = [("message", PStr "Hello World from the BigchainDB")])).
Proof.
  split.
  - intro H. unfold create_genesis_block.
    destruct (bigchain s); [contradiction|reflexivity].
  - intro H. unfold create_genesis_block, write_block, run_insert_bigchain,
      create_block, create_transaction, sign_transaction.
    rewrite H. cbn [length Nat.eqb negb table_get find snd app].
    eexists. eexists. split; [reflexivity|].
    cbn [bigchain backlog journal block_number block transactions].
    repeat (split; [reflexivity|]).
    intro Hb. eexists. split; [reflexivity|]. apply Hb.
Qed.

Lemma create_genesis_block_spec_witness :
  exists g s',
    Fixtures.genesis Fixtures.empty_store = (OK g, s') /\
    bigchain s' = [g] /\
    backlog s' = [] /\
    journal s' = [insert_bigchain g hard] /\
    block_number g = Some 0%Z /\
    transactions (block g)
    = [Fixtures.toy_sign
         (Fixtures.toy_create (KeyList ["n1"]) (KeyList ["n1"]) None "GENESIS"
            [("message", PStr "Hello World from the BigchainDB")])
         "priv"] /\
    (builds_as_asked Fixtures.toy_create Fixtures.toy_sign ->
     exists tx,
       transactions (block g) = [tx] /\
       operation (transaction tx) = "GENESIS" /\
       data_payload (transaction tx)
       = [("message", PStr "Hello World from the BigchainDB")]).
Proof.
  apply (proj2 (create_genesis_block_spec "n1" "priv" [] Fixtures.toy_create
                  Fixtures.toy_sign "t0" Fixtures.toy_serialize_block
                  Fixtures.toy_hash Fixtures.toy_signature
                  Fixtures.empty_store)).
  reflexivity.
Defined.

(* ------------------------------------------------------------------ *)
(** ** Currency transfer *)

Lemma py_ge_numbers (a c : Z) :
  py_ge (PNum a) (PNum c) = OK false <-> (a < c)%Z.
Proof.
  cbn [py_ge]. destruct (Z.geb_spec a c) as [H|H].
  - split; [discriminate|lia].
  - split; [intros _; lia|reflexivity].
Qed.

(** [float(z) <= 0] on an [int]: refused from [float_overflow] on, the
    sign of [z] below it. *)
Lemma float_le_zero_int (float_str : string -> res pyfloat) (z : Z) :
  float_le_zero float_str (PNum z) = OK false <->
  (0 < z < float_overflow)%Z.
Proof.
  cbn [float_le_zero].
  destruct (Z.leb_spec float_overflow (Z.abs z)) as [H|H].
  - split; [discriminate|lia].
  - destruct (Z.leb_spec z 0) as [H0|H0].
    + split; [discriminate|lia].
    + split; [intros _; lia|reflexivity].
Qed.

Section Currency.

Variables me me_private : string.
Variable nodes_except_me : list string.
Variable verify : Block -> SignedVote -> bool.
Variable has_owner : Details -> string -> bool.
Variable create :
  owners -> owners -> option TxInput -> string -> payload -> Transaction.
Variable sign : Transaction -> string -> Transaction.
Variable plugin_validate_transaction : Store -> Transaction -> res Transaction.
Variables choice choice' : list string -> string.
Variable payload_type : Transaction -> string.
Variable last_txid : list CurrencyId -> option CurrencyId.
Variable current_account : last_tx -> res pyval.
Variable pair_payload : payload -> payload * payload.
Variable payload_format : payload -> bool.
Variable float_str : string -> res pyfloat.

Abbreviation transfer :=
  (transfer_currency me verify has_owner me_private nodes_except_me create
     sign plugin_validate_transaction choice payload_type last_txid
     current_account pair_payload payload_format float_str choice').
Abbreviation legs :=
  (transfer_legs me verify has_owner me_private create sign
     plugin_validate_transaction payload_type last_txid current_account
     pair_payload payload_format float_str).
Abbreviation last_currency :=
  (get_last_currency verify has_owner payload_type last_txid).
Abbreviation valid := (is_valid_transaction plugin_validate_transaction).

Lemma both_valid_false (s : Store) (a b : Transaction) :
  valid s a = OK None \/
  ((exists t, valid s a = OK (Some t)) /\ valid s b = OK None) ->
  both_valid plugin_validate_transaction s a b = OK false.
Proof.
  unfold both_valid. intros [H|[[t Ha] Hb]].
  - now rewrite H.
  - now rewrite Ha, Hb.
Qed.

(** A transfer that raises has written nothing. *)
Lemma transfer_raise_unchanged
  (sender_pub sender_priv receiver_pub : string) (payload_dic : payload)
  (s s' : Store) (e : exn) :
  transfer sender_pub sender_priv receiver_pub payload_dic s = (Raise e, s') ->
  s' = s.
Proof.
  unfold transfer_currency, write_transaction.
  destruct (legs s sender_pub receiver_pub payload_dic) as [[stx rtx]|e'].
  - destruct (run_insert_backlog _ soft s) as [r1 s1].
    destruct (run_insert_backlog _ soft s1) as [r2 s2]. discriminate.
  - now intros [= _ <-].
Qed.

(** C9: [transfer_currency] succeeds only for an amount that is positive
    and a sender balance, read through [get_last_currency], of at least
    that amount (for whole numbers: [0 < amount <= balance]); an amount
    that is not positive is refused as an invalid payload; it raises
    [BalanceNotEnough] when the balance is smaller than a positive amount;
    when the sender leg or the receiver leg fails validation it raises
    [InvalidTransaction]; and whenever it raises, nothing has been written
    to the backlog. *)
Theorem transfer_currency_spec
  (sender_pub sender_priv receiver_pub : string) (payload_dic : payload)
  (s : Store) :
  (forall r s',
     transfer sender_pub sender_priv receiver_pub payload_dic s = (OK r, s') ->
     exists cost last balance,
       dict_get payload_dic "amount" = Some cost /\
       float_le_zero float_str cost = OK false /\
       last_currency s sender_pub = OK last /\
       current_account last = OK balance /\
       py_ge balance cost = OK true) /\
  (forall cost,
     payload_format payload_dic = true ->
     dict_get payload_dic "amount" = Some cost ->
     float_le_zero float_str cost = OK true ->
     transfer sender_pub sender_priv receiver_pub payload_dic s
     = (Raise InvalidPayload, s)) /\
  (forall cost last balance,
     payload_format payload_dic = true ->
     dict_get payload_dic "amount" = Some cost ->
     float_le_zero float_str cost = OK false ->
     last_currency s sender_pub = OK last ->
     current_account last = OK balance ->
     py_ge balance cost = OK false ->
     transfer sender_pub sender_priv receiver_pub payload_dic s
     = (Raise BalanceNotEnough, s)) /\
  (forall cost last balance sender_payload receiver_payload stx rtx,
     payload_format payload_dic = true ->
     dict_get payload_dic "amount" = Some cost ->
     float_le_zero float_str cost = OK false ->
     last_currency s sender_pub = OK last ->
     current_account last = OK balance ->
     py_ge balance cost = OK true ->
     pair_payload payload_dic = (sender_payload, receiver_payload) ->
     sender_leg me me_private create sign sender_pub receiver_pub
                sender_payload balance last = OK stx ->
     receiver_leg me verify has_owner me_private create sign payload_type
                  last_txid current_account s sender_pub receiver_pub
                  receiver_payload = OK rtx ->
     valid s stx = OK None \/
     ((exists t, valid s stx = OK (Some t)) /\ valid s rtx = OK None) ->
     transfer sender_pub sender_priv receiver_pub payload_dic s
     = (Raise InvalidTransaction, s)) /\
  (forall e s',
     transfer sender_pub sender_priv receiver_pub payload_dic s
     = (Raise e, s') ->
     backlog s' = backlog s /\ s' = s) /\
  (forall r s' amount,
     transfer sender_pub sender_priv receiver_pub payload_dic s = (OK r, s') ->
     dict_get payload_dic "amount" = Some (PNum amount) ->
     (0 < amount)%Z /\
     exists last balance,
       last_currency s sender_pub = OK last /\
       current_account last = OK balance /\
       forall b, balance = PNum b -> (amount <= b)%Z).
Proof.
  assert (Hsuccess : forall r s',
    transfer sender_pub sender_priv receiver_pub payload_dic s = (OK r, s') ->
    exists cost last balance,
      dict_get payload_dic "amount" = Some cost /\
      float_le_zero float_str cost = OK false /\
      last_currency s sender_pub = OK last /\
      current_account last = OK balance /\
      py_ge balance cost = OK true).
  { intros r s' H. unfold transfer_currency in H.
    destruct (legs s sender_pub receiver_pub payload_dic)
      as [[stx rtx]|e] eqn:EL; [clear H|discriminate].
    unfold transfer_legs in EL.
    destruct (payload_format payload_dic); [|discriminate].
    destruct (dict_get payload_dic "amount") as [cost|]; [|discriminate].
    cbn [bind] in EL.
    destruct (float_le_zero float_str cost) as [[|]|] eqn:Ef;
      try discriminate.
    cbn [bind] in EL.
    destruct (last_currency s sender_pub) as [last|] eqn:El; [|discriminate].
    cbn [bind] in EL.
    destruct (current_account last) as [balance|] eqn:Ea; [|discriminate].
    cbn [bind] in EL.
    destruct (py_ge balance cost) as [[|]|] eqn:Eg; try discriminate.
    exists cost, last, balance. repeat split; auto. }
  split; [exact Hsuccess|]. split; [|split; [|split; [|split]]].
  - intros cost Hfmt Hc Hf.
    unfold transfer_currency, transfer_legs.
    rewrite Hfmt, Hc. cbn [bind]. rewrite Hf. reflexivity.
  - intros cost last balance Hfmt Hc Hf Hl Ha Hg.
    unfold transfer_currency, transfer_legs.
    rewrite Hfmt, Hc. cbn [bind]. rewrite Hf. cbn [bind].
    rewrite Hl. cbn [bind]. rewrite Ha. cbn [bind]. rewrite Hg. reflexivity.
  - intros cost last balance sp rp stx rtx
           Hfmt Hc Hf Hl Ha Hg Hp Hs Hr Hv.
    unfold transfer_currency, transfer_legs.
    rewrite Hfmt, Hc. cbn [bind]. rewrite Hf. cbn [bind].
    rewrite Hl. cbn [bind]. rewrite Ha. cbn [bind]. rewrite Hg. cbn [bind].
    rewrite Hp, Hs. cbn [bind]. rewrite Hr. cbn [bind].
    rewrite (both_valid_false s stx rtx Hv). reflexivity.
  - intros e s' H.
    rewrite (transfer_raise_unchanged _ _ _ _ _ _ _ H). auto.
  - intros r s' amount H Hamount.
    destruct (Hsuccess r s' H)
      as [cost [last [balance [Hc [Hf [Hl [Ha Hg]]]]]]].
    rewrite Hamount in Hc. injection Hc as <-.
    apply float_le_zero_int in Hf. split; [lia|].
    exists last, balance. split; [exact Hl|]. split; [exact Ha|].
    intros b ->. cbn [py_ge] in Hg. injection Hg as Hg. lia.
Qed.

End Currency.

Lemma transfer_currency_spec_witness :
  Fixtures.rejected_transfer Fixtures.funded_store (PNum 300)
  = (Raise BalanceNotEnough, Fixtures.funded_store) /\
  Fixtures.rejected_transfer Fixtures.funded_store (PNum 30)
  = (Raise InvalidTransaction, Fixtures.funded_store).
Proof.
  split.
  - apply (proj1 (proj2 (proj2 (transfer_currency_spec "n1" "priv"
             ["n2"; "n3"]
             Fixtures.sig_ok Fixtures.no_owner Fixtures.toy_create
             Fixtures.toy_sign Fixtures.reject_transaction
             Fixtures.first_key Fixtures.last_key Fixtures.toy_payload_type
             Fixtures.toy_last_txid Fixtures.toy_current_account
             Fixtures.toy_pair_payload Fixtures.any_payload
             Fixtures.no_float "A" "A-priv" "B" [("amount", PNum 300)]
             Fixtures.funded_store)))
           (PNum 300)
           (found (hd Fixtures.T1 (backlog Fixtures.funded_store)))
           (PNum 100));
      try reflexivity.
  - refine (proj1 (proj2 (proj2 (proj2 (transfer_currency_spec "n1" "priv"
             ["n2"; "n3"]
             Fixtures.sig_ok Fixtures.no_owner Fixtures.toy_create
             Fixtures.toy_sign Fixtures.reject_transaction
             Fixtures.first_key Fixtures.last_key Fixtures.toy_payload_type
             Fixtures.toy_last_txid Fixtures.toy_current_account
             Fixtures.toy_pair_payload Fixtures.any_payload
             Fixtures.no_float "A" "A-priv" "B" [("amount", PNum 30)]
             Fixtures.funded_store))))
           (PNum 30)
           (found (hd Fixtures.T1 (backlog Fixtures.funded_store)))
           (PNum 100) _ _ _ _ _ _ _ _ _ _ _ _ _ _);
      try reflexivity.
    left. reflexivity.
Defined.

(** An [int] beyond the range of floats is refused by [float] itself, a
    fractional amount is compared by value, and a not-a-number passes the
    test of the sign and fails the test of the balance. *)
Example transfer_amounts :
  Fixtures.rejected_transfer Fixtures.funded_store (PNum (10 ^ 400))
  = (Raise OverflowError, Fixtures.funded_store) /\
  Fixtures.rejected_transfer Fixtures.funded_store (PNum 0)
  = (Raise InvalidPayload, Fixtures.funded_store) /\
  Fixtures.rejected_transfer Fixtures.funded_store (PFloat (F_num 201 (-1)))
  = (Raise BalanceNotEnough, Fixtures.funded_store) /\
  Fixtures.rejected_transfer Fixtures.funded_store (PFloat (F_num 199 (-1)))
  = (Raise InvalidTransaction, Fixtures.funded_store) /\
  Fixtures.rejected_transfer Fixtures.funded_store (PFloat F_nan)
  = (Raise BalanceNotEnough, Fixtures.funded_store).
Proof. repeat split; vm_compute; reflexivity. Qed.

(* ================================================================== *)
(** * Further properties of the code *)

(* ------------------------------------------------------------------ *)
(** ** Election thresholds *)

Lemma tallies_nonnegative (verify : Block -> SignedVote -> bool) (b : Block) :
  (0 <= n_valid_votes verify b)%Z /\ (0 <= n_invalid_votes verify b)%Z /\
  (n_valid_votes verify b + n_invalid_votes verify b
   = Z.of_nat (length (votes b)))%Z.
Proof.
  rewrite n_valid_votes_count, n_invalid_votes_count.
  rewrite (votes_partition verify b). lia.
Qed.

Lemma status_by_doubled_tallies
  (verify : Block -> SignedVote -> bool) (b : Block) :
  (block_election_status verify b = BLOCK_INVALID <->
   (Z.of_nat (length (voters (block b))) <= 2 * n_invalid_votes verify b)%Z) /\
  (block_election_status verify b = BLOCK_VALID <->
   (2 * n_invalid_votes verify b < Z.of_nat (length (voters (block b))))%Z /\
   (Z.of_nat (length (voters (block b))) < 2 * n_valid_votes verify b)%Z) /\
  (block_election_status verify b = BLOCK_UNDECIDED <->
   (2 * n_invalid_votes verify b < Z.of_nat (length (voters (block b))))%Z /\
   (2 * n_valid_votes verify b <= Z.of_nat (length (voters (block b))))%Z).
Proof.
  unfold block_election_status.
  set (n := Z.of_nat (length (voters (block b)))).
  pose proof (ceil_half_least n (n_invalid_votes verify b)) as Hc.
  pose proof (floor_half_greatest n (n_valid_votes verify b)) as Hf.
  destruct (Z.geb_spec (n_invalid_votes verify b) (ceil_half n)) as [Hi|Hi].
  - repeat split; try discriminate; intros; try reflexivity; lia.
  - destruct (Z.gtb_spec (n_valid_votes verify b) (floor_half n)) as [Hv|Hv].
    + repeat split; try discriminate; intros; try reflexivity; lia.
    + repeat split; try discriminate; intros; try reflexivity; lia.
Qed.

(** X1: every vote lands in exactly one of the two tallies, and the
    verdict follows the doubled tallies: INVALID exactly when twice the
    invalid tally reaches the number of voters, VALID exactly when it does
    not and twice the valid tally exceeds the number of voters, UNDECIDED
    otherwise. *)
Theorem election_status_thresholds
  (verify : Block -> SignedVote -> bool) (b : Block) :
  let n := Z.of_nat (length (voters (block b))) in
  let yes := n_valid_votes verify b in
  let no := n_invalid_votes verify b in
  (yes + no = Z.of_nat (length (votes b)))%Z /\
  (0 <= yes)%Z /\ (0 <= no)%Z /\
  (block_election_status verify b = BLOCK_INVALID <-> (n <= 2 * no)%Z) /\
  (block_election_status verify b = BLOCK_VALID <->
   (2 * no < n)%Z /\ (n < 2 * yes)%Z) /\
  (block_election_status verify b = BLOCK_UNDECIDED <->
   (2 * no < n)%Z /\ (2 * yes <= n)%Z).
Proof.
  cbv zeta. destruct (tallies_nonnegative verify b) as [Hy [Hn Hsum]].
  split; [exact Hsum|]. split; [exact Hy|]. split; [exact Hn|].
  apply status_by_doubled_tallies.
Qed.

Lemma no_quorum_undecided
  (verify : Block -> SignedVote -> bool) (b : Block) :
  2 * length (votes b) < length (voters (block b)) ->
  block_election_status verify b = BLOCK_UNDECIDED.
Proof.
  intro Hlt. destruct (tallies_nonnegative verify b) as [Hy [Hn Hsum]].
  apply (status_by_doubled_tallies verify b). lia.
Qed.

(** X2: a block without voters is INVALID whatever its votes are, and a
    block that has collected votes from fewer than half of its voters is
    UNDECIDED; so a block without votes and with a voter is UNDECIDED. *)
Theorem election_status_edges
  (verify : Block -> SignedVote -> bool) (b : Block) :
  (voters (block b) = [] -> block_election_status verify b = BLOCK_INVALID) /\
  (2 * length (votes b) < length (voters (block b)) ->
   block_election_status verify b = BLOCK_UNDECIDED) /\
  (votes b = [] -> voters (block b) <> [] ->
   block_election_status verify b = BLOCK_UNDECIDED).
Proof.
  destruct (tallies_nonnegative verify b) as [Hy [Hn Hsum]].
  split; [|split].
  - intro Hv. apply (status_by_doubled_tallies verify b).
    rewrite Hv. cbn [length]. lia.
  - apply no_quorum_undecided.
  - intros Hv Hne. apply no_quorum_undecided. rewrite Hv. cbn [length].
    destruct (voters (block b)); [contradiction|]. cbn [length]. lia.
Qed.

Lemma election_status_edges_witness :
  block_election_status Fixtures.sig_ok
    (Fixtures.blk "B" [Fixtures.T1] []) = BLOCK_UNDECIDED.
Proof.
  apply (proj2 (proj2 (election_status_edges Fixtures.sig_ok
                         (Fixtures.blk "B" [Fixtures.T1] []))));
    [reflexivity|discriminate].
Defined.

(* ------------------------------------------------------------------ *)
(** ** Looking transactions up *)

Lemma pick_target_valid (l : dict status) (t : option string) (k : string) :
  pick_target l t = Some k ->
  existsb (fun kv => status_eqb (snd kv) BLOCK_VALID) l = true ->
  In (k, BLOCK_VALID) l.
Proof.
  revert t. induction l as [|[k0 st] r IH]; intros t Hp Hex; [discriminate|].
  cbn [pick_target existsb snd] in Hp, Hex.
  destruct (status_eqb st BLOCK_VALID) eqn:E.
  - apply status_eqb_eq in E. subst st. injection Hp as <-. now left.
  - right. apply (IH (Some k0)); assumption.
Qed.

Lemma at_most_one {A : Type} (l : list A) (x y : A) :
  length l <= 1 -> In x l -> In y l -> x = y.
Proof.
  destruct l as [|a [|c r]]; cbn [length]; intros Hl Hx Hy.
  - contradiction.
  - destruct Hx as [<-|[]], Hy as [<-|[]]. reflexivity.
  - lia.
Qed.

(** X3: on a table with a sound primary key, for an id held by at most
    one VALID block, [get_transaction] never raises; it returns [None]
    exactly when no VALID or UNDECIDED block holds the id, and a
    transaction it returns is in the ledger and carries the id asked
    for. *)
Theorem get_transaction_finds_live
  (verify : Block -> SignedVote -> bool) (bc : list Block) (txid : string) :
  primary_key_ok bc ->
  n_valid_blocks verify bc txid <= 1 ->
  (exists r, get_transaction verify bc txid = OK r) /\
  (get_transaction verify bc txid = OK None <->
   in_live_block verify bc txid = false) /\
  (forall tx, get_transaction verify bc txid = OK (Some tx) ->
     tx_id tx = txid /\ In tx (all_transactions bc) /\
     in_live_block verify bc txid = true).
Proof.
  intros Hpk Hv.
  pose proof (get_transaction_cases verify bc txid Hpk Hv) as H.
  destruct (in_live_block verify bc txid).
  - destruct H as [tx [E [Hid Hin]]]. rewrite E. split; [now exists (Some tx)|].
    split; [split; discriminate|].
    intros tx' [= <-]. auto.
  - rewrite H. split; [now exists None|].
    split; [tauto|]. discriminate.
Qed.

Lemma get_transaction_finds_live_witness :
  get_transaction Fixtures.sig_ok Fixtures.transfer_chain "T9" = OK None <->
  in_live_block Fixtures.sig_ok Fixtures.transfer_chain "T9" = false.
Proof.
  apply (get_transaction_finds_live Fixtures.sig_ok Fixtures.transfer_chain
           "T9" transfer_chain_keys (transfer_chain_ok "T9")).
Defined.

(** X4: [get_transaction] prefers the VALID block: when a VALID block
    holds the id, the transaction returned is the one of that block, also
    when UNDECIDED blocks ahead of it hold a transaction with the same
    id. *)
Theorem get_transaction_prefers_valid
  (verify : Block -> SignedVote -> bool) (bc : list Block) (txid : string)
  (b : Block) :
  primary_key_ok bc ->
  n_valid_blocks verify bc txid <= 1 ->
  In b bc ->
  block_has_tx txid b = true ->
  block_election_status verify b = BLOCK_VALID ->
  exists tx,
    get_transaction verify bc txid = OK (Some tx) /\
    In tx (transactions (block b)) /\ tx_id tx = txid.
Proof.
  intros Hpk Hv Hb Hhas Hst.
  rewrite (get_transaction_eq verify bc txid Hpk Hv).
  assert (Hlive : In b (live_blocks verify bc txid)).
  { unfold live_blocks, containing. apply filter_In. split.
    - apply filter_In. now split.
    - now rewrite Hst. }
  assert (Hne : status_map verify (live_blocks verify bc txid) <> []).
  { destruct (live_blocks verify bc txid); [contradiction|discriminate]. }
  destruct (pick_target_in _ None Hne) as [k [Ek _]]. rewrite Ek.
  assert (Hex : existsb (fun kv => status_eqb (snd kv) BLOCK_VALID)
                  (status_map verify (live_blocks verify bc txid)) = true).
  { apply existsb_exists. exists (id b, block_election_status verify b).
    split.
    - unfold status_map. apply in_map_iff. now exists b.
    - cbn [snd]. now rewrite Hst. }
  pose proof (pick_target_valid _ _ _ Ek Hex) as Hk.
  unfold status_map in Hk. apply in_map_iff in Hk.
  destruct Hk as [b' [Hb' Hin']]. injection Hb' as Hid Hst'.
  assert (b' = b).
  { apply (at_most_one
             (filter (fun c => status_eqb BLOCK_VALID
                                 (block_election_status verify c))
                     (containing bc txid))).
    - exact Hv.
    - apply filter_In. split.
      + unfold live_blocks in Hin'. now apply filter_In in Hin'.
      + now rewrite Hst'.
    - apply filter_In. split.
      + unfold live_blocks in Hlive. now apply filter_In in Hlive.
      + now rewrite Hst. }
  subst b'. rewrite <- Hid, (table_get_own bc b Hpk Hb).
  destruct (filter_first _ _ Hhas) as [tx [r [Ef Htx]]].
  exists tx. rewrite Ef. split; [reflexivity|].
  split; [|now apply String.eqb_eq].
  assert (In tx (tx :: r)) as Hx by now left.
  rewrite <- Ef in Hx. now apply filter_In in Hx.
Qed.

Lemma undecided_then_valid_keys :
  primary_key_ok Fixtures.undecided_then_valid.
Proof.
  unfold primary_key_ok. simpl.
  repeat constructor; simpl; intuition discriminate.
Defined.

Lemma get_transaction_prefers_valid_witness :
  exists tx,
    get_transaction Fixtures.sig_ok Fixtures.undecided_then_valid "T1"
    = OK (Some tx) /\
    In tx (transactions (block (Fixtures.blk "B1" [Fixtures.T1]
                                             (Fixtures.yes "B1")))) /\
    tx_id tx = "T1".
Proof.
  apply (get_transaction_prefers_valid Fixtures.sig_ok
           Fixtures.undecided_then_valid "T1"
           (Fixtures.blk "B1" [Fixtures.T1] (Fixtures.yes "B1"))
           undecided_then_valid_keys).
  - vm_compute. lia.
  - right. left. reflexivity.
  - reflexivity.
  - reflexivity.
Defined.

(** X5: whatever [get_spent] returns is the first transaction of the scan
    of [bigchain] that lists the input in a fulfillment, and without such
    a transaction it returns [None]. *)
Theorem get_spent_returns_first_match
  (verify : Block -> SignedVote -> bool) (bc : list Block) (i : TxInput) :
  (filter (spends i) (all_transactions bc) = [] ->
   get_spent verify bc i = OK None) /\
  (forall tx, get_spent verify bc i = OK (Some tx) ->
     spends i tx = true /\ In tx (all_transactions bc) /\
     exists rest, filter (spends i) (all_transactions bc) = tx :: rest).
Proof.
  unfold get_spent. split.
  - intro H. now rewrite H.
  - intros tx H.
    destruct (filter (spends i) (all_transactions bc)) as [|first r] eqn:E;
      [discriminate|].
    destruct (for_each (count_spending verify bc) (first :: r) 0)
      as [[|n]|e]; cbn [bind] in H; try discriminate.
    injection H as <-.
    assert (Hin : In first (first :: r)) by now left.
    rewrite <- E in Hin. apply filter_In in Hin.
    split; [tauto|]. split; [tauto|]. now exists r.
Qed.

Lemma get_spent_returns_first_match_witness :
  get_spent Fixtures.sig_ok Fixtures.transfer_chain (mkTxInput "T2" 0)
  = OK None.
Proof.
  apply (get_spent_returns_first_match Fixtures.sig_ok
           Fixtures.transfer_chain (mkTxInput "T2" 0)).
  reflexivity.
Defined.

(** X6: [transaction_exists] is [False] exactly when
    [get_blocks_status_containing_tx] returns [None]; it is [True] exactly
    when some stored block, of whatever status, holds a transaction with
    the id; and when it is [False], [get_transaction] returns [None]. *)
Theorem transaction_exists_iff_status
  (verify : Block -> SignedVote -> bool) (bc : list Block) (txid : string) :
  (transaction_exists bc txid = false <->
   get_blocks_status_containing_tx verify bc txid = OK None) /\
  (transaction_exists bc txid = true <->
   exists b, In b bc /\ block_has_tx txid b = true) /\
  (transaction_exists bc txid = false ->
   get_transaction verify bc txid = OK None).
Proof.
  unfold transaction_exists, get_transaction,
    get_blocks_status_containing_tx, search_block_election_on_index,
    get_all_transaction_id.
  destruct (filter (block_has_tx txid) bc) as [|b r] eqn:E.
  - split; [split; reflexivity|]. split; [|reflexivity].
    split; [discriminate|]. intros [b [Hb Hhas]].
    assert (In b (filter (block_has_tx txid) bc)) by now apply filter_In.
    rewrite E in H. contradiction.
  - split.
    { split; [discriminate|]. intro H.
      destruct (Nat.ltb 1 _) in H; discriminate. }
    split; [|discriminate].
    split; [|reflexivity]. intros _. exists b.
    assert (In b (b :: r)) as H by now left.
    rewrite <- E in H. now apply filter_In in H.
Qed.

Lemma transaction_exists_iff_status_witness :
  get_transaction Fixtures.sig_ok Fixtures.transfer_chain "T9" = OK None.
Proof.
  apply (transaction_exists_iff_status Fixtures.sig_ok
           Fixtures.transfer_chain "T9").
  reflexivity.
Defined.

(* ------------------------------------------------------------------ *)
(** ** Owned outputs *)

Lemma for_each_invariant {A S : Type} (I : S -> Prop)
  (body : S -> A -> res S) (l : list A) :
  (forall s a s', In a l -> I s -> body s a = OK s' -> I s') ->
  forall s0 s, I s0 -> for_each body l s0 = OK s -> I s.
Proof.
  induction l as [|a r IH]; intros Hstep s0 s H0 Hrun.
  - injection Hrun as <-. exact H0.
  - cbn [for_each] in Hrun. destruct (body s0 a) as [s1|e] eqn:E;
      cbn [bind] in Hrun; [|discriminate].
    apply (IH (fun s a s' Hin => Hstep s a s' (or_intror Hin)) s1 s);
      [|exact Hrun].
    apply (Hstep s0 a s1); [now left|exact H0|exact E].
Qed.

Section OwnedOutputs.

Variable verify : Block -> SignedVote -> bool.
Variable has_owner : Details -> string -> bool.
Variable bc : list Block.
Variable owner : string.

Abbreviation owned_inv := (owned_inv verify has_owner bc owner).

Lemma owned_condition_keeps (tx : Transaction) (c : Condition)
  (st st' : option TxInput * list TxInput) :
  In tx (all_transactions bc) -> names_owner owner tx = true ->
  live_status verify bc (tx_id tx) ->
  In c (conditions (transaction tx)) ->
  owned_inv st ->
  owned_condition verify has_owner bc owner tx st c = OK st' ->
  owned_inv st'.
Proof.
  intros Htx Hname Hlive Hc [Hvar Hlist] Hrun.
  destruct st as [tx_input owned]. unfold owned_condition in Hrun.
  assert (Hnew : owned_output verify has_owner bc owner
                   (mkTxInput (tx_id tx) (c_cid c)) \/
                 owns_condition has_owner owner c = false).
  { destruct (owns_condition has_owner owner c) eqn:E; [left|now right].
    exists tx, c. repeat split; assumption. }
  assert (Hti : exists ti,
             (forall i, ti = Some i ->
                owned_output verify has_owner bc owner i) /\
             match ti with
             | None => Raise UnboundLocalError
             | Some i =>
                 spent <- get_spent verify bc i ;;
                 match spent with
                 | Some _ => OK (ti, owned)
                 | None => OK (ti, owned ++ [i])
                 end
             end = OK st').
  { unfold owns_condition in Hnew.
    destruct (Nat.eqb (length (new_owners c)) 1).
    - destruct (public_key (details c)) as [pk|]; [|discriminate].
      destruct (String.eqb pk owner); cbn [bind] in Hrun.
      + exists (Some (mkTxInput (tx_id tx) (c_cid c))).
        split; [|exact Hrun]. intros i [= <-].
        destruct Hnew as [H|H]; [exact H|discriminate].
      + exists tx_input. split; [exact Hvar|exact Hrun].
    - destruct (has_owner (details c) owner); cbn [bind] in Hrun.
      + exists (Some (mkTxInput (tx_id tx) (c_cid c))).
        split; [|exact Hrun]. intros i [= <-].
        destruct Hnew as [H|H]; [exact H|discriminate].
      + exists tx_input. split; [exact Hvar|exact Hrun]. }
  destruct Hti as [[i|] [Hi Hres]]; [|discriminate].
  destruct (get_spent verify bc i) as [[t|]|e] eqn:Es; cbn [bind] in Hres;
    try discriminate; injection Hres as <-; split; cbn [fst snd].
  - exact Hi.
  - exact Hlist.
  - exact Hi.
  - intros j Hj. apply in_app_or in Hj. destruct Hj as [Hj|[<-|[]]].
    + now apply Hlist.
    + split; [now apply Hi|exact Es].
Qed.

Lemma owned_transaction_keeps (tx : Transaction)
  (st st' : option TxInput * list TxInput) :
  In tx (all_transactions bc) -> names_owner owner tx = true ->
  owned_inv st ->
  owned_transaction verify has_owner bc owner st tx = OK st' ->
  owned_inv st'.
Proof.
  intros Htx Hname Hinv Hrun. unfold owned_transaction in Hrun.
  destruct (get_blocks_status_containing_tx verify bc (tx_id tx))
    as [[validity|]|e] eqn:Ev; cbn [bind] in Hrun; try discriminate.
  destruct (negb (in_values BLOCK_VALID validity)
            && negb (in_values BLOCK_UNDECIDED validity)) eqn:Eb.
  - injection Hrun as <-. exact Hinv.
  - assert (Hlive : live_status verify bc (tx_id tx)).
    { exists validity. split; [exact Ev|].
      destruct (in_values BLOCK_VALID validity); [now left|].
      destruct (in_values BLOCK_UNDECIDED validity); [now right|].
      discriminate. }
    apply (for_each_invariant owned_inv _ (conditions (transaction tx))
             (fun s c s' Hc Hs Hb =>
                owned_condition_keeps tx c s s' Htx Hname Hlive Hc Hs Hb)
             st st' Hinv Hrun).
Qed.

Lemma owned_loop_keeps (response : list Transaction)
  (st : option TxInput * list TxInput) :
  (forall tx, In tx response ->
     In tx (all_transactions bc) /\ names_owner owner tx = true) ->
  for_each (owned_transaction verify has_owner bc owner) response (None, [])
  = OK st ->
  owned_inv st.
Proof.
  intros Hresp Hrun.
  apply (for_each_invariant owned_inv _ response
           (fun s tx s' Hin Hs Hb =>
              owned_transaction_keeps tx s s' (proj1 (Hresp tx Hin))
                                      (proj2 (Hresp tx Hin)) Hs Hb)
           (None, []) st); [|exact Hrun].
  split; cbn [fst snd]; [discriminate|contradiction].
Qed.

End OwnedOutputs.

Section HeldLive.

Variable verify : Block -> SignedVote -> bool.

Lemma in_values_status_map (x : status) (blocks : list Block) :
  in_values x (status_map verify blocks)
  = existsb (fun b => status_eqb x (block_election_status verify b)) blocks.
Proof.
  unfold in_values, status_map, dict_values.
  induction blocks as [|b r IH]; cbn [map existsb snd]; [reflexivity|].
  now rewrite IH.
Qed.

(** The test on the mapping of statuses finds a VALID or UNDECIDED value
    only when a block holding the id is VALID or UNDECIDED. *)
Lemma has_live_status_in_live_block (bc : list Block) (txid : string) :
  primary_key_ok bc ->
  has_live_status verify bc txid = true ->
  in_live_block verify bc txid = true.
Proof.
  intros Hpk. unfold has_live_status, in_live_block.
  rewrite (blocks_status_cases verify bc txid Hpk).
  destruct (containing bc txid) as [|b0 r0] eqn:E; [discriminate|].
  destruct (Nat.ltb 1 (n_valid_blocks verify bc txid)); [discriminate|].
  rewrite !in_values_status_map. intro H.
  apply orb_true_iff in H. apply existsb_exists.
  destruct H as [H|H]; apply existsb_exists in H;
    destruct H as [b [Hb Hst]]; exists b; (split; [exact Hb|]);
    apply (proj1 (status_eqb_eq _ _)) in Hst; now rewrite <- Hst.
Qed.

Lemma in_live_block_has_live_status (bc : list Block) (txid : string) :
  primary_key_ok bc -> n_valid_blocks verify bc txid <= 1 ->
  in_live_block verify bc txid = true ->
  has_live_status verify bc txid = true.
Proof.
  intros Hpk Hv. unfold has_live_status, in_live_block.
  rewrite (blocks_status_cases verify bc txid Hpk).
  destruct (containing bc txid) as [|b0 r0] eqn:E; [discriminate|].
  apply Nat.ltb_ge in Hv. rewrite Hv.
  rewrite !in_values_status_map. intro H.
  apply existsb_exists in H. destruct H as [b [Hb Hst]].
  apply orb_true_iff.
  destruct (block_election_status verify b) eqn:Es;
    [discriminate Hst|left|right];
    apply existsb_exists; exists b; (split; [exact Hb|]); now rewrite Es.
Qed.

Lemma live_status_true (bc : list Block) (txid : string) :
  live_status verify bc txid <-> has_live_status verify bc txid = true.
Proof.
  unfold live_status, has_live_status. split.
  - intros [validity [-> H]]. apply orb_true_iff. exact H.
  - destruct (get_blocks_status_containing_tx verify bc txid)
      as [[validity|]|e]; try discriminate.
    intro H. exists validity. split; [reflexivity|].
    now apply orb_true_iff.
Qed.

(** On a ledger where an id names one transaction, the test by id is
    the test on the blocks that hold the transaction itself. *)
Lemma has_live_status_held (bc : list Block) (tx : Transaction) :
  primary_key_ok bc -> ids_determine bc -> In tx (all_transactions bc) ->
  has_live_status verify bc (tx_id tx) = true -> held_live verify bc tx.
Proof.
  intros Hpk Hids Htx H.
  apply (in_live_block_held verify bc tx Hids Htx).
  now apply has_live_status_in_live_block.
Qed.

Lemma held_has_live_status (bc : list Block) (tx : Transaction) :
  primary_key_ok bc -> chain_ok verify bc -> ids_determine bc ->
  held_live verify bc tx ->
  has_live_status verify bc (tx_id tx) = true.
Proof.
  intros Hpk Hok Hids Hh.
  apply in_live_block_has_live_status; [exact Hpk|apply Hok|].
  apply (in_live_block_held verify bc tx Hids); [|exact Hh].
  destruct Hh as [b [Hb [Ht _]]]. apply in_flat_map. now exists b.
Qed.

End HeldLive.

(** X7: on a ledger with a sound primary key in which an id names one
    transaction, every pair [get_owned_ids] returns names an output that
    passes the ownership test for the owner, of a transaction that a
    VALID or UNDECIDED block holds, and [get_spent] returns [None] for
    it: the list has no output of somebody else, no output of a
    transaction that only INVALID blocks hold, and no spent one. *)
Theorem get_owned_ids_sound
  (verify : Block -> SignedVote -> bool)
  (has_owner : Details -> string -> bool) (bc : list Block)
  (owner : string) (owned : list TxInput) :
  primary_key_ok bc -> ids_determine bc ->
  get_owned_ids verify has_owner bc owner = OK owned ->
  forall i, In i owned ->
    owned_live_output verify has_owner bc owner i /\
    get_spent verify bc i = OK None.
Proof.
  unfold get_owned_ids. intros Hpk Hids Hrun.
  destruct (for_each _ (filter (names_owner owner) (all_transactions bc)) _)
    as [st|e] eqn:E; cbn [bind] in Hrun; [|discriminate].
  injection Hrun as <-. intros i Hi.
  assert (Hinv : owned_inv verify has_owner bc owner st).
  { refine (owned_loop_keeps verify has_owner bc owner _ st _ E).
    intros tx Hin. now apply filter_In in Hin. }
  destruct (proj2 Hinv i Hi) as [[tx [c [Htx [_ [Hc [Hown [Hi' Hlive]]]]]]] Hs].
  split; [|exact Hs].
  exists tx, c. split; [|now repeat split].
  apply has_live_status_held; try assumption.
  now apply live_status_true.
Qed.

Lemma get_owned_ids_sound_witness :
  owned_live_output Fixtures.sig_ok Fixtures.no_owner
                    Fixtures.transfer_chain "B" (mkTxInput "T2" 0) /\
  get_spent Fixtures.sig_ok Fixtures.transfer_chain (mkTxInput "T2" 0)
  = OK None.
Proof.
  apply (get_owned_ids_sound Fixtures.sig_ok Fixtures.no_owner
           Fixtures.transfer_chain "B" [mkTxInput "T2" 0]).
  - exact transfer_chain_keys.
  - exact transfer_chain_ids.
  - reflexivity.
  - left. reflexivity.
Defined.

(** X9: [get_tx_input] returns [None] for no transaction; it finds
    outputs only among the conditions with exactly one owner, the output
    it returns is one [get_spent] has no spender for, and for a
    transaction all of whose conditions have several owners it raises
    [UnboundLocalError], whoever the owner is. *)
Theorem get_tx_input_single_owner_only
  (verify : Block -> SignedVote -> bool)
  (has_owner : Details -> string -> bool) (bc : list Block)
  (tx : Transaction) (owner : string) :
  get_tx_input verify has_owner bc None owner = OK None /\
  ((forall c, In c (conditions (transaction tx)) ->
      length (new_owners c) <> 1) ->
   get_tx_input verify has_owner bc (Some tx) owner
   = Raise UnboundLocalError) /\
  (forall i, get_tx_input verify has_owner bc (Some tx) owner = OK (Some i) ->
     get_spent verify bc i = OK None /\
     exists c, In c (conditions (transaction tx)) /\
               length (new_owners c) = 1 /\
               i = mkTxInput (tx_id tx) (c_cid c)).
Proof.
  split; [reflexivity|]. unfold get_tx_input. split.
  - intro Hmulti.
    assert (E : forall ti,
              for_each (tx_input_condition has_owner owner tx)
                       (conditions (transaction tx)) ti = OK ti).
    { induction (conditions (transaction tx)) as [|c r IH]; intro ti;
        [reflexivity|].
      cbn [for_each]. unfold tx_input_condition at 1.
      destruct (Nat.eqb_spec (length (new_owners c)) 1) as [E|_].
      - exfalso. now apply (Hmulti c (or_introl eq_refl)).
      - cbn [bind]. apply IH. intros x Hx. apply Hmulti. now right. }
    now rewrite E.
  - intros i Hrun.
    destruct (for_each (tx_input_condition has_owner owner tx)
                       (conditions (transaction tx)) None)
      as [[j|]|e] eqn:E; cbn [bind] in Hrun; try discriminate.
    destruct (get_spent verify bc j) as [[t|]|e] eqn:Es; cbn [bind] in Hrun;
      try discriminate.
    injection Hrun as <-. split; [exact Es|].
    refine (for_each_invariant
              (fun ti => forall k, ti = Some k ->
                 exists c, In c (conditions (transaction tx)) /\
                           length (new_owners c) = 1 /\
                           k = mkTxInput (tx_id tx) (c_cid c))
              _ (conditions (transaction tx)) _ None (Some j) _ E j eq_refl);
      [|discriminate].
    intros ti c ti' Hc Hti Hbody k Hk. subst ti'.
    unfold tx_input_condition in Hbody.
    destruct (Nat.eqb_spec (length (new_owners c)) 1) as [E1|_].
    + destruct (public_key (details c)) as [pk|]; [|discriminate].
      destruct (String.eqb pk owner);
        [|destruct (has_owner (details c) owner)].
      * injection Hbody as <-. now exists c.
      * injection Hbody as <-. now exists c.
      * injection Hbody as Hbody. now apply Hti.
    + injection Hbody as Hbody. now apply Hti.
Qed.

Lemma get_tx_input_single_owner_only_witness :
  get_tx_input Fixtures.sig_ok Fixtures.no_owner Fixtures.transfer_chain
    (Some (Fixtures.tx "T7" "CREATE" [None]
             [mkCondition 0 ["A"; "B"] (mkDetails None [])]))
    "A"
  = Raise UnboundLocalError.
Proof.
  apply (get_tx_input_single_owner_only Fixtures.sig_ok Fixtures.no_owner
           Fixtures.transfer_chain).
  intros c [<-|[]]. discriminate.
Defined.

(* ------------------------------------------------------------------ *)
(** ** Blocks and votes *)

Lemma table_get_none (bc : list Block) (k : string) :
  table_get bc k = None <-> ~ In k (map id bc).
Proof.
  unfold table_get. induction bc as [|b r IH]; cbn [find map In].
  - tauto.
  - destruct (String.eqb_spec (id b) k) as [E|Hne].
    + split; [discriminate|]. intro H. exfalso. apply H. now left.
    + rewrite IH. tauto.
Qed.

Lemma table_get_app_fresh (bc : list Block) (b : Block) (k : string) :
  table_get (bc ++ [b]) k =
  match table_get bc k with
  | Some d => Some d
  | None => if String.eqb (id b) k then Some b else None
  end.
Proof.
  unfold table_get. induction bc as [|c r IH]; cbn [app find].
  - reflexivity.
  - destruct (String.eqb (id c) k); [reflexivity|exact IH].
Qed.

(** X10: [create_block] raises [OperationError] for an empty list;
    otherwise the block holds the transactions given, in order, is signed
    by this node, lists the other nodes and then this node as voters, has
    no vote and no block number, and its id is the hash of the serialized
    body; such a block is UNDECIDED and carries no previous vote. *)
Theorem create_block_fresh
  (me me_private : string) (nodes_except_me : list string) (now : string)
  (serialize : BlockBody -> string) (hash : string -> string)
  (sign_data : string -> string -> string) (txs : list Transaction) :
  (txs = [] ->
   create_block me me_private nodes_except_me now serialize hash sign_data
                txs = Raise OperationError) /\
  (txs <> [] ->
   exists b,
     create_block me me_private nodes_except_me now serialize hash sign_data
                  txs = OK b /\
     transactions (block b) = txs /\
     voters (block b) = nodes_except_me ++ [me] /\
     blk_node_pubkey (block b) = me /\
     id b = hash (serialize (block b)) /\
     blk_signature b = sign_data me_private (serialize (block b)) /\
     votes b = [] /\ block_number b = None /\
     (forall verify, block_election_status verify b = BLOCK_UNDECIDED) /\
     (forall verify, has_previous_vote me verify b = OK false)).
Proof.
  unfold create_block. split.
  - intros ->. reflexivity.
  - intro Hne. destruct txs as [|t r]; [contradiction|].
    cbn [length Nat.eqb]. eexists. split; [reflexivity|].
    cbn [block transactions voters blk_node_pubkey id blk_signature votes
         block_number].
    repeat (split; [reflexivity|]). split; [|reflexivity].
    intro verify. apply no_quorum_undecided.
    cbn [votes block voters length]. rewrite length_app. cbn [length]. lia.
Qed.

Lemma create_block_fresh_witness :
  create_block "n1" "priv" [] "t0" Fixtures.toy_serialize_block
               Fixtures.toy_hash Fixtures.toy_signature []
  = Raise OperationError.
Proof.
  apply (create_block_fresh "n1" "priv" [] "t0" Fixtures.toy_serialize_block
           Fixtures.toy_hash Fixtures.toy_signature []).
  reflexivity.
Defined.

(** X11: [write_block] of a block whose id is not in [bigchain] appends
    the block: looking the id up returns the block, every other id is
    found as before, the backlog is untouched and a sound primary key stays
    sound.  When the id is already there the store does not change. *)
Theorem write_block_lookup (b : Block) (d : durability) (s : Store) :
  (table_get (bigchain s) (id b) = None ->
   exists s',
     write_block b d s = (OK tt, s') /\
     bigchain s' = bigchain s ++ [b] /\
     backlog s' = backlog s /\
     table_get (bigchain s') (id b) = Some b /\
     (forall k, k <> id b ->
        table_get (bigchain s') k = table_get (bigchain s) k) /\
     (primary_key_ok (bigchain s) -> primary_key_ok (bigchain s'))) /\
  (forall old, table_get (bigchain s) (id b) = Some old ->
     write_block b d s = (OK tt, s)).
Proof.
  unfold write_block, run_insert_bigchain. split.
  - intro Hnone. rewrite Hnone. cbn [snd]. eexists.
    split; [reflexivity|]. cbn [bigchain backlog].
    split; [reflexivity|]. split; [reflexivity|].
    split; [|split].
    + rewrite table_get_app_fresh, Hnone. now rewrite String.eqb_refl.
    + intros k Hk. rewrite table_get_app_fresh.
      destruct (table_get (bigchain s) k); [reflexivity|].
      destruct (String.eqb_spec (id b) k); [congruence|reflexivity].
    + unfold primary_key_ok. intro Hpk. rewrite map_app. cbn [map].
      apply NoDup_app; [exact Hpk|repeat constructor; intros []|].
      intros k Hk [<-|[]]. now apply table_get_none in Hnone.
  - intros old Hold. now rewrite Hold.
Qed.

Lemma write_block_lookup_witness :
  exists s',
    write_block Fixtures.fresh_block hard Fixtures.empty_store = (OK tt, s') /\
    bigchain s' = [Fixtures.fresh_block] /\
    backlog s' = [] /\
    table_get (bigchain s') "B1" = Some Fixtures.fresh_block /\
    (forall k, k <> "B1" -> table_get (bigchain s') k = None) /\
    (primary_key_ok [] -> primary_key_ok (bigchain s')).
Proof.
  apply (proj1 (write_block_lookup Fixtures.fresh_block hard
                  Fixtures.empty_store)).
  reflexivity.
Defined.

Lemma update_by_key_map {B : Type} (g : Block -> B) (f : Block -> Block)
  (bc : list Block) (key : string) :
  (forall x, g (f x) = g x) ->
  map g (update_by_key bc key f) = map g bc.
Proof.
  intro Hg. induction bc as [|b r IH]; cbn [update_by_key map];
    [reflexivity|].
  destruct (String.eqb (id b) key); cbn [map].
  - now rewrite Hg.
  - now rewrite IH.
Qed.

Lemma update_by_key_other (f : Block -> Block) (bc : list Block)
  (key k : string) :
  (forall x, id (f x) = id x) -> k <> key ->
  table_get (update_by_key bc key f) k = table_get bc k.
Proof.
  intros Hf Hk. unfold table_get.
  induction bc as [|b r IH]; cbn [update_by_key find]; [reflexivity|].
  destruct (String.eqb_spec (id b) key) as [E|_]; cbn [find].
  - rewrite Hf. destruct (String.eqb_spec (id b) k); [congruence|reflexivity].
  - destruct (String.eqb (id b) k); [reflexivity|exact IH].
Qed.

Lemma update_by_key_missing (f : Block -> Block) (bc : list Block)
  (key : string) :
  table_get bc key = None -> update_by_key bc key f = bc.
Proof.
  unfold table_get. induction bc as [|b r IH]; cbn [update_by_key find];
    [reflexivity|].
  destruct (String.eqb (id b) key); [discriminate|].
  intro H. now rewrite IH.
Qed.

Lemma all_transactions_bodies (bc bc' : list Block) :
  map block bc' = map block bc -> all_transactions bc' = all_transactions bc.
Proof.
  unfold all_transactions. intro H.
  rewrite !flat_map_concat_map.
  rewrite <- (map_map block transactions bc'), H.
  now rewrite (map_map block transactions bc).
Qed.

(** X12: whatever [write_vote] does, it leaves the backlog alone, keeps
    the ids and the bodies of all blocks, so the transactions of the
    ledger and a sound primary key, and touches no document other than
    the one the vote names; when no stored block has the id the vote
    names, [bigchain] does not change at all. *)
Theorem write_vote_keeps_ledger
  (me : string) (verify : Block -> SignedVote -> bool)
  (b : Block) (v : SignedVote) (number : Z) (s : Store) :
  let s' := snd (write_vote me verify b v number s) in
  backlog s' = backlog s /\
  map id (bigchain s') = map id (bigchain s) /\
  map block (bigchain s') = map block (bigchain s) /\
  all_transactions (bigchain s') = all_transactions (bigchain s) /\
  (primary_key_ok (bigchain s) -> primary_key_ok (bigchain s')) /\
  (forall k, k <> voting_for_block (vote_body v) ->
     table_get (bigchain s') k = table_get (bigchain s) k) /\
  (table_get (bigchain s) (voting_for_block (vote_body v)) = None ->
   bigchain s' = bigchain s).
Proof.
  cbv zeta. unfold write_vote.
  destruct (has_previous_vote me verify b) as [[|]|e]; cbn [snd];
    try (repeat split; auto; fail).
  unfold run_update_bigchain. cbn [backlog bigchain].
  set (f := patch_block v _).
  assert (Hid : forall x, id (f x) = id x) by reflexivity.
  assert (Hbody : forall x, block (f x) = block x) by reflexivity.
  pose proof (update_by_key_map id f (bigchain s)
                (voting_for_block (vote_body v)) Hid) as Hids.
  pose proof (update_by_key_map block f (bigchain s)
                (voting_for_block (vote_body v)) Hbody) as Hbodies.
  split; [reflexivity|]. split; [exact Hids|]. split; [exact Hbodies|].
  split; [now apply all_transactions_bodies|].
  split; [unfold primary_key_ok; now rewrite Hids|].
  split.
  - intros k Hk. now apply update_by_key_other.
  - apply update_by_key_missing.
Qed.

Lemma write_vote_keeps_ledger_witness :
  bigchain (snd (write_vote "n1" Fixtures.sig_ok Fixtures.fresh_block
                            (Fixtures.ballot "n1" "ok" "B9" true) 1
                            Fixtures.one_block_store))
  = bigchain Fixtures.one_block_store.
Proof.
  apply (write_vote_keeps_ledger "n1" Fixtures.sig_ok Fixtures.fresh_block
           (Fixtures.ballot "n1" "ok" "B9" true) 1 Fixtures.one_block_store).
  reflexivity.
Defined.

(** X13: [has_previous_vote] looks at the first vote cast under this
    node's key and at nothing after it: the result is [True] when that
    vote verifies and the call raises [AttributeError] when it does not,
    whatever votes follow. *)
Theorem has_previous_vote_first_decides
  (me : string) (verify : Block -> SignedVote -> bool) (b : Block)
  (pre post : list SignedVote) (v : SignedVote) :
  votes b = pre ++ v :: post ->
  (forall w, In w pre -> node_pubkey w <> me) ->
  node_pubkey v = me ->
  has_previous_vote me verify b =
  if verify b v then OK true else Raise AttributeError.
Proof.
  intros Hvotes Hpre Hv. rewrite has_previous_vote_scan, Hvotes.
  now apply scan_votes_first.
Qed.

Lemma has_previous_vote_first_decides_witness :
  has_previous_vote "n1" Fixtures.sig_ok Fixtures.five_voter_block = OK true.
Proof.
  apply (has_previous_vote_first_decides "n1" Fixtures.sig_ok
           Fixtures.five_voter_block []
           [Fixtures.ballot "n2" "ok" "B5" true;
            Fixtures.ballot "n3" "ok" "B5" false;
            Fixtures.ballot "n4" "ok" "B5" false;
            Fixtures.ballot "n5" "forged" "B5" true]
           (Fixtures.ballot "n1" "ok" "B5" true)).
  - reflexivity.
  - intros w [].
  - reflexivity.
Defined.

Lemma validate_block_loop_all (vt : Store -> Transaction -> res Transaction)
  (s : Store) (txs : list Transaction) :
  for_each (validate_block_transaction vt s) txs tt = OK tt ->
  forall tx, In tx txs -> exists t', vt s tx = OK t'.
Proof.
  induction txs as [|t r IH]; intros Hrun tx Hin; [contradiction|].
  cbn [for_each] in Hrun. unfold validate_block_transaction at 1 in Hrun.
  unfold is_valid_transaction, validate_transaction in Hrun.
  destruct (vt s t) as [t'|e] eqn:E.
  - cbn [bind] in Hrun. destruct Hin as [<-|Hin]; [now exists t'|].
    now apply IH.
  - destruct (is_valid_transaction_catches e); cbn [bind] in Hrun;
      discriminate.
Qed.

(** X14: [validate_block] returns the very block it was given.  A block
    that carries a verified vote of this node passes without the plugin or
    the transactions being looked at; any other block that passes has no
    vote of this node, was accepted by the plugin, and every one of its
    transactions validates. *)
Theorem validate_block_passes
  (me : string) (verify : Block -> SignedVote -> bool)
  (vt : Store -> Transaction -> res Transaction)
  (vb : Store -> Block -> res unit) (s : Store) (b : Block) :
  (has_previous_vote me verify b = OK true ->
   validate_block me verify vt vb s b = OK b) /\
  (forall b', validate_block me verify vt vb s b = OK b' ->
     b' = b /\
     (has_previous_vote me verify b = OK true \/
      (has_previous_vote me verify b = OK false /\
       vb s b = OK tt /\
       forall tx, In tx (transactions (block b)) ->
                  exists t', vt s tx = OK t'))).
Proof.
  unfold validate_block. split.
  - intro H. now rewrite H.
  - intros b' Hrun.
    destruct (has_previous_vote me verify b) as [[|]|e]; cbn [bind] in Hrun;
      try discriminate.
    + injection Hrun as <-. auto.
    + destruct (vb s b) as [[]|e]; cbn [bind] in Hrun; [|discriminate].
      destruct (for_each (validate_block_transaction vt s)
                         (transactions (block b)) tt) as [[]|e] eqn:E;
        cbn [bind] in Hrun; [|discriminate].
      injection Hrun as <-. split; [reflexivity|]. right.
      split; [reflexivity|]. split; [reflexivity|].
      now apply validate_block_loop_all.
Qed.

Lemma validate_block_passes_witness :
  validate_block "n1" Fixtures.sig_ok Fixtures.reject_transaction
                 (fun _ _ => Raise OperationError) Fixtures.empty_store
                 Fixtures.five_voter_block
  = OK Fixtures.five_voter_block.
Proof.
  apply (validate_block_passes "n1" Fixtures.sig_ok
           Fixtures.reject_transaction (fun _ _ => Raise OperationError)
           Fixtures.empty_store Fixtures.five_voter_block).
  reflexivity.
Defined.

(** The lookup of the only transaction of the only block of a ledger,
    when that block is UNDECIDED. *)
Lemma get_transaction_single_undecided
  (verify : Block -> SignedVote -> bool) (g : Block) (t : Transaction) :
  transactions (block g) = [t] ->
  block_election_status verify g = BLOCK_UNDECIDED ->
  get_transaction verify [g] (tx_id t) = OK (Some t).
Proof.
  intros Ht Hst.
  unfold get_transaction, get_blocks_status_containing_tx,
    search_block_election_on_index, get_all_transaction_id, block_has_tx,
    validity_of, count_values, dict_values, table_get.
  cbn [filter]. rewrite Ht. cbn [existsb]. rewrite String.eqb_refl.
  cbn [orb fold_left dict_set map snd filter]. rewrite Hst.
  cbn [status_eqb filter length Nat.ltb Nat.leb bind negb snd pick_target
       find id].
  rewrite String.eqb_refl, Ht. cbn [filter]. now rewrite String.eqb_refl.
Qed.

(** X15: after [create_genesis_block] has succeeded, a second call raises
    [GenesisBlockAlreadyExistsError] and changes nothing; the genesis
    block is UNDECIDED, carries no block vote, and its transaction is
    found by [get_transaction]. *)
Theorem genesis_once
  (me me_private : string) (nodes_except_me : list string)
  (create : owners -> owners -> option TxInput -> string -> payload
            -> Transaction)
  (sign : Transaction -> string -> Transaction)
  (now : string) (serialize : BlockBody -> string)
  (hash : string -> string) (sign_data : string -> string -> string)
  (s s' : Store) (g : Block) :
  create_genesis_block me me_private nodes_except_me create sign now
                       serialize hash sign_data s = (OK g, s') ->
  bigchain s = [] /\
  create_genesis_block me me_private nodes_except_me create sign now
                       serialize hash sign_data s'
  = (Raise GenesisBlockAlreadyExistsError, s') /\
  votes g = [] /\
  (forall verify,
     block_election_status verify g = BLOCK_UNDECIDED /\
     exists t, transactions (block g) = [t] /\
               get_transaction verify (bigchain s') (tx_id t) = OK (Some t)).
Proof.
  unfold create_genesis_block, write_block, run_insert_bigchain,
    create_block, create_transaction, sign_transaction.
  destruct (bigchain s) as [|b0 r] eqn:Eb; cbn [length Nat.eqb negb];
    [|discriminate].
  cbn [table_get find snd]. intros [= <- <-]. cbn [bigchain app].
  split; [reflexivity|]. split; [reflexivity|]. split; [reflexivity|].
  intro verify.
  match goal with |- block_election_status verify ?g = _ /\ _ =>
    assert (Hu : block_election_status verify g = BLOCK_UNDECIDED)
  end.
  { apply no_quorum_undecided. cbn [votes block voters length].
    rewrite length_app. cbn [length]. lia. }
  split; [exact Hu|]. eexists. split; [reflexivity|].
  now apply get_transaction_single_undecided.
Qed.

Lemma genesis_once_witness :
  Fixtures.genesis (snd (Fixtures.genesis Fixtures.empty_store))
  = (Raise GenesisBlockAlreadyExistsError,
     snd (Fixtures.genesis Fixtures.empty_store)).
Proof.
  refine (proj1 (proj2 (genesis_once "n1" "priv" [] Fixtures.toy_create
                          Fixtures.toy_sign "t0" Fixtures.toy_serialize_block
                          Fixtures.toy_hash Fixtures.toy_signature
                          Fixtures.empty_store
                          (snd (Fixtures.genesis Fixtures.empty_store))
                          _ eq_refl))).
Defined.

(** X16: [get_unvoted_blocks] returns only stored blocks without a vote
    of this node, and every such block whose block number is not 0 is
    among them, in whatever order the store sorts. *)
Theorem get_unvoted_blocks_members
  (me : string) (order : list Block -> list Block) (bc : list Block) :
  (forall l x, In x (order l) <-> In x l) ->
  (forall b, In b (get_unvoted_blocks me order bc) ->
     In b bc /\ voted_by_me me b = false) /\
  (forall b, In b bc -> voted_by_me me b = false ->
     is_number_zero b = false ->
     In b (get_unvoted_blocks me order bc)).
Proof.
  intro Horder. unfold get_unvoted_blocks.
  set (unvoted := order (filter (fun doc => negb (voted_by_me me doc)) bc)).
  assert (Hin : forall b, In b unvoted <->
                          In b bc /\ voted_by_me me b = false).
  { intro b. unfold unvoted. rewrite Horder, filter_In.
    now rewrite negb_true_iff. }
  split.
  - intros b Hb. apply Hin.
    destruct unvoted as [|first rest]; [contradiction|].
    destruct (is_number_zero first); [now right|exact Hb].
  - intros b Hb Hv Hz.
    assert (Hu : In b unvoted) by now apply Hin.
    destruct unvoted as [|first rest]; [contradiction|].
    destruct (is_number_zero first) eqn:E; [|exact Hu].
    destruct Hu as [->|Hu]; [congruence|exact Hu].
Qed.

Lemma get_unvoted_blocks_members_witness :
  In (Fixtures.blk "B2" [Fixtures.T2] []) Fixtures.two_undecided_spends /\
  voted_by_me "n1" (Fixtures.blk "B2" [Fixtures.T2] []) = false.
Proof.
  apply (proj1 (get_unvoted_blocks_members "n1" (fun l => l)
                  Fixtures.two_undecided_spends
                  (fun l x => conj (fun H => H) (fun H => H)))).
  left. reflexivity.
Defined.

(** X17: [get_last_voted_block] returns a stored block.  It is a block
    this node is a voter of and has voted on whenever there is one;
    otherwise it is a block with block number 0; and it raises
    [IndexError] exactly when there is neither. *)
Theorem get_last_voted_block_cases
  (me : string) (order : list Block -> list Block) (bc : list Block) :
  (forall l x, In x (order l) <-> In x l) ->
  let mine b := existsb (String.eqb me) (voters (block b))
                && voted_by_me me b in
  (forall b, get_last_voted_block me order bc = OK b ->
     In b bc /\
     (mine b = true \/
      (is_number_zero b = true /\ forall c, In c bc -> mine c = false))) /\
  ((exists c, In c bc /\ mine c = true) ->
   exists b, get_last_voted_block me order bc = OK b /\ mine b = true) /\
  (forall e, get_last_voted_block me order bc = Raise e ->
     e = IndexError /\
     forall c, In c bc -> mine c = false /\ is_number_zero c = false).
Proof.
  intros Horder mine. unfold get_last_voted_block.
  set (voted := filter (voted_by_me me)
                  (filter (fun doc => existsb (String.eqb me)
                                              (voters (block doc))) bc)).
  assert (Hin : forall b, In b (order voted) <-> In b bc /\ mine b = true).
  { intro b. unfold voted, mine. rewrite Horder, !filter_In, andb_true_iff.
    tauto. }
  assert (Hzero : forall b, In b (filter is_number_zero bc) <->
                            In b bc /\ is_number_zero b = true)
    by (intro b; apply filter_In).
  destruct (order voted) as [|b0 r0] eqn:Ev; cbn [firstn].
  - assert (Hnone : forall c, In c bc -> mine c = false).
    { intros c Hc. destruct (mine c) eqn:E; [|reflexivity].
      exfalso. now apply (proj2 (Hin c)). }
    destruct (filter is_number_zero bc) as [|g r] eqn:Eg.
    + split; [discriminate|]. split.
      * intros [c [Hc Hm]]. rewrite (Hnone c Hc) in Hm. discriminate.
      * intros e [= <-]. split; [reflexivity|]. intros c Hc.
        split; [now apply Hnone|].
        destruct (is_number_zero c) eqn:E; [|reflexivity].
        exfalso. now apply (proj2 (Hzero c)).
    + split; [|split].
      * intros b [= <-]. assert (Hg : In g (g :: r)) by now left.
        apply Hzero in Hg. split; [tauto|]. right. split; [tauto|exact Hnone].
      * intros [c [Hc Hm]]. rewrite (Hnone c Hc) in Hm. discriminate.
      * discriminate.
  - assert (H0 : In b0 bc /\ mine b0 = true) by (apply Hin; now left).
    split; [|split].
    + intros b [= <-]. tauto.
    + intros _. exists b0. tauto.
    + discriminate.
Qed.

Lemma get_last_voted_block_cases_witness :
  exists b,
    get_last_voted_block "n1" (fun l => l) Fixtures.transfer_chain = OK b /\
    existsb (String.eqb "n1") (voters (block b)) && voted_by_me "n1" b = true.
Proof.
  apply (get_last_voted_block_cases "n1" (fun l => l)
           Fixtures.transfer_chain).
  - intros l x. tauto.
  - exists (Fixtures.blk "B1" [Fixtures.T1] (Fixtures.yes "B1")).
    split; [now left|reflexivity].
Defined.

(** X18: in a federation of one node, the node's own vote decides a block
    it has created and written: after [write_vote] with the vote built by
    [vote], the stored block holds exactly that vote and the block number
    given; it is VALID when the vote says valid and its signature
    verifies, and INVALID otherwise. *)
Theorem one_node_vote_decides
  (me me_private : string) (now : string)
  (serialize : BlockBody -> string) (serialize_vote : Vote -> string)
  (hash : string -> string) (sign_data : string -> string -> string)
  (util_verify verify : Block -> SignedVote -> bool)
  (txs : list Transaction) (b : Block) (s : Store)
  (previous : string) (decision : bool) (reason : option string)
  (number : Z) :
  create_block me me_private [] now serialize hash sign_data txs = OK b ->
  table_get (bigchain s) (id b) = None ->
  let v := vote me me_private now serialize_vote sign_data b previous
                decision reason in
  let s1 := snd (write_block b soft s) in
  let s2 := snd (write_vote me util_verify b v number s1) in
  exists b2,
    table_get (bigchain s2) (id b) = Some b2 /\
    votes b2 = [v] /\ block_number b2 = Some number /\
    block (b2) = block b /\
    block_election_status verify b2 =
    if decision && verify b2 v then BLOCK_VALID else BLOCK_INVALID.
Proof.
  intros Hcreate Hfresh. cbv zeta.
  unfold create_block in Hcreate.
  destruct (Nat.eqb (length txs) 0); [discriminate|].
  injection Hcreate as <-.
  unfold write_block, run_insert_bigchain. cbn [id] in *.
  rewrite Hfresh. cbn [snd].
  unfold write_vote, has_previous_vote. cbn [votes block_number snd].
  unfold run_update_bigchain, vote. cbn [bigchain vote_body voting_for_block id].
  eexists. split.
  - apply table_get_update; [reflexivity|].
    rewrite table_get_app_fresh. cbn [bigchain id]. rewrite Hfresh.
    now rewrite String.eqb_refl.
  - unfold patch_block. cbn [votes block_number block app id blk_signature].
    split; [reflexivity|]. split; [reflexivity|]. split; [reflexivity|].
    unfold block_election_status, n_invalid_votes, n_valid_votes, vote_list.
    cbn [votes block voters map map_mul py_sum fold_right length app
         vote_body is_block_valid].
    destruct decision; cbn [andb];
      match goal with |- context [verify ?x ?y] => destruct (verify x y) end;
      reflexivity.
Qed.

Lemma one_node_vote_decides_witness :
  exists b2,
    table_get
      (bigchain
         (snd (write_vote "n1" Fixtures.sig_ok Fixtures.created_block
                 Fixtures.cast_vote 1
                 (snd (write_block Fixtures.created_block soft
                                   Fixtures.empty_store)))))
      (id Fixtures.created_block) = Some b2 /\
    votes b2 = [Fixtures.cast_vote] /\
    block_number b2 = Some 1%Z /\
    block b2 = block Fixtures.created_block /\
    block_election_status Fixtures.sig_ok b2 =
    if true && Fixtures.sig_ok b2 Fixtures.cast_vote
    then BLOCK_VALID else BLOCK_INVALID.
Proof.
  apply (one_node_vote_decides "n1" "priv" "t0" Fixtures.toy_serialize_block
           Fixtures.toy_serialize_vote Fixtures.toy_hash
           Fixtures.toy_signature Fixtures.sig_ok Fixtures.sig_ok
           [Fixtures.T1] Fixtures.created_block Fixtures.empty_store
           "prev" true None 1);
    reflexivity.
Defined.

(* ------------------------------------------------------------------ *)
(** ** The backlog *)

Lemma filter_nil_existsb {A : Type} (p : A -> bool) (l : list A) :
  filter p l = [] <-> existsb p l = false.
Proof.
  induction l as [|a r IH]; cbn [filter existsb]; [tauto|].
  destruct (p a); cbn [orb]; [split; discriminate|exact IH].
Qed.

Lemma backlog_lookup_none (s : Store) (k : string) :
  get_transaction_from_backlog s k = None <->
  existsb (fun t => String.eqb (tx_id t) k) (backlog s) = false.
Proof.
  unfold get_transaction_from_backlog. rewrite <- filter_nil_existsb.
  destruct (filter _ (backlog s)); split; congruence.
Qed.

Lemma write_transaction_fresh
  (me : string) (nodes_except_me : list string)
  (choice : list string -> string) (tx : Transaction) (d : durability)
  (s : Store) :
  get_transaction_from_backlog s (tx_id tx) = None ->
  exists s',
    write_transaction me nodes_except_me choice tx d s
    = (OK (mkResponse 1 0), s') /\
    backlog s' = backlog s
                 ++ [assigned tx match nodes_except_me with
                                 | [] => me
                                 | _ :: _ => choice nodes_except_me
                                 end] /\
    bigchain s' = bigchain s /\
    get_transaction_from_backlog s' (tx_id tx)
    = Some (assigned tx match nodes_except_me with
                        | [] => me
                        | _ :: _ => choice nodes_except_me
                        end).
Proof.
  unfold write_transaction, run_insert_backlog. cbn [tx_id].
  intro Hnone. pose proof Hnone as Hex.
  apply backlog_lookup_none in Hex. rewrite Hex.
  eexists. split; [reflexivity|]. cbn [backlog bigchain].
  split; [reflexivity|]. split; [reflexivity|].
  unfold get_transaction_from_backlog in *. cbn [backlog].
  rewrite filter_app. cbn [filter assigned tx_id].
  rewrite String.eqb_refl.
  destruct (filter _ (backlog s)); [reflexivity|discriminate].
Qed.

(** X19: [write_transaction] assigns the transaction to this node when it
    has no peers and to the peer [random.choice] picks otherwise, so to a
    member of the federation.  A transaction whose id is not in the
    backlog is appended with that assignee and found again by
    [get_transaction_from_backlog]; one whose id is already there leaves
    the store as it was; [bigchain] is never touched. *)
Theorem write_transaction_backlog
  (me : string) (nodes_except_me : list string)
  (choice : list string -> string) (tx : Transaction) (d : durability)
  (s : Store) :
  let a := match nodes_except_me with
           | [] => me
           | _ :: _ => choice nodes_except_me
           end in
  (get_transaction_from_backlog s (tx_id tx) = None ->
   exists s',
     write_transaction me nodes_except_me choice tx d s
     = (OK (mkResponse 1 0), s') /\
     backlog s' = backlog s ++ [assigned tx a] /\
     bigchain s' = bigchain s /\
     get_transaction_from_backlog s' (tx_id tx) = Some (assigned tx a)) /\
  (forall old, get_transaction_from_backlog s (tx_id tx) = Some old ->
     write_transaction me nodes_except_me choice tx d s
     = (OK (mkResponse 0 1), s)) /\
  ((forall l, l <> [] -> In (choice l) l) -> In a (nodes_except_me ++ [me])).
Proof.
  cbv zeta. split; [apply write_transaction_fresh|].
  unfold write_transaction, run_insert_backlog. cbn [tx_id]. split.
  - intros old Hold.
    destruct (existsb _ (backlog s)) eqn:Hex; [reflexivity|].
    apply backlog_lookup_none in Hex. congruence.
  - intro Hchoice. apply in_or_app.
    destruct nodes_except_me as [|n r]; [right; now left|].
    left. apply Hchoice. discriminate.
Qed.

Lemma write_transaction_backlog_witness :
  exists s',
    write_transaction "n1" ["n2"; "n3"] Fixtures.first_key Fixtures.T1 soft
                      Fixtures.empty_store
    = (OK (mkResponse 1 0), s') /\
    backlog s' = [assigned Fixtures.T1 "n2"] /\
    bigchain s' = [] /\
    get_transaction_from_backlog s' "T1" = Some (assigned Fixtures.T1 "n2").
Proof.
  apply (proj1 (write_transaction_backlog "n1" ["n2"; "n3"]
                  Fixtures.first_key Fixtures.T1 soft Fixtures.empty_store)).
  reflexivity.
Defined.

Lemma dict_get_set_same {V : Type} (d : dict V) (k : string) (v : V) :
  dict_get (dict_set d k v) k = Some v.
Proof.
  induction d as [|[k' v'] r IH]; cbn [dict_set dict_get].
  - now rewrite String.eqb_refl.
  - destruct (String.eqb k' k) eqn:E; cbn [dict_get]; now rewrite E.
Qed.

Lemma dict_get_set_other {V : Type} (d : dict V) (k k' : string) (v : V) :
  k <> k' -> dict_get (dict_set d k v) k' = dict_get d k'.
Proof.
  intro Hne. induction d as [|[k0 v0] r IH]; cbn [dict_set dict_get].
  - destruct (String.eqb_spec k k'); [contradiction|reflexivity].
  - destruct (String.eqb_spec k0 k) as [->|Hk]; cbn [dict_get].
    + destruct (String.eqb_spec k k'); [contradiction|reflexivity].
    + destruct (String.eqb k0 k'); [reflexivity|exact IH].
Qed.

(* ------------------------------------------------------------------ *)
(** ** Charging and history *)

Section Charge.

Variables me me_private : string.
Variable nodes_except_me : list string.
Variable verify : Block -> SignedVote -> bool.
Variable has_owner : Details -> string -> bool.
Variable create :
  owners -> owners -> option TxInput -> string -> payload -> Transaction.
Variable sign : Transaction -> string -> Transaction.
Variable plugin_validate_transaction : Store -> Transaction -> res Transaction.
Variable choice : list string -> string.
Variable payload_type : Transaction -> string.
Variable last_txid : list CurrencyId -> option CurrencyId.
Variable current_account : last_tx -> res pyval.
Variable payload_format : payload -> bool.

Abbreviation charge :=
  (charge_currency me verify has_owner me_private nodes_except_me create
     sign plugin_validate_transaction choice payload_type last_txid
     current_account payload_format).
Abbreviation charged_payload :=
  (charge_payload verify has_owner payload_type last_txid current_account).
Abbreviation history :=
  (get_last_currency verify has_owner payload_type last_txid).

Lemma charge_payload_trader (s : Store) (pub_key : string) (p p' : payload) :
  charged_payload s pub_key p = OK p' ->
  dict_get p' "trader" = Some (PStr "node") /\
  exists a previous,
    dict_get p' "account" = Some a /\
    dict_get p' "previous" = Some (PStr previous) /\
    (history s pub_key = OK init -> a = PNum 0 /\ previous = "genesis").
Proof.
  unfold charge_payload. intro H.
  destruct (history s pub_key) as [l|e]; cbn [bind] in H; [|discriminate].
  assert (Hfields : forall d a previous,
            let d' := dict_set (dict_set (dict_set d "account" a) "previous"
                                         (PStr previous))
                               "trader" (PStr "node") in
            dict_get d' "trader" = Some (PStr "node") /\
            dict_get d' "account" = Some a /\
            dict_get d' "previous" = Some (PStr previous)).
  { intros d a previous. cbv zeta. split; [apply dict_get_set_same|].
    split.
    - rewrite dict_get_set_other by discriminate.
      rewrite dict_get_set_other by discriminate.
      apply dict_get_set_same.
    - rewrite dict_get_set_other by discriminate.
      apply dict_get_set_same. }
  destruct l as [|t|].
  - injection H as <-. destruct (Hfields p (PNum 0) "genesis") as [H1 [H2 H3]].
    split; [exact H1|]. exists (PNum 0), "genesis". auto.
  - destruct (current_account (found t)) as [a|e]; cbn [bind last_tx_id] in H;
      [|discriminate].
    injection H as <-. destruct (Hfields p a (tx_id t)) as [H1 [H2 H3]].
    split; [exact H1|]. exists a, (tx_id t).
    repeat split; auto; discriminate.
  - destruct (current_account none) as [a|e]; cbn [bind last_tx_id] in H;
      discriminate.
Qed.

(** X20: [charge_currency] raises [InvalidPayload] for a payload of the
    wrong format, and whenever it raises it has written nothing.  When it
    returns, the payload of the charge names ["node"] as trader, carries
    an account and a previous id (0 and ["genesis"] for an owner without
    history), the signed CREATE transaction built from it passed
    validation, [bigchain] is unchanged and the backlog has gained at most
    that transaction with its assignee. *)
Theorem charge_currency_spec (pub_key : string) (p : payload) (s : Store) :
  (payload_format p = false -> charge pub_key p s = (Raise InvalidPayload, s)) /\
  (forall e s', charge pub_key p s = (Raise e, s') -> s' = s) /\
  (forall r s', charge pub_key p s = (OK r, s') ->
     bigchain s' = bigchain s /\
     exists p' a previous,
       charged_payload s pub_key p = OK p' /\
       dict_get p' "trader" = Some (PStr "node") /\
       dict_get p' "account" = Some a /\
       dict_get p' "previous" = Some (PStr previous) /\
       (history s pub_key = OK init -> a = PNum 0 /\ previous = "genesis") /\
       let tx := sign (create (OneKey me) (OneKey pub_key) None "CREATE" p')
                      me_private in
       is_valid_transaction plugin_validate_transaction s tx = OK (Some tx) /\
       (s' = s \/
        exists assignee, backlog s' = backlog s ++ [assigned tx assignee])).
Proof.
  unfold charge_currency, create_transaction, sign_transaction.
  split; [intro H; now rewrite H|].
  destruct (payload_format p).
  2:{ split; [now intros e s' [= _ <-]|discriminate]. }
  destruct (charged_payload s pub_key p) as [p'|e0] eqn:Ep.
  2:{ split; [now intros e s' [= _ <-]|discriminate]. }
  set (tx := sign (create (OneKey me) (OneKey pub_key) None "CREATE" p')
                  me_private).
  destruct (is_valid_transaction plugin_validate_transaction s tx)
    as [[t|]|e0] eqn:Ev.
  - assert (Et : t = tx).
    { unfold is_valid_transaction in Ev.
      destruct (validate_transaction plugin_validate_transaction s tx)
        as [t'|e']; [congruence|].
      destruct (is_valid_transaction_catches e'); discriminate. }
    subst t. unfold write_transaction, run_insert_backlog.
    destruct (existsb _ (backlog s)).
    + split; [discriminate|]. intros r s' [= _ <-]. split; [reflexivity|].
      destruct (charge_payload_trader s pub_key p p' Ep)
        as [Ht [a [previous [Ha [Hp Hi]]]]].
      exists p', a, previous. cbv zeta. fold tx.
      split; [reflexivity|]. split; [exact Ht|]. split; [exact Ha|].
      split; [exact Hp|]. split; [exact Hi|]. split; [exact Ev|now left].
    + split; [discriminate|]. intros r s' [= _ <-]. split; [reflexivity|].
      destruct (charge_payload_trader s pub_key p p' Ep)
        as [Ht [a [previous [Ha [Hp Hi]]]]].
      exists p', a, previous. cbv zeta. fold tx.
      split; [reflexivity|]. split; [exact Ht|]. split; [exact Ha|].
      split; [exact Hp|]. split; [exact Hi|]. split; [exact Ev|].
      right. eexists. reflexivity.
  - split; [now intros e s' [= _ <-]|discriminate].
  - split; [now intros e s' [= _ <-]|discriminate].
Qed.

(** X21: for an owner that no transaction of the backlog or of
    [bigchain] names, the currency lists are empty: when
    [tool.get_last_txid] answers ['init'] for the empty list,
    [get_last_currency] returns ['init'] and the balance is the account
    of ['init']. *)
Theorem no_history_init (s : Store) (pub_key : string) :
  last_txid [] = None ->
  filter (names_owner pub_key) (backlog s) = [] ->
  filter (names_owner pub_key) (all_transactions (bigchain s)) = [] ->
  history s pub_key = OK init /\
  get_current_balance verify has_owner payload_type last_txid
                      current_account s pub_key
  = current_account init.
Proof.
  intros Hlast Hb Hc.
  assert (E : history s pub_key = OK init).
  { unfold get_last_currency, get_backlog_currency_ids,
      get_bigchain_currency_ids.
    rewrite Hb, Hc. cbn [for_each bind snd app]. now rewrite Hlast. }
  split; [exact E|]. unfold get_current_balance. now rewrite E.
Qed.

End Charge.

Lemma charge_currency_spec_witness :
  charge_currency "n1" Fixtures.sig_ok Fixtures.no_owner "priv" []
    Fixtures.toy_create Fixtures.toy_sign Fixtures.reject_transaction
    Fixtures.first_key Fixtures.toy_payload_type Fixtures.toy_last_txid
    Fixtures.toy_current_account (fun _ => false) "A"
    [("amount", PNum 5)] Fixtures.funded_store
  = (Raise InvalidPayload, Fixtures.funded_store).
Proof.
  apply (charge_currency_spec "n1" "priv" [] Fixtures.sig_ok
           Fixtures.no_owner Fixtures.toy_create Fixtures.toy_sign
           Fixtures.reject_transaction Fixtures.first_key
           Fixtures.toy_payload_type Fixtures.toy_last_txid
           Fixtures.toy_current_account (fun _ => false) "A"
           [("amount", PNum 5)] Fixtures.funded_store).
  reflexivity.
Defined.

Lemma no_history_init_witness :
  get_last_currency Fixtures.sig_ok Fixtures.no_owner
    Fixtures.toy_payload_type Fixtures.toy_last_txid Fixtures.funded_store
    "B" = OK init /\
  get_current_balance Fixtures.sig_ok Fixtures.no_owner
    Fixtures.toy_payload_type Fixtures.toy_last_txid
    Fixtures.toy_current_account Fixtures.funded_store "B"
  = Fixtures.toy_current_account init.
Proof.
  apply (no_history_init Fixtures.sig_ok Fixtures.no_owner
           Fixtures.toy_payload_type Fixtures.toy_last_txid
           Fixtures.toy_current_account Fixtures.funded_store "B");
    reflexivity.
Defined.

(* ------------------------------------------------------------------ *)
(** ** A transfer that goes through *)

Section TransferWrites.

Variables me me_private : string.
Variable nodes_except_me : list string.
Variable verify : Block -> SignedVote -> bool.
Variable has_owner : Details -> string -> bool.
Variable create :
  owners -> owners -> option TxInput -> string -> payload -> Transaction.
Variable sign : Transaction -> string -> Transaction.
Variable plugin_validate_transaction : Store -> Transaction -> res Transaction.
Variables choice choice' : list string -> string.
Variable payload_type : Transaction -> string.
Variable last_txid : list CurrencyId -> option CurrencyId.
Variable current_account : last_tx -> res pyval.
Variable pair_payload : payload -> payload * payload.
Variable payload_format : payload -> bool.
Variable float_str : string -> res pyfloat.

Abbreviation transfer' :=
  (transfer_currency me verify has_owner me_private nodes_except_me create
     sign plugin_validate_transaction choice payload_type last_txid
     current_account pair_payload payload_format float_str choice').
Abbreviation legs' :=
  (transfer_legs me verify has_owner me_private create sign
     plugin_validate_transaction payload_type last_txid current_account
     pair_payload payload_format float_str).
Abbreviation valid' := (is_valid_transaction plugin_validate_transaction).
Abbreviation last_currency' :=
  (get_last_currency verify has_owner payload_type last_txid).

Lemma both_valid_true (s : Store) (a b : Transaction) :
  both_valid plugin_validate_transaction s a b = OK true ->
  valid' s a = OK (Some a) /\ valid' s b = OK (Some b).
Proof.
  unfold both_valid, is_valid_transaction. intro H.
  destruct (validate_transaction plugin_validate_transaction s a) as [a'|ea].
  - cbn [bind] in H.
    destruct (validate_transaction plugin_validate_transaction s b)
      as [b'|eb]; [auto|].
    destruct (is_valid_transaction_catches eb); discriminate.
  - destruct (is_valid_transaction_catches ea); discriminate.
Qed.

(** The payload of the sender leg: the receiver as trader, the id of the
    sender's last transaction as previous, the balance as account. *)
Lemma sender_leg_trader (sender_pub receiver_pub : string)
  (sender_payload : payload) (balance : pyval) (last : last_tx)
  (stx : Transaction) :
  sender_leg me me_private create sign sender_pub receiver_pub
             sender_payload balance last = OK stx ->
  exists p t,
    stx = sign (create (OneKey me) (OneKey sender_pub) None "CREATE" p)
               me_private /\
    last = found t /\
    dict_get p "trader" = Some (PStr receiver_pub) /\
    dict_get p "previous" = Some (PStr (tx_id t)) /\
    dict_get p "account" = Some balance.
Proof.
  unfold sender_leg, create_transaction, sign_transaction. intro H.
  destruct last as [|t|]; cbn [last_tx_id bind] in H; try discriminate.
  injection H as <-. eexists. exists t.
  split; [reflexivity|]. split; [reflexivity|].
  split; [apply dict_get_set_same|]. split.
  - rewrite dict_get_set_other by discriminate. apply dict_get_set_same.
  - rewrite dict_get_set_other by discriminate.
    rewrite dict_get_set_other by discriminate. apply dict_get_set_same.
Qed.

(** The payload of the receiver leg: the sender as trader, the id of the
    receiver's last transaction, or ['genesis'] without one, as previous,
    the receiver's balance as account. *)
Lemma receiver_leg_trader (s : Store) (sender_pub receiver_pub : string)
  (receiver_payload : payload) (rtx : Transaction) :
  receiver_leg me verify has_owner me_private create sign payload_type
               last_txid current_account s sender_pub receiver_pub
               receiver_payload = OK rtx ->
  exists p last previous balance,
    rtx = sign (create (OneKey me) (OneKey receiver_pub) None "CREATE" p)
               me_private /\
    last_currency' s receiver_pub = OK last /\
    current_account last = OK balance /\
    (last = init /\ previous = "genesis" \/
     exists t, last = found t /\ previous = tx_id t) /\
    dict_get p "trader" = Some (PStr sender_pub) /\
    dict_get p "previous" = Some (PStr previous) /\
    dict_get p "account" = Some balance.
Proof.
  unfold receiver_leg, create_transaction, sign_transaction. intro H.
  destruct (last_currency' s receiver_pub) as [l|e];
    cbn [bind] in H; [|discriminate].
  destruct (current_account l) as [a|e] eqn:Ea; cbn [bind] in H;
    [|discriminate].
  assert (Hprev : exists previous,
             (l = init /\ previous = "genesis" \/
              exists t, l = found t /\ previous = tx_id t) /\
             match l with init => OK "genesis" | _ => last_tx_id l end
             = OK previous).
  { destruct l as [|t|].
    - exists "genesis". split; [left; now split|reflexivity].
    - exists (tx_id t). split; [right; now exists t|reflexivity].
    - discriminate. }
  destruct Hprev as [previous [Hcase Hprev]]. rewrite Hprev in H.
  cbn [bind] in H. injection H as <-.
  eexists. exists l, previous, a.
  split; [reflexivity|]. split; [reflexivity|]. split; [exact Ea|].
  split; [exact Hcase|].
  split; [apply dict_get_set_same|]. split.
  - rewrite dict_get_set_other by discriminate. apply dict_get_set_same.
  - rewrite dict_get_set_other by discriminate.
    rewrite dict_get_set_other by discriminate. apply dict_get_set_same.
Qed.

(** X22: when [transfer_currency] returns, both legs passed validation.
    The sender leg is a CREATE request from this node to the sender; its
    payload names the receiver as trader, the id of the transaction
    [get_last_currency] finds for the sender as previous, and the balance
    [tool.get_current_account] reads from that transaction as account.
    The receiver leg is a CREATE request from this node to the receiver;
    its payload names the sender as trader, the receiver's balance as
    account, and as previous the id of the receiver's last transaction,
    or ['genesis'] when the receiver has none.  [bigchain] is unchanged,
    and when neither id is in the backlog and the two ids differ, the
    backlog gains the sender leg, with the assignee of the first draw, and
    then the receiver leg, with the assignee of the second draw. *)
Theorem transfer_currency_writes
  (sender_pub sender_priv receiver_pub : string) (payload_dic : payload)
  (s s' : Store) (r : response) :
  transfer' sender_pub sender_priv receiver_pub payload_dic s = (OK r, s') ->
  exists stx rtx ps pr last balance rlast rprevious rbalance,
    legs' s sender_pub receiver_pub payload_dic = OK (stx, rtx) /\
    valid' s stx = OK (Some stx) /\ valid' s rtx = OK (Some rtx) /\
    stx = sign (create (OneKey me) (OneKey sender_pub) None "CREATE" ps)
               me_private /\
    rtx = sign (create (OneKey me) (OneKey receiver_pub) None "CREATE" pr)
               me_private /\
    last_currency' s sender_pub = OK (found last) /\
    current_account (found last) = OK balance /\
    dict_get ps "trader" = Some (PStr receiver_pub) /\
    dict_get ps "previous" = Some (PStr (tx_id last)) /\
    dict_get ps "account" = Some balance /\
    last_currency' s receiver_pub = OK rlast /\
    current_account rlast = OK rbalance /\
    (rlast = init /\ rprevious = "genesis" \/
     exists t, rlast = found t /\ rprevious = tx_id t) /\
    dict_get pr "trader" = Some (PStr sender_pub) /\
    dict_get pr "previous" = Some (PStr rprevious) /\
    dict_get pr "account" = Some rbalance /\
    bigchain s' = bigchain s /\
    (get_transaction_from_backlog s (tx_id stx) = None ->
     get_transaction_from_backlog s (tx_id rtx) = None ->
     tx_id stx <> tx_id rtx ->
     r = mkResponse 1 0 /\
     backlog s'
     = backlog s
       ++ [assigned stx (assignee_of me nodes_except_me choice);
           assigned rtx (assignee_of me nodes_except_me choice')]).
Proof.
  unfold transfer_currency. intro H.
  destruct (legs' s sender_pub receiver_pub payload_dic)
    as [[stx rtx]|e] eqn:EL; [|discriminate].
  pose proof EL as EL'. unfold transfer_legs in EL'.
  destruct (payload_format payload_dic); [|discriminate].
  destruct (dict_get payload_dic "amount") as [cost|]; [|discriminate].
  cbn [bind] in EL'.
  destruct (float_le_zero float_str cost) as [[|]|]; try discriminate.
  cbn [bind] in EL'.
  destruct (last_currency' s sender_pub) as [last|] eqn:El;
    [|discriminate].
  cbn [bind] in EL'.
  destruct (current_account last) as [balance|] eqn:Ea; [|discriminate].
  cbn [bind] in EL'.
  destruct (py_ge balance cost) as [[|]|]; try discriminate.
  cbn [bind] in EL'.
  destruct (pair_payload payload_dic) as [sp rp].
  destruct (sender_leg _ _ _ _ sender_pub receiver_pub sp balance last)
    as [stx0|] eqn:Es; [|discriminate].
  cbn [bind] in EL'.
  destruct (receiver_leg _ _ _ _ _ _ _ _ _ s sender_pub receiver_pub rp)
    as [rtx0|] eqn:Er; [|discriminate].
  cbn [bind] in EL'.
  destruct (both_valid plugin_validate_transaction s stx0 rtx0)
    as [[|]|] eqn:Ev; try discriminate.
  cbn [bind] in EL'. injection EL' as <- <-.
  destruct (both_valid_true s stx0 rtx0 Ev) as [Hvs Hvr].
  destruct (sender_leg_trader _ _ _ _ _ _ Es)
    as [ps [t [Hstx [Hlast [Hts [Hps Has]]]]]].
  destruct (receiver_leg_trader _ _ _ _ _ Er)
    as [pr [rlast [rprevious [rbalance
         [Hrtx [Hrl [Hra [Hrcase [Htr [Hpr Har]]]]]]]]]].
  subst last.
  exists stx0, rtx0, ps, pr, t, balance, rlast, rprevious, rbalance.
  split; [reflexivity|]. split; [exact Hvs|]. split; [exact Hvr|].
  split; [exact Hstx|]. split; [exact Hrtx|].
  split; [reflexivity|]. split; [exact Ea|].
  split; [exact Hts|]. split; [exact Hps|]. split; [exact Has|].
  split; [exact Hrl|]. split; [exact Hra|]. split; [exact Hrcase|].
  split; [exact Htr|]. split; [exact Hpr|]. split; [exact Har|].
  clear Hstx Hrtx.
  pose proof (write_transaction_fresh me nodes_except_me choice stx0 soft s)
    as Hfresh1.
  destruct (write_transaction me nodes_except_me choice stx0 soft s)
    as [r1 s1] eqn:E1.
  pose proof (write_transaction_fresh me nodes_except_me choice' rtx0 soft s1)
    as Hfresh2.
  destruct (write_transaction me nodes_except_me choice' rtx0 soft s1)
    as [r2 s2] eqn:E2.
  injection H as Hr <-.
  assert (Hb1 : bigchain s1 = bigchain s).
  { unfold write_transaction, run_insert_backlog in E1.
    destruct (existsb _ (backlog s)); injection E1 as _ <-; reflexivity. }
  assert (Hb2 : bigchain s2 = bigchain s1).
  { unfold write_transaction, run_insert_backlog in E2.
    destruct (existsb _ (backlog s1)); injection E2 as _ <-; reflexivity. }
  split; [congruence|].
  intros Hn1 Hn2 Hdiff.
  destruct (Hfresh1 Hn1) as [s1' [Ew1 [Hbl1 _]]].
  injection Ew1 as Hr1 <-.
  assert (Hn2' : get_transaction_from_backlog s1 (tx_id rtx0) = None).
  { apply backlog_lookup_none. rewrite Hbl1, existsb_app.
    apply backlog_lookup_none in Hn2. rewrite Hn2.
    cbn [existsb assigned tx_id orb].
    destruct (String.eqb_spec (tx_id stx0) (tx_id rtx0));
      [contradiction|reflexivity]. }
  destruct (Hfresh2 Hn2') as [s2' [Ew2 [Hbl2 _]]].
  injection Ew2 as _ <-.
  split; [congruence|].
  unfold assignee_of. rewrite Hbl2, Hbl1, <- app_assoc. reflexivity.
Qed.

End TransferWrites.

Lemma transfer_currency_writes_witness :
  exists stx rtx,
    tx_id stx = "tx-CREATE-A" /\ tx_id rtx = "tx-CREATE-B" /\
    dict_get (data_payload (transaction stx)) "previous" = Some (PStr "C1") /\
    dict_get (data_payload (transaction stx)) "account" = Some (PNum 100) /\
    dict_get (data_payload (transaction rtx)) "previous"
    = Some (PStr "genesis") /\
    Fixtures.accepted_transfer Fixtures.funded_store (PNum 30)
    = (OK (mkResponse 1 0),
       mkStore (backlog Fixtures.funded_store
                ++ [assigned stx "n2"; assigned rtx "n3"])
               []
               [insert_backlog (assigned stx "n2") soft;
                insert_backlog (assigned rtx "n3") soft]).
Proof.
  destruct (transfer_currency_writes "n1" "priv" ["n2"; "n3"] Fixtures.sig_ok
              Fixtures.no_owner Fixtures.keyed_create Fixtures.toy_sign
              (fun _ t => OK t) Fixtures.first_key Fixtures.last_key
              Fixtures.toy_payload_type
              Fixtures.toy_last_txid Fixtures.toy_current_account
              Fixtures.toy_pair_payload Fixtures.any_payload Fixtures.no_float
              "A" "A-priv" "B" [("amount", PNum 30)] Fixtures.funded_store
              (snd (Fixtures.accepted_transfer Fixtures.funded_store
                      (PNum 30)))
              (mkResponse 1 0) eq_refl)
    as [stx [rtx [ps [pr [last [balance [rlast [rprevious [rbalance
         [Hlegs _]]]]]]]]]].
  vm_compute in Hlegs. injection Hlegs as Hs Hr.
  exists stx, rtx. subst stx rtx.
  split; [reflexivity|]. split; [reflexivity|]. split; [reflexivity|].
  split; [reflexivity|]. split; reflexivity.
Defined.

(* ------------------------------------------------------------------ *)
(** ** Assets *)

Lemma asset_loop (verify : Block -> SignedVote -> bool) (bc : list Block)
  (response acc l : list Transaction) :
  for_each (asset_transaction verify bc) response acc = OK l ->
  l = acc ++ filter (fun tx => has_live_status verify bc (tx_id tx)) response.
Proof.
  revert acc. induction response as [|tx r IH]; intros acc H.
  - injection H as <-. now rewrite app_nil_r.
  - cbn [for_each filter] in *. unfold asset_transaction at 1 in H.
    unfold has_live_status at 1.
    destruct (get_blocks_status_containing_tx verify bc (tx_id tx))
      as [[validity|]|e]; cbn [bind] in H; try discriminate.
    destruct (in_values BLOCK_VALID validity),
             (in_values BLOCK_UNDECIDED validity);
      cbn [negb andb orb bind] in *; apply IH in H; rewrite H;
      rewrite <- ?app_assoc; reflexivity.
Qed.

Lemma get_tx_list_by_asset_filter (verify : Block -> SignedVote -> bool)
  (bc : list Block) (asset : pyval) (l : list Transaction) :
  get_tx_list_by_asset verify bc asset = OK l ->
  l = filter (fun tx => has_live_status verify bc (tx_id tx))
             (filter (carries_asset asset) (all_transactions bc)).
Proof. unfold get_tx_list_by_asset. intro H. now apply asset_loop in H. Qed.

Lemma write_transaction_returns (me : string) (nodes_except_me : list string)
  (choice : list string -> string) (tx : Transaction) (d : durability)
  (s : Store) :
  exists r, fst (write_transaction me nodes_except_me choice tx d s) = OK r.
Proof.
  unfold write_transaction. destruct (run_insert_backlog _ d s) as [r s'].
  now exists r.
Qed.

(** On a sound ledger the status query answers with a mapping for the
    id of every transaction of the ledger. *)
Lemma blocks_status_of_member (verify : Block -> SignedVote -> bool)
  (bc : list Block) (tx : Transaction) :
  primary_key_ok bc -> chain_ok verify bc -> In tx (all_transactions bc) ->
  exists validity,
    get_blocks_status_containing_tx verify bc (tx_id tx) = OK (Some validity).
Proof.
  intros Hpk Hok Htx. rewrite (blocks_status_cases verify bc _ Hpk).
  apply in_flat_map in Htx. destruct Htx as [b [Hb Ht]].
  assert (Hin : In b (containing bc (tx_id tx))).
  { apply filter_In. split; [exact Hb|]. apply existsb_exists.
    exists tx. split; [exact Ht|apply String.eqb_refl]. }
  destruct (containing bc (tx_id tx)) as [|b0 r0]; [contradiction|].
  pose proof (Hok (tx_id tx)) as Hv. apply Nat.ltb_ge in Hv. rewrite Hv.
  eexists. reflexivity.
Qed.

(** So the loop of [get_tx_list_by_asset] does not raise there. *)
Lemma asset_loop_returns (verify : Block -> SignedVote -> bool)
  (bc : list Block) (response acc : list Transaction) :
  primary_key_ok bc -> chain_ok verify bc ->
  (forall tx, In tx response -> In tx (all_transactions bc)) ->
  exists l, for_each (asset_transaction verify bc) response acc = OK l.
Proof.
  intros Hpk Hok. revert acc.
  induction response as [|tx r IH]; intros acc Hin.
  - now exists acc.
  - cbn [for_each]. unfold asset_transaction at 1.
    destruct (blocks_status_of_member verify bc tx Hpk Hok
                (Hin tx (or_introl eq_refl))) as [validity ->].
    cbn [bind].
    destruct (negb (in_values BLOCK_VALID validity)
              && negb (in_values BLOCK_UNDECIDED validity));
      cbn [bind]; apply IH; intros t Ht; apply Hin; now right.
Qed.

(** The list [get_tx_list_by_asset] returns on a sound ledger in which
    an id names one transaction: the carriers of the asset that a VALID or
    UNDECIDED block holds. *)
Lemma get_tx_list_by_asset_held (verify : Block -> SignedVote -> bool)
  (bc : list Block) (asset : pyval) :
  primary_key_ok bc -> chain_ok verify bc -> ids_determine bc ->
  exists l,
    get_tx_list_by_asset verify bc asset = OK l /\
    forall tx, In tx l <->
               carries_asset asset tx = true /\ held_live verify bc tx.
Proof.
  intros Hpk Hok Hids.
  destruct (asset_loop_returns verify bc
              (filter (carries_asset asset) (all_transactions bc)) []
              Hpk Hok) as [l Hl].
  { intros tx Hin. now apply filter_In in Hin. }
  exists l. split; [exact Hl|].
  rewrite (get_tx_list_by_asset_filter verify bc asset l Hl).
  intro tx. rewrite !filter_In. split.
  - intros [[Hin Hc] Hlive]. split; [exact Hc|].
    now apply has_live_status_held.
  - intros [Hc Hh]. split.
    + split; [|exact Hc]. destruct Hh as [b [Hb [Ht _]]].
      apply in_flat_map. now exists b.
    + now apply held_has_live_status.
Qed.

Lemma single_block_chain_ok (verify : Block -> SignedVote -> bool)
  (b : Block) : chain_ok verify [b].
Proof.
  intro txid. unfold n_valid_blocks, containing. cbn [filter].
  destruct (block_has_tx txid b); cbn [filter length]; [|lia].
  destruct (status_eqb BLOCK_VALID (block_election_status verify b));
    cbn [length]; lia.
Qed.

Section Assets.

Variables me me_private : string.
Variable nodes_except_me : list string.
Variable verify : Block -> SignedVote -> bool.
Variable has_owner : Details -> string -> bool.
Variable create :
  owners -> owners -> option TxInput -> string -> payload -> Transaction.
Variable sign : Transaction -> string -> Transaction.
Variable choice : list string -> string.
Variable payload_format : payload -> bool.
Abbreviation new_asset :=
  (create_asset me verify me_private nodes_except_me create sign choice
                payload_format).
Abbreviation asset_list := (get_tx_list_by_asset verify).

(** X23: [create_asset] raises [InvalidPayload] for a payload of the
    wrong format and [KeyError] for one without an asset; whenever it
    raises it has written nothing.  On a [bigchain] with a sound primary
    key, where no id is in more than one VALID block and an id names one
    transaction, the transactions that carry the asset decide: when a
    VALID or UNDECIDED block holds one of them the call raises
    [InvalidAsset], and when no such block holds any of them it writes the
    signed CREATE transaction without validating it.  The backlog plays
    no part: two stores with the same [bigchain] raise the same
    exceptions. *)
Theorem create_asset_spec (pub_key : string) (p : payload) (s : Store) :
  (payload_format p = false ->
   new_asset pub_key p s = (Raise InvalidPayload, s)) /\
  (payload_format p = true -> dict_get p "asset" = None ->
   new_asset pub_key p s = (Raise KeyError, s)) /\
  (forall e s', new_asset pub_key p s = (Raise e, s') -> s' = s) /\
  (primary_key_ok (bigchain s) -> chain_ok verify (bigchain s) ->
   ids_determine (bigchain s) ->
   forall asset,
     payload_format p = true -> dict_get p "asset" = Some asset ->
     ((exists tx, carries_asset asset tx = true /\
                  held_live verify (bigchain s) tx) ->
      new_asset pub_key p s = (Raise InvalidAsset, s)) /\
     ((forall tx, carries_asset asset tx = true ->
                  ~ held_live verify (bigchain s) tx) ->
      new_asset pub_key p s =
      write_transaction me nodes_except_me choice
        (sign (create (OneKey me) (OneKey pub_key) None "CREATE" p)
              me_private)
        soft s)) /\
  (forall s2 e, bigchain s2 = bigchain s ->
     (fst (new_asset pub_key p s) = Raise e <->
      fst (new_asset pub_key p s2) = Raise e)).
Proof.
  unfold create_asset, create_transaction, sign_transaction.
  split; [intro H; now rewrite H|].
  split; [intros H1 H2; now rewrite H1, H2|].
  split; [|split].
  - intros e s'.
    destruct (payload_format p); [|now intros [= _ <-]].
    destruct (dict_get p "asset") as [asset|]; [|now intros [= _ <-]].
    destruct (asset_list (bigchain s) asset) as [l|e0];
      [|now intros [= _ <-]].
    destruct (Nat.eqb (length l) 0); [|now intros [= _ <-]].
    intro H.
    destruct (write_transaction_returns me nodes_except_me choice
                (sign (create (OneKey me) (OneKey pub_key) None "CREATE" p)
                      me_private) soft s) as [r Hr].
    rewrite H in Hr. discriminate.
  - intros Hpk Hok Hids asset Hf Ha. rewrite Hf, Ha.
    destruct (get_tx_list_by_asset_held verify (bigchain s) asset
                Hpk Hok Hids) as [l [-> Hl]].
    split.
    + intros [tx Htx]. apply Hl in Htx.
      destruct l as [|t r]; [contradiction|reflexivity].
    + intro Hno. destruct l as [|t r]; [reflexivity|exfalso].
      destruct (proj1 (Hl t) (or_introl eq_refl)) as [Hc Hh].
      exact (Hno t Hc Hh).
  - intros s2 e Hb. rewrite Hb.
    destruct (payload_format p); [|reflexivity].
    destruct (dict_get p "asset") as [asset|]; [|reflexivity].
    destruct (asset_list (bigchain s) asset) as [l|e0]; [|reflexivity].
    destruct (Nat.eqb (length l) 0); [|reflexivity].
    destruct (write_transaction_returns me nodes_except_me choice
                (sign (create (OneKey me) (OneKey pub_key) None "CREATE" p)
                      me_private) soft s) as [r Hr].
    destruct (write_transaction_returns me nodes_except_me choice
                (sign (create (OneKey me) (OneKey pub_key) None "CREATE" p)
                      me_private) soft s2) as [r2 Hr2].
    rewrite Hr, Hr2. split; discriminate.
Qed.

End Assets.

(** X24: on a [bigchain] with a sound primary key in which an id names
    one transaction, the transaction [get_last_tx_by_asset] returns is one
    the sorting helper was handed: it carries the asset, a VALID or
    UNDECIDED block holds it, and no owner of its first condition is a
    node of the federation.  For an asset that no transaction of
    [bigchain] carries, [get_last_tx_by_asset] and [get_owner] raise
    [InvalidAsset]. *)
Theorem get_last_tx_by_asset_spec
  (me : string) (nodes_except_me : list string)
  (verify : Block -> SignedVote -> bool)
  (sort_by_timestamp : list Transaction -> list Transaction)
  (bc : list Block) (asset : pyval) :
  (forall l tx, In tx (sort_by_timestamp l) -> In tx l) ->
  (primary_key_ok bc -> ids_determine bc ->
   forall tx, get_last_tx_by_asset me verify nodes_except_me
                                   sort_by_timestamp bc asset = OK tx ->
     carries_asset asset tx = true /\
     held_live verify bc tx /\
     exists c rest,
       conditions (transaction tx) = c :: rest /\
       forall owner, In owner (new_owners c) ->
                     ~ In owner (nodes_except_me ++ [me])) /\
  (filter (carries_asset asset) (all_transactions bc) = [] ->
   get_last_tx_by_asset me verify nodes_except_me sort_by_timestamp bc asset
   = Raise InvalidAsset /\
   get_owner me verify nodes_except_me sort_by_timestamp bc asset
   = Raise InvalidAsset).
Proof.
  intro Hsort. unfold get_owner, get_last_tx_by_asset. split.
  - intros Hpk Hids tx H.
    destruct (get_tx_list_by_asset verify bc asset) as [l|e] eqn:El;
      cbn [bind] in H; [|discriminate].
    destruct (Nat.ltb 0 (length l)); [|discriminate].
    destruct (sort_by_timestamp l) as [|response r] eqn:Es; [discriminate|].
    destruct (conditions (transaction response)) as [|c rest] eqn:Ec;
      [discriminate|].
    destruct (owned_by_federation me nodes_except_me c) eqn:Eo;
      [discriminate|].
    injection H as <-.
    assert (Hin : In response l) by (apply Hsort; rewrite Es; now left).
    rewrite (get_tx_list_by_asset_filter verify bc asset l El) in Hin.
    apply filter_In in Hin. destruct Hin as [Hin Hlive].
    apply filter_In in Hin. destruct Hin as [Hin Hc].
    split; [exact Hc|].
    split; [now apply has_live_status_held|].
    exists c, rest. split; [exact Ec|].
    intros owner Ho Hfed. unfold owned_by_federation in Eo.
    assert (existsb
              (fun o => existsb (String.eqb o) (nodes_except_me ++ [me]))
              (new_owners c) = true); [|congruence].
    apply existsb_exists. exists owner. split; [exact Ho|].
    apply existsb_exists. exists owner. split; [exact Hfed|].
    apply String.eqb_refl.
  - intro Hnone. unfold get_tx_list_by_asset. rewrite Hnone.
    cbn [for_each bind length Nat.ltb Nat.leb]. split; reflexivity.
Qed.

Lemma asset_store_keys : primary_key_ok (bigchain Fixtures.asset_store).
Proof.
  unfold primary_key_ok. simpl.
  repeat constructor; simpl; intuition discriminate.
Defined.

Lemma asset_store_ids : ids_determine (bigchain Fixtures.asset_store).
Proof.
  intros t1 t2 H1 H2 _. cbn in H1, H2.
  destruct H1 as [<-|[]], H2 as [<-|[]]. reflexivity.
Defined.

Lemma asset_tx_held :
  held_live Fixtures.sig_ok (bigchain Fixtures.asset_store) Fixtures.asset_tx.
Proof.
  exists (Fixtures.blk "B1" [Fixtures.asset_tx] (Fixtures.yes "B1")).
  split; [now left|]. split; [now left|]. vm_compute. discriminate.
Defined.

Lemma create_asset_spec_witness :
  create_asset "n1" Fixtures.sig_ok "priv" [] Fixtures.toy_create
    Fixtures.toy_sign Fixtures.first_key Fixtures.any_payload "B"
    [("category", PStr "asset"); ("asset", PStr "H")] Fixtures.asset_store
  = (Raise InvalidAsset, Fixtures.asset_store).
Proof.
  refine (proj1 (proj1 (proj2 (proj2 (proj2
            (create_asset_spec "n1" "priv" [] Fixtures.sig_ok
               Fixtures.toy_create Fixtures.toy_sign Fixtures.first_key
               Fixtures.any_payload "B"
               [("category", PStr "asset"); ("asset", PStr "H")]
               Fixtures.asset_store))))
            asset_store_keys (single_block_chain_ok _ _) asset_store_ids
            (PStr "H") eq_refl eq_refl) _).
  exists Fixtures.asset_tx. split; [reflexivity|exact asset_tx_held].
Defined.

Lemma get_last_tx_by_asset_spec_witness :
  carries_asset (PStr "H") Fixtures.asset_tx = true /\
  held_live Fixtures.sig_ok (bigchain Fixtures.asset_store)
            Fixtures.asset_tx /\
  exists c rest,
    conditions (transaction Fixtures.asset_tx) = c :: rest /\
    forall owner, In owner (new_owners c) -> ~ In owner ([] ++ ["n1"]).
Proof.
  apply (proj1 (get_last_tx_by_asset_spec "n1" [] Fixtures.sig_ok
                  (fun l => l) (bigchain Fixtures.asset_store) (PStr "H")
                  (fun l tx H => H))
           asset_store_keys asset_store_ids).
  reflexivity.
Defined.

(* ------------------------------------------------------------------ *)
(** ** Counting transactions *)

Lemma filter_or_and {A : Type} (p q : A -> bool) (l : list A) :
  length (filter p l) + length (filter q l) =
  length (filter (fun x => p x || q x) l)
  + length (filter (fun x => p x && q x) l).
Proof.
  induction l as [|a r IH]; cbn [filter length]; [reflexivity|].
  destruct (p a), (q a); cbn [orb andb length]; lia.
Qed.

(** X25: without a key [get_total_tx_number] is the number of
    transaction entries of [bigchain] minus one, so -1 on an empty ledger;
    with a key it counts the transactions that name the key as a new owner
    or as a current owner, and those that name it as both count twice. *)
Theorem get_total_tx_number_counts (bc : list Block) :
  get_total_tx_number bc None
  = (Z.of_nat (length (all_transactions bc)) - 1)%Z /\
  get_total_tx_number [] None = (-1)%Z /\
  (forall key, key <> "" ->
     get_total_tx_number bc (Some key) =
     Z.of_nat
       (length (filter (fun tx => names_owner key tx || sent_by key tx)
                       (all_transactions bc))
        + length (filter (fun tx => names_owner key tx && sent_by key tx)
                         (all_transactions bc)))).
Proof.
  split; [reflexivity|]. split; [reflexivity|].
  intros key Hkey. destruct key as [|c k]; [contradiction|].
  cbn [get_total_tx_number]. now rewrite filter_or_and.
Qed.

Lemma get_total_tx_number_counts_witness :
  get_total_tx_number Fixtures.transfer_chain (Some "B") =
  Z.of_nat
    (length (filter (fun tx => names_owner "B" tx || sent_by "B" tx)
                    (all_transactions Fixtures.transfer_chain))
     + length (filter (fun tx => names_owner "B" tx && sent_by "B" tx)
                      (all_transactions Fixtures.transfer_chain))).
Proof.
  apply (get_total_tx_number_counts Fixtures.transfer_chain).
  discriminate.
Defined.

(* ------------------------------------------------------------------ *)
(** ** Currency history and payloads without [previous] *)

Lemma filter_app_first {A : Type} (p : A -> bool) (pre post : list A)
  (x : A) :
  filter p pre = [] -> p x = true ->
  filter p (pre ++ x :: post) = x :: filter p post.
Proof.
  intros Hpre Hx. rewrite filter_app, Hpre. cbn [app filter]. now rewrite Hx.
Qed.

(** X26: the currency queries read [payload['previous']] of every
    transaction that pays the owner, whatever its category.  When the
    first transaction of the backlog that names the owner pays its first
    output to the owner alone and its payload has no [previous] field,
    [get_backlog_currency_ids], [get_last_currency] and
    [get_current_balance] raise [KeyError]. *)
Theorem currency_history_needs_previous
  (verify : Block -> SignedVote -> bool)
  (has_owner : Details -> string -> bool)
  (payload_type : Transaction -> string)
  (last_txid : list CurrencyId -> option CurrencyId)
  (current_account : last_tx -> res pyval)
  (s : Store) (owner : string) (pre post : list Transaction)
  (tx : Transaction) (c : Condition) (cs : list Condition) :
  backlog s = pre ++ tx :: post ->
  filter (names_owner owner) pre = [] ->
  names_owner owner tx = true ->
  conditions (transaction tx) = c :: cs ->
  length (new_owners c) = 1 ->
  public_key (details c) = Some owner ->
  dict_get (data_payload (transaction tx)) "previous" = None ->
  get_backlog_currency_ids has_owner payload_type s owner = Raise KeyError /\
  get_last_currency verify has_owner payload_type last_txid s owner
  = Raise KeyError /\
  get_current_balance verify has_owner payload_type last_txid
                      current_account s owner = Raise KeyError.
Proof.
  intros Hb Hpre Hname Hc Hlen Hpk Hprev.
  assert (E : get_backlog_currency_ids has_owner payload_type s owner
              = Raise KeyError).
  { unfold get_backlog_currency_ids.
    rewrite Hb, (filter_app_first _ pre post tx Hpre Hname).
    cbn [for_each]. rewrite Hc. cbn [for_each].
    unfold currency_condition at 1. rewrite Hlen, Hpk.
    cbn [Nat.eqb]. rewrite String.eqb_refl.
    unfold currency_id. rewrite Hprev. reflexivity. }
  split; [exact E|].
  assert (E2 : get_last_currency verify has_owner payload_type last_txid s
                                 owner = Raise KeyError).
  { unfold get_last_currency. now rewrite E. }
  split; [exact E2|]. unfold get_current_balance. now rewrite E2.
Qed.

Lemma currency_history_needs_previous_witness :
  get_backlog_currency_ids Fixtures.no_owner Fixtures.toy_payload_type
    (mkStore [Fixtures.asset_tx] [] []) "A" = Raise KeyError /\
  get_last_currency Fixtures.sig_ok Fixtures.no_owner
    Fixtures.toy_payload_type Fixtures.toy_last_txid
    (mkStore [Fixtures.asset_tx] [] []) "A" = Raise KeyError /\
  get_current_balance Fixtures.sig_ok Fixtures.no_owner
    Fixtures.toy_payload_type Fixtures.toy_last_txid
    Fixtures.toy_current_account (mkStore [Fixtures.asset_tx] [] []) "A"
  = Raise KeyError.
Proof.
  apply (currency_history_needs_previous Fixtures.sig_ok Fixtures.no_owner
           Fixtures.toy_payload_type Fixtures.toy_last_txid
           Fixtures.toy_current_account (mkStore [Fixtures.asset_tx] [] [])
           "A" [] [] Fixtures.asset_tx (Fixtures.single "A" 0) []);
    reflexivity.
Defined.

(* ------------------------------------------------------------------ *)
(** ** Moving and destroying assets *)

(** X27: [transfer_asset] raises [TypeError] and writes nothing when
    [get_transaction] finds no transaction for the input; when it finds
    one, it hands [write_transaction] a TRANSFER request from the old to
    the new owner that spends the input and whose payload is the payload
    found with [issue] set to ["transfer"].  [destroy_asset] raises
    [InvalidAsset] and writes nothing for an asset that no transaction of
    [bigchain] carries. *)
Theorem asset_moves
  (me : string) (nodes_except_me : list string)
  (verify : Block -> SignedVote -> bool)
  (has_owner : Details -> string -> bool)
  (create : owners -> owners -> option TxInput -> string -> payload
            -> Transaction)
  (sign : Transaction -> string -> Transaction)
  (choice : list string -> string)
  (sort_by_timestamp : list Transaction -> list Transaction)
  (s : Store) :
  (forall old_pub old_priv new_pub i,
     get_transaction verify (bigchain s) (txid i) = OK None ->
     transfer_asset me verify nodes_except_me create sign choice
                    old_pub old_priv new_pub i s = (Raise TypeError, s)) /\
  (forall old_pub old_priv new_pub i tx,
     get_transaction verify (bigchain s) (txid i) = OK (Some tx) ->
     exists p,
       dict_get p "issue" = Some (PStr "transfer") /\
       (forall k, k <> "issue" ->
          dict_get p k = dict_get (data_payload (transaction tx)) k) /\
       transfer_asset me verify nodes_except_me create sign choice
                      old_pub old_priv new_pub i s
       = write_transaction me nodes_except_me choice
           (sign (create (OneKey old_pub) (OneKey new_pub) (Some i)
                         "TRANSFER" p)
                 old_priv)
           soft s) /\
  (forall pub priv asset,
     filter (carries_asset asset) (all_transactions (bigchain s)) = [] ->
     destroy_asset me verify has_owner nodes_except_me create sign choice
                   sort_by_timestamp pub priv asset s
     = (Raise InvalidAsset, s)).
Proof.
  split; [|split].
  - intros old_pub old_priv new_pub i H. unfold transfer_asset.
    now rewrite H.
  - intros old_pub old_priv new_pub i tx H. unfold transfer_asset.
    rewrite H. eexists. split; [apply dict_get_set_same|].
    split; [|reflexivity].
    intros k Hk. apply dict_get_set_other. congruence.
  - intros pub priv asset H.
    unfold destroy_asset, get_last_tx_by_asset, get_tx_list_by_asset.
    rewrite H. reflexivity.
Qed.

Lemma asset_moves_witness :
  transfer_asset "n1" Fixtures.sig_ok [] Fixtures.toy_create
    Fixtures.toy_sign Fixtures.first_key "A" "A-priv" "B"
    (mkTxInput "T9" 0) Fixtures.asset_store
  = (Raise TypeError, Fixtures.asset_store).
Proof.
  apply (asset_moves "n1" [] Fixtures.sig_ok Fixtures.no_owner
           Fixtures.toy_create Fixtures.toy_sign Fixtures.first_key
           (fun l => l) Fixtures.asset_store).
  reflexivity.
Defined.
